(** * Global input capture engine: a shallow embedding and its properties

    The two platform plugins of the keyboard playground are embedded here:

    - [Linux]: [linux/input_capture_plugin.cc], the X11 RECORD based capture
      (a worker thread blocked in [XRecordEnableContext]);
    - [Windows]: [windows/runner/input_capture_plugin.cpp], the low-level
      keyboard and mouse hooks.

    Calls into the operating system are recorded in a chronological trace, and
    the set of OS resources a process holds is computed from that trace.  What
    the OS answers (a handle, a null pointer, an error code) is an input of the
    embedded function. *)

From Stdlib Require Import ZArith List String Ascii Bool Lia.
From Stdlib Require Import Floats DecimalString DecimalN.
From Stdlib.Strings Require Import Byte.
From stdpp Require Import base gmap strings list fin_maps.
Import ListNotations.

Local Open Scope string_scope.
Local Open Scope Z_scope.

(** ** Values shared by both embeddings *)

(** [std::to_string(unsigned)] and [printf("%lu")]: the decimal digits. *)
Definition to_string (n : Z) : string :=
  NilEmpty.string_of_uint (N.to_uint (Z.to_N n)).

(** Conversion of a C integer to [double]; exact for every 32-bit value. *)
Definition double_of_Z (z : Z) : float :=
  match z with
  | Z0 => 0%float
  | Zpos _ => PrimFloat.of_uint63 (Uint63.of_Z z)
  | Zneg _ => PrimFloat.opp (PrimFloat.of_uint63 (Uint63.of_Z (- z)))
  end.

(** Reinterpretation of the low 16 bits as [int16_t] / [short]. *)
Definition int16 (z : Z) : Z :=
  let u := Z.land z 0xFFFF in
  if u <? 0x8000 then u else u - 0x10000.

(** [s1 == s2] on strings, as a [bool]. *)
Definition streq (a b : string) : bool := String.eqb a b.

(** ** The kernel-stream platform: [linux/input_capture_plugin.cc] *)

Module Linux.

(** *** Constants of the X11 headers ([X11/X.h], [X11/keysymdef.h],
    [X11/extensions/record.h]) *)

Definition KeyPress : Z := 2.
Definition KeyRelease : Z := 3.
Definition ButtonPress : Z := 4.
Definition ButtonRelease : Z := 5.
Definition MotionNotify : Z := 6.

Definition ShiftMask : Z := 1.
Definition ControlMask : Z := 4.
Definition Mod1Mask : Z := 8.
Definition Mod4Mask : Z := 64.

Definition XRecordFromServer : Z := 0.

Definition XK_space : Z := 0x20.
Definition XK_asciitilde : Z := 0x7e.
Definition XK_BackSpace : Z := 0xff08.
Definition XK_Tab : Z := 0xff09.
Definition XK_Return : Z := 0xff0d.
Definition XK_Escape : Z := 0xff1b.
Definition XK_Delete : Z := 0xffff.
Definition XK_Home : Z := 0xff50.
Definition XK_Left : Z := 0xff51.
Definition XK_Up : Z := 0xff52.
Definition XK_Right : Z := 0xff53.
Definition XK_Down : Z := 0xff54.
Definition XK_Page_Up : Z := 0xff55.
Definition XK_Page_Down : Z := 0xff56.
Definition XK_End : Z := 0xff57.
Definition XK_F1 : Z := 0xffbe.
Definition XK_F2 : Z := 0xffbf.
Definition XK_F3 : Z := 0xffc0.
Definition XK_F4 : Z := 0xffc1.
Definition XK_F5 : Z := 0xffc2.
Definition XK_F6 : Z := 0xffc3.
Definition XK_F7 : Z := 0xffc4.
Definition XK_F8 : Z := 0xffc5.
Definition XK_F9 : Z := 0xffc6.
Definition XK_F10 : Z := 0xffc7.
Definition XK_F11 : Z := 0xffc8.
Definition XK_F12 : Z := 0xffc9.
Definition XK_Shift_L : Z := 0xffe1.
Definition XK_Shift_R : Z := 0xffe2.
Definition XK_Control_L : Z := 0xffe3.
Definition XK_Control_R : Z := 0xffe4.
Definition XK_Alt_L : Z := 0xffe9.
Definition XK_Alt_R : Z := 0xffea.
Definition XK_Super_L : Z := 0xffeb.
Definition XK_Super_R : Z := 0xffec.

(** *** [FlValue]: the values put on the event channel *)

#[warnings="-register-all"]
Inductive FlValue : Type :=
| fl_value_new_int (z : Z)
| fl_value_new_float (d : float)
| fl_value_new_bool (b : bool)
| fl_value_new_string (s : string)
| fl_value_new_list (l : list FlValue)
| fl_value_new_map (m : list (string * FlValue)).

(** A map value keeps its entries in insertion order; all keys used by the
    plugin are strings. *)
Definition FlMap : Type := list (string * FlValue).

(** [fl_value_set_string_take]: overwrite the entry of an equal key, append
    otherwise. *)
Fixpoint fl_value_set_string_take (m : FlMap) (key : string) (v : FlValue) : FlMap :=
  match m with
  | [] => [(key, v)]
  | (k, old) :: rest =>
      if streq k key then (k, v) :: rest
      else (k, old) :: fl_value_set_string_take rest key v
  end.

(** [fl_value_remove]: drop the entry of an equal key, if any. *)
Fixpoint fl_value_remove (m : FlMap) (key : string) : FlMap :=
  match m with
  | [] => []
  | (k, old) :: rest =>
      if streq k key then rest else (k, old) :: fl_value_remove rest key
  end.

Fixpoint fl_value_lookup_string (m : FlMap) (key : string) : option FlValue :=
  match m with
  | [] => None
  | (k, v) :: rest => if streq k key then Some v else fl_value_lookup_string rest key
  end.

(** [fl_value_append_take] on a list value. *)
Definition fl_value_append_take (l : list FlValue) (v : FlValue) : list FlValue :=
  l ++ [v].

(** The keys of a map, in order: the fields an event carries. *)
Definition fields (m : FlMap) : list string := map fst m.

(** *** [keycode_to_string] *)

(** The [switch] over the special keys is a cascade of equality tests: the
    case labels are pairwise distinct.  The result lives in a static buffer
    that the caller copies at once, so it is a plain value here. *)
Definition keycode_to_string (keysym : Z) : string :=
  if (XK_space <=? keysym) && (keysym <=? XK_asciitilde) then
    String (ascii_of_N (Z.to_N keysym)) EmptyString
  else if keysym =? XK_Return then "Return"
  else if keysym =? XK_Tab then "Tab"
  else if keysym =? XK_BackSpace then "Backspace"
  else if keysym =? XK_Escape then "Escape"
  else if keysym =? XK_Delete then "Delete"
  else if keysym =? XK_Home then "Home"
  else if keysym =? XK_End then "End"
  else if keysym =? XK_Page_Up then "PageUp"
  else if keysym =? XK_Page_Down then "PageDown"
  else if keysym =? XK_Left then "Left"
  else if keysym =? XK_Right then "Right"
  else if keysym =? XK_Up then "Up"
  else if keysym =? XK_Down then "Down"
  else if keysym =? XK_F1 then "F1"
  else if keysym =? XK_F2 then "F2"
  else if keysym =? XK_F3 then "F3"
  else if keysym =? XK_F4 then "F4"
  else if keysym =? XK_F5 then "F5"
  else if keysym =? XK_F6 then "F6"
  else if keysym =? XK_F7 then "F7"
  else if keysym =? XK_F8 then "F8"
  else if keysym =? XK_F9 then "F9"
  else if keysym =? XK_F10 then "F10"
  else if keysym =? XK_F11 then "F11"
  else if keysym =? XK_F12 then "F12"
  else if (keysym =? XK_Shift_L) || (keysym =? XK_Shift_R) then "Shift"
  else if (keysym =? XK_Control_L) || (keysym =? XK_Control_R) then "Control"
  else if (keysym =? XK_Alt_L) || (keysym =? XK_Alt_R) then "Alt"
  else if (keysym =? XK_Super_L) || (keysym =? XK_Super_R) then "Super"
  else "Key" ++ to_string keysym.

(** *** The plugin object and the operating system around it *)

(** Pointers and X resource ids are integers; [0] is [nullptr] / no id. *)
Record InputCapturePlugin : Type := {
  event_handler : Z;
  display : Z;
  record_display : Z;
  record_context : Z;
  record_thread : Z;
  is_capturing : bool;
  thread_running : bool
}.

(** Calls that acquire, signal or release a capture resource, with what the
    system answered. *)
Inductive os_call : Type :=
| XOpenDisplay (ret : Z)
| XRecordAllocRange (ok : bool)
| XRecordCreateContext (dpy : Z) (ret : Z)
| XFree
| XCloseDisplay (dpy : Z)
| XRecordFreeContext (dpy : Z) (ctx : Z)
| XRecordDisableContext (dpy : Z) (ctx : Z)
| pthread_create (ret : Z) (thread : Z)
| pthread_join (thread : Z).

(** The plugin, the chronological trace of its OS calls, and the events it has
    put on the event channel. *)
Record World : Type := {
  self : InputCapturePlugin;
  calls : list os_call;
  channel : list FlMap
}.

Definition call (c : os_call) (w : World) : World :=
  {| self := self w; calls := calls w ++ [c]; channel := channel w |}.

Definition set_record_display (v : Z) (w : World) : World :=
  {| self := {| event_handler := event_handler (self w); display := display (self w);
                record_display := v; record_context := record_context (self w);
                record_thread := record_thread (self w);
                is_capturing := is_capturing (self w);
                thread_running := thread_running (self w) |};
     calls := calls w; channel := channel w |}.

Definition set_record_context (v : Z) (w : World) : World :=
  {| self := {| event_handler := event_handler (self w); display := display (self w);
                record_display := record_display (self w); record_context := v;
                record_thread := record_thread (self w);
                is_capturing := is_capturing (self w);
                thread_running := thread_running (self w) |};
     calls := calls w; channel := channel w |}.

Definition set_record_thread (v : Z) (w : World) : World :=
  {| self := {| event_handler := event_handler (self w); display := display (self w);
                record_display := record_display (self w);
                record_context := record_context (self w);
                record_thread := v;
                is_capturing := is_capturing (self w);
                thread_running := thread_running (self w) |};
     calls := calls w; channel := channel w |}.

Definition set_is_capturing (v : bool) (w : World) : World :=
  {| self := {| event_handler := event_handler (self w); display := display (self w);
                record_display := record_display (self w);
                record_context := record_context (self w);
                record_thread := record_thread (self w);
                is_capturing := v;
                thread_running := thread_running (self w) |};
     calls := calls w; channel := channel w |}.

Definition set_thread_running (v : bool) (w : World) : World :=
  {| self := {| event_handler := event_handler (self w); display := display (self w);
                record_display := record_display (self w);
                record_context := record_context (self w);
                record_thread := record_thread (self w);
                is_capturing := is_capturing (self w);
                thread_running := v |};
     calls := calls w; channel := channel w |}.

(** The capture resources of the platform. *)
Inductive resource : Type :=
| RecordDisplay (dpy : Z)
| RecordRange
| RecordContext (ctx : Z)
| WorkerThread (thread : Z).

Definition resource_eqb (a b : resource) : bool :=
  match a, b with
  | RecordDisplay x, RecordDisplay y => x =? y
  | RecordRange, RecordRange => true
  | RecordContext x, RecordContext y => x =? y
  | WorkerThread x, WorkerThread y => x =? y
  | _, _ => false
  end.

Fixpoint release (r : resource) (held : list resource) : list resource :=
  match held with
  | [] => []
  | h :: rest => if resource_eqb h r then rest else h :: release r rest
  end.

(** The effect of one OS call on the resources held, most recent first.  A
    call that failed ([NULL], [0], a non-zero error code) acquires nothing. *)
Definition effect (c : os_call) (held : list resource) : list resource :=
  match c with
  | XOpenDisplay ret => if ret =? 0 then held else RecordDisplay ret :: held
  | XRecordAllocRange ok => if ok then RecordRange :: held else held
  | XRecordCreateContext _ ret => if ret =? 0 then held else RecordContext ret :: held
  | XFree => release RecordRange held
  | XCloseDisplay dpy => release (RecordDisplay dpy) held
  | XRecordFreeContext _ ctx => release (RecordContext ctx) held
  | XRecordDisableContext _ _ => held
  | pthread_create ret thread => if ret =? 0 then WorkerThread thread :: held else held
  | pthread_join thread => release (WorkerThread thread) held
  end.

(** The resources held after a trace of calls. *)
Definition held_after (tr : list os_call) : list resource :=
  fold_left (fun held c => effect c held) tr [].

Definition held (w : World) : list resource := held_after (calls w).

(** What the system answers to the four acquisitions of one [start_capture]. *)
Record StartAnswers : Type := {
  XOpenDisplay_ret : Z;
  XRecordAllocRange_ok : bool;
  XRecordCreateContext_ret : Z;
  pthread_create_ret : Z;
  pthread_create_thread : Z
}.

(** *** [start_capture] *)

Definition start_capture (os : StartAnswers) (w : World) : World :=
  if is_capturing (self w) then w
  else
    (* Create a separate display connection for recording *)
    let w := call (XOpenDisplay (XOpenDisplay_ret os)) w in
    let w := set_record_display (XOpenDisplay_ret os) w in
    if record_display (self w) =? 0 then w
    else
      (* Set up the record range for all events *)
      let w := call (XRecordAllocRange (XRecordAllocRange_ok os)) w in
      if negb (XRecordAllocRange_ok os) then
        let w := call (XCloseDisplay (record_display (self w))) w in
        set_record_display 0 w
      else
        (* Create the record context *)
        let w := call (XRecordCreateContext (record_display (self w))
                                            (XRecordCreateContext_ret os)) w in
        let w := set_record_context (XRecordCreateContext_ret os) w in
        let w := call XFree w in
        if record_context (self w) =? 0 then
          let w := call (XCloseDisplay (record_display (self w))) w in
          set_record_display 0 w
        else
          (* Start the recording thread *)
          let ret := pthread_create_ret os in
          let w := call (pthread_create ret (pthread_create_thread os)) w in
          if negb (ret =? 0) then
            let w := call (XRecordFreeContext (record_display (self w))
                                              (record_context (self w))) w in
            let w := call (XCloseDisplay (record_display (self w))) w in
            let w := set_record_display 0 w in
            set_record_context 0 w
          else
            let w := set_record_thread (pthread_create_thread os) w in
            let w := set_is_capturing true w in
            set_thread_running true w.

(** *** [stop_capture] *)

Definition stop_capture (w : World) : World :=
  if negb (is_capturing (self w)) then w
  else
    let w := set_is_capturing false w in
    let w := set_thread_running false w in
    (* Disable the record context *)
    let w :=
      if negb (record_context (self w) =? 0) then
        let w := call (XRecordDisableContext (display (self w))
                                             (record_context (self w))) w in
        let w := call (XRecordFreeContext (display (self w))
                                          (record_context (self w))) w in
        set_record_context 0 w
      else w in
    (* Wait for thread to finish *)
    let w := call (pthread_join (record_thread (self w))) w in
    (* Close the record display *)
    if negb (record_display (self w) =? 0) then
      let w := call (XCloseDisplay (record_display (self w))) w in
      set_record_display 0 w
    else w.

(** *** [send_event_to_dart] and [record_event_callback] *)

Definition send_event_to_dart (w : World) (event_data : FlMap) : World :=
  if negb (event_handler (self w) =? 0) then
    {| self := self w; calls := calls w; channel := channel w ++ [event_data] |}
  else w.

(** The raw record handed to the callback: its category and the bytes of the
    wire event (32 bytes for every core device event). *)
Record XRecordInterceptData : Type := {
  category : Z;
  data : list byte
}.

(** [event_data[i]], an [unsigned char]. *)
Definition byte_at (event_data : list byte) (i : nat) : Z :=
  Z.of_N (Byte.to_N (nth i event_data Byte.x00)).

(** [*(int16_t* )(event_data + i)] on a little-endian host. *)
Definition int16_at (event_data : list byte) (i : nat) : Z :=
  int16 (byte_at event_data i + 256 * byte_at event_data (S i)).

(** What the callback reads from its surroundings: the wall clock in
    microseconds and the keyboard mapping of the query connection. *)
Record CallbackEnv : Type := {
  g_get_real_time : Z;
  XKeycodeToKeysym : Z -> Z -> Z
}.

(** The callback builds a fresh [event_map] for every record; the [switch]
    over the event type has no [default] case.  [XRecordFreeData] only gives
    the record's memory back and is left out. *)
Definition record_event_callback (env : CallbackEnv) (w : World)
    (d : XRecordInterceptData) : World :=
  if negb (category d =? XRecordFromServer) then w
  else
    (* Parse the event *)
    let event_data := data d in
    let event_type := Z.land (byte_at event_data 0) 0x7F in
    let event_map : FlMap := [] in
    (* Get timestamp *)
    let timestamp := Z.quot (g_get_real_time env) 1000 in
    let event_map :=
      fl_value_set_string_take event_map "timestamp" (fl_value_new_int timestamp) in
    if (event_type =? KeyPress) || (event_type =? KeyRelease) then
      let event_map :=
        fl_value_set_string_take event_map "type"
          (fl_value_new_string (if event_type =? KeyPress then "keyDown" else "keyUp")) in
      (* Extract key code (byte 1) *)
      let keycode := byte_at event_data 1 in
      let event_map :=
        fl_value_set_string_take event_map "keyCode" (fl_value_new_int keycode) in
      (* Convert keycode to keysym *)
      let keysym := XKeycodeToKeysym env (display (self w)) keycode in
      let key_string := keycode_to_string keysym in
      let event_map :=
        fl_value_set_string_take event_map "key" (fl_value_new_string key_string) in
      (* Extract modifiers *)
      let modifier_state := byte_at event_data 28 in
      let modifiers : list FlValue := [] in
      let modifiers :=
        if negb (Z.land modifier_state ShiftMask =? 0)
        then fl_value_append_take modifiers (fl_value_new_string "shift")
        else modifiers in
      let modifiers :=
        if negb (Z.land modifier_state ControlMask =? 0)
        then fl_value_append_take modifiers (fl_value_new_string "control")
        else modifiers in
      let modifiers :=
        if negb (Z.land modifier_state Mod1Mask =? 0)
        then fl_value_append_take modifiers (fl_value_new_string "alt")
        else modifiers in
      let modifiers :=
        if negb (Z.land modifier_state Mod4Mask =? 0)
        then fl_value_append_take modifiers (fl_value_new_string "meta")
        else modifiers in
      let event_map :=
        fl_value_set_string_take event_map "modifiers" (fl_value_new_list modifiers) in
      send_event_to_dart w event_map
    else if (event_type =? ButtonPress) || (event_type =? ButtonRelease) then
      let event_map :=
        fl_value_set_string_take event_map "type"
          (fl_value_new_string
             (if event_type =? ButtonPress then "mouseDown" else "mouseUp")) in
      (* Extract button number (byte 1) *)
      let button := byte_at event_data 1 in
      let button_name :=
        if button =? 1 then "left"
        else if button =? 2 then "middle"
        else if button =? 3 then "right"
        else "other" in
      let event_map :=
        fl_value_set_string_take event_map "button" (fl_value_new_string button_name) in
      (* Extract position *)
      let x := int16_at event_data 24 in
      let y := int16_at event_data 26 in
      let event_map :=
        fl_value_set_string_take event_map "x" (fl_value_new_float (double_of_Z x)) in
      let event_map :=
        fl_value_set_string_take event_map "y" (fl_value_new_float (double_of_Z y)) in
      (* Handle scroll wheel (buttons 4, 5 for vertical, 6, 7 for horizontal) *)
      let event_map :=
        if (4 <=? button) && (button <=? 7) then
          let event_map :=
            fl_value_set_string_take event_map "type" (fl_value_new_string "mouseScroll") in
          let event_map := fl_value_remove event_map "button" in
          let deltaX := 0%float in
          let deltaY := 0%float in
          let '(deltaX, deltaY) :=
            if button =? 4 then (deltaX, 1%float)
            else if button =? 5 then (deltaX, (-1)%float)
            else if button =? 6 then (1%float, deltaY)
            else if button =? 7 then ((-1)%float, deltaY)
            else (deltaX, deltaY) in
          let event_map :=
            fl_value_set_string_take event_map "deltaX" (fl_value_new_float deltaX) in
          fl_value_set_string_take event_map "deltaY" (fl_value_new_float deltaY)
        else event_map in
      send_event_to_dart w event_map
    else if event_type =? MotionNotify then
      let event_map :=
        fl_value_set_string_take event_map "type" (fl_value_new_string "mouseMove") in
      (* Extract position *)
      let x := int16_at event_data 24 in
      let y := int16_at event_data 26 in
      let event_map :=
        fl_value_set_string_take event_map "x" (fl_value_new_float (double_of_Z x)) in
      let event_map :=
        fl_value_set_string_take event_map "y" (fl_value_new_float (double_of_Z y)) in
      send_event_to_dart w event_map
    else w.

(** *** [method_call_cb] *)

Inductive FlMethodResponse : Type :=
| fl_method_success_response_new (result : FlValue)
| fl_method_not_implemented_response_new.

(** What the system answers during one method call: the acquisitions of a
    possible [start_capture] and [XRecordQueryVersion]. *)
Record CallAnswers : Type := {
  start_answers : StartAnswers;
  XRecordQueryVersion_ret : bool
}.

Definition method_call_cb (os : CallAnswers) (method : string) (w : World)
    : FlMethodResponse * World :=
  if streq method "startCapture" then
    let w := start_capture (start_answers os) w in
    (fl_method_success_response_new (fl_value_new_bool (is_capturing (self w))), w)
  else if streq method "stopCapture" then
    let w := stop_capture w in
    (fl_method_success_response_new (fl_value_new_bool true), w)
  else if streq method "isCapturing" then
    (fl_method_success_response_new (fl_value_new_bool (is_capturing (self w))), w)
  else if streq method "checkPermissions" then
    let has_record := XRecordQueryVersion_ret os in
    let result : FlMap :=
      fl_value_set_string_take [] "x11_record" (fl_value_new_bool has_record) in
    (fl_method_success_response_new (fl_value_new_map result), w)
  else if streq method "requestPermissions" then
    let has_record := XRecordQueryVersion_ret os in
    (fl_method_success_response_new (fl_value_new_bool has_record), w)
  else (fl_method_not_implemented_response_new, w).

(** *** Construction and registration *)

(** [input_capture_plugin_init] on the zero-filled object.  [dpy] is the
    query connection; it serves key-name lookups and is not a capture
    resource, so the trace of capture calls starts empty. *)
Definition input_capture_plugin_init (dpy : Z) : World :=
  {| self := {| event_handler := 0; display := dpy; record_display := 0;
                record_context := 0; record_thread := 0;
                is_capturing := false; thread_running := false |};
     calls := []; channel := [] |}.

(** The assignment of [plugin->event_handler] in
    [input_capture_plugin_register_with_registrar]. *)
Definition set_event_handler (handler : Z) (w : World) : World :=
  {| self := {| event_handler := handler; display := display (self w);
                record_display := record_display (self w);
                record_context := record_context (self w);
                record_thread := record_thread (self w);
                is_capturing := is_capturing (self w);
                thread_running := thread_running (self w) |};
     calls := calls w; channel := channel w |}.

Definition set_display (v : Z) (w : World) : World :=
  {| self := {| event_handler := event_handler (self w); display := v;
                record_display := record_display (self w);
                record_context := record_context (self w);
                record_thread := record_thread (self w);
                is_capturing := is_capturing (self w);
                thread_running := thread_running (self w) |};
     calls := calls w; channel := channel w |}.

(** [input_capture_plugin_dispose]: stop a running capture, then close the
    query connection and clear its field.  The parent class's [dispose], to
    which it chains up, has nothing of the plugin to touch. *)
Definition input_capture_plugin_dispose (w : World) : World :=
  (* Stop capture if running *)
  let w := if is_capturing (self w) then stop_capture w else w in
  (* Clean up display connection *)
  if negb (display (self w) =? 0) then
    let w := call (XCloseDisplay (display (self w))) w in
    set_display 0 w
  else w.

(** [listen_cb] and [cancel_cb], the callbacks of the event channel handler:
    each prints a line and returns no error; neither touches the plugin. *)
Definition listen_cb (w : World) : option string * World := (None, w).

Definition cancel_cb (w : World) : option string * World := (None, w).

(** *** Sequences of [startCapture] / [stopCapture] requests *)

Inductive request : Type :=
| Start (os : StartAnswers)
| Stop.

Definition step (w : World) (r : request) : World :=
  match r with
  | Start os => start_capture os w
  | Stop => stop_capture w
  end.

Definition run (rs : list request) (w : World) : World := fold_left step rs w.

(** The plugin after construction and registration, before any request. *)
Definition initial (dpy handler : Z) : World :=
  set_event_handler handler (input_capture_plugin_init dpy).

(** The resource a call releases, if it is a release. *)
Definition released_by (c : os_call) : option resource :=
  match c with
  | XFree => Some RecordRange
  | XCloseDisplay dpy => Some (RecordDisplay dpy)
  | XRecordFreeContext _ ctx => Some (RecordContext ctx)
  | pthread_join thread => Some (WorkerThread thread)
  | _ => None
  end.

(** Whether a call is an acquisition the system refused. *)
Definition refused (c : os_call) : bool :=
  match c with
  | XOpenDisplay ret => ret =? 0
  | XRecordAllocRange ok => negb ok
  | XRecordCreateContext _ ret => ret =? 0
  | pthread_create ret _ => negb (ret =? 0)
  | _ => false
  end.

(** Whether some acquisition of a [start_capture] attempt is refused. *)
Definition some_refused (os : StartAnswers) : bool :=
  (XOpenDisplay_ret os =? 0) || negb (XRecordAllocRange_ok os)
  || (XRecordCreateContext_ret os =? 0) || negb (pthread_create_ret os =? 0).

(** The resources released by the calls that come before the first
    [pthread_join] of a trace. *)
Fixpoint released_before_join (tr : list os_call) : list resource :=
  match tr with
  | [] => []
  | pthread_join _ :: _ => []
  | c :: rest =>
      match released_by c with
      | Some r => r :: released_before_join rest
      | None => released_before_join rest
      end
  end.

(** The calls one [stop_capture] makes, in order. *)
Definition stop_calls (w : World) : list os_call :=
  skipn (length (calls w)) (calls (stop_capture w)).

(** A trace in which nothing is released before the worker is joined. *)
Definition joins_before_releasing (tr : list os_call) : Prop :=
  released_before_join tr = [].

(** The event type of a raw record: the low seven bits of its first byte. *)
Definition event_type (d : XRecordInterceptData) : Z :=
  Z.land (byte_at (data d) 0) 0x7F.

(** The event types the callback has a case for. *)
Definition recognized (event_type : Z) : bool :=
  (event_type =? KeyPress) || (event_type =? KeyRelease)
  || (event_type =? ButtonPress) || (event_type =? ButtonRelease)
  || (event_type =? MotionNotify).

End Linux.

(** ** The hook-callback platform: [windows/runner/input_capture_plugin.cpp] *)

Module Windows.

(** *** Constants of [windows.h] *)

Definition WH_KEYBOARD_LL : Z := 13.
Definition WH_MOUSE_LL : Z := 14.

Definition WM_KEYDOWN : Z := 0x0100.
Definition WM_SYSKEYDOWN : Z := 0x0104.
Definition WM_MOUSEMOVE : Z := 0x0200.
Definition WM_LBUTTONDOWN : Z := 0x0201.
Definition WM_LBUTTONUP : Z := 0x0202.
Definition WM_RBUTTONDOWN : Z := 0x0204.
Definition WM_RBUTTONUP : Z := 0x0205.
Definition WM_MBUTTONDOWN : Z := 0x0207.
Definition WM_MBUTTONUP : Z := 0x0208.
Definition WM_MOUSEWHEEL : Z := 0x020A.
Definition WM_MOUSEHWHEEL : Z := 0x020E.

Definition VK_BACK : Z := 0x08.
Definition VK_TAB : Z := 0x09.
Definition VK_RETURN : Z := 0x0D.
Definition VK_SHIFT : Z := 0x10.
Definition VK_CONTROL : Z := 0x11.
Definition VK_MENU : Z := 0x12.
Definition VK_ESCAPE : Z := 0x1B.
Definition VK_SPACE : Z := 0x20.
Definition VK_PRIOR : Z := 0x21.
Definition VK_NEXT : Z := 0x22.
Definition VK_END : Z := 0x23.
Definition VK_HOME : Z := 0x24.
Definition VK_LEFT : Z := 0x25.
Definition VK_UP : Z := 0x26.
Definition VK_RIGHT : Z := 0x27.
Definition VK_DOWN : Z := 0x28.
Definition VK_DELETE : Z := 0x2E.
Definition VK_LWIN : Z := 0x5B.
Definition VK_RWIN : Z := 0x5C.
Definition VK_F1 : Z := 0x70.
Definition VK_F2 : Z := 0x71.
Definition VK_F3 : Z := 0x72.
Definition VK_F4 : Z := 0x73.
Definition VK_F5 : Z := 0x74.
Definition VK_F6 : Z := 0x75.
Definition VK_F7 : Z := 0x76.
Definition VK_F8 : Z := 0x77.
Definition VK_F9 : Z := 0x78.
Definition VK_F10 : Z := 0x79.
Definition VK_F11 : Z := 0x7A.
Definition VK_F12 : Z := 0x7B.
Definition VK_LSHIFT : Z := 0xA0.
Definition VK_RSHIFT : Z := 0xA1.
Definition VK_LCONTROL : Z := 0xA2.
Definition VK_RCONTROL : Z := 0xA3.
Definition VK_LMENU : Z := 0xA4.
Definition VK_RMENU : Z := 0xA5.

(** *** [flutter::EncodableValue] *)

#[warnings="-register-all"]
Inductive EncodableValue : Type :=
| EncodableBool (b : bool)
| EncodableInt (z : Z)
| EncodableDouble (d : float)
| EncodableString (s : string)
| EncodableList (l : list EncodableValue)
| EncodableMapValue (m : gmap string EncodableValue).

(** [flutter::EncodableMap], a [std::map]; every key the plugin uses is a
    string. *)
Abbreviation EncodableMap := (gmap string EncodableValue).

(** Reinterpretation of the low 32 bits as [int]. *)
Definition int32 (z : Z) : Z :=
  let u := Z.land z 0xFFFFFFFF in
  if u <? 0x80000000 then u else u - 0x100000000.

(** [GetTimestamp], from the 64-bit [FILETIME] read by
    [GetSystemTimeAsFileTime]; the result fits [int64_t] for every such input,
    so no wrap-around occurs. *)
Definition GetTimestamp (QuadPart : Z) : Z :=
  QuadPart / 10000 - 11644473600000.

(** *** [VKeyToString] *)

Definition VKeyToString (vkCode : Z) : string :=
  (* Printable ASCII characters *)
  if (0x30 <=? vkCode) && (vkCode <=? 0x39) then
    String (ascii_of_N (Z.to_N vkCode)) EmptyString
  else if (0x41 <=? vkCode) && (vkCode <=? 0x5A) then
    String (ascii_of_N (Z.to_N (vkCode + 32))) EmptyString
  (* Special keys *)
  else if vkCode =? VK_RETURN then "Return"
  else if vkCode =? VK_TAB then "Tab"
  else if vkCode =? VK_BACK then "Backspace"
  else if vkCode =? VK_ESCAPE then "Escape"
  else if vkCode =? VK_DELETE then "Delete"
  else if vkCode =? VK_HOME then "Home"
  else if vkCode =? VK_END then "End"
  else if vkCode =? VK_PRIOR then "PageUp"
  else if vkCode =? VK_NEXT then "PageDown"
  else if vkCode =? VK_LEFT then "Left"
  else if vkCode =? VK_RIGHT then "Right"
  else if vkCode =? VK_UP then "Up"
  else if vkCode =? VK_DOWN then "Down"
  else if vkCode =? VK_SPACE then "Space"
  else if vkCode =? VK_F1 then "F1"
  else if vkCode =? VK_F2 then "F2"
  else if vkCode =? VK_F3 then "F3"
  else if vkCode =? VK_F4 then "F4"
  else if vkCode =? VK_F5 then "F5"
  else if vkCode =? VK_F6 then "F6"
  else if vkCode =? VK_F7 then "F7"
  else if vkCode =? VK_F8 then "F8"
  else if vkCode =? VK_F9 then "F9"
  else if vkCode =? VK_F10 then "F10"
  else if vkCode =? VK_F11 then "F11"
  else if vkCode =? VK_F12 then "F12"
  else if (vkCode =? VK_SHIFT) || (vkCode =? VK_LSHIFT) || (vkCode =? VK_RSHIFT)
    then "Shift"
  else if (vkCode =? VK_CONTROL) || (vkCode =? VK_LCONTROL) || (vkCode =? VK_RCONTROL)
    then "Control"
  else if (vkCode =? VK_MENU) || (vkCode =? VK_LMENU) || (vkCode =? VK_RMENU)
    then "Alt"
  else if (vkCode =? VK_LWIN) || (vkCode =? VK_RWIN) then "Meta"
  else "Key" ++ to_string vkCode.

(** *** The plugin object and the operating system around it *)

(** [event_sink_] is a [unique_ptr]: [None] is the empty pointer, [Some k]
    owns the sink numbered [k].  Hook handles are integers, [0] is [nullptr]. *)
Record InputCapturePlugin : Type := {
  event_sink_ : option nat;
  keyboard_hook_ : Z;
  mouse_hook_ : Z;
  is_capturing_ : bool
}.

Inductive os_call : Type :=
| SetWindowsHookEx (idHook : Z) (ret : Z)
| UnhookWindowsHookEx (hhk : Z).

(** The plugin object, the static pointer to it ([true]: it points at the
    object, the only value the constructor stores; [false]: [nullptr]), the
    chronological trace of hook calls, and what the sinks have received. *)
Record World : Type := {
  this : InputCapturePlugin;
  instance_ : bool;
  calls : list os_call;
  delivered : list (nat * EncodableMap)
}.

Definition call (c : os_call) (w : World) : World :=
  {| this := this w; instance_ := instance_ w; calls := calls w ++ [c];
     delivered := delivered w |}.

Definition set_event_sink_ (v : option nat) (w : World) : World :=
  {| this := {| event_sink_ := v; keyboard_hook_ := keyboard_hook_ (this w);
                mouse_hook_ := mouse_hook_ (this w);
                is_capturing_ := is_capturing_ (this w) |};
     instance_ := instance_ w; calls := calls w; delivered := delivered w |}.

Definition set_keyboard_hook_ (v : Z) (w : World) : World :=
  {| this := {| event_sink_ := event_sink_ (this w); keyboard_hook_ := v;
                mouse_hook_ := mouse_hook_ (this w);
                is_capturing_ := is_capturing_ (this w) |};
     instance_ := instance_ w; calls := calls w; delivered := delivered w |}.

Definition set_mouse_hook_ (v : Z) (w : World) : World :=
  {| this := {| event_sink_ := event_sink_ (this w);
                keyboard_hook_ := keyboard_hook_ (this w); mouse_hook_ := v;
                is_capturing_ := is_capturing_ (this w) |};
     instance_ := instance_ w; calls := calls w; delivered := delivered w |}.

Definition set_is_capturing_ (v : bool) (w : World) : World :=
  {| this := {| event_sink_ := event_sink_ (this w);
                keyboard_hook_ := keyboard_hook_ (this w);
                mouse_hook_ := mouse_hook_ (this w); is_capturing_ := v |};
     instance_ := instance_ w; calls := calls w; delivered := delivered w |}.

Definition set_instance_ (v : bool) (w : World) : World :=
  {| this := this w; instance_ := v; calls := calls w; delivered := delivered w |}.

(** An installed hook: which chain it sits in, and its handle. *)
Inductive resource : Type :=
| Hook (idHook : Z) (hhk : Z).

Fixpoint release (hhk : Z) (held : list resource) : list resource :=
  match held with
  | [] => []
  | Hook id h :: rest => if h =? hhk then rest else Hook id h :: release hhk rest
  end.

(** The effect of one call on the hooks held, most recent first. *)
Definition effect (c : os_call) (held : list resource) : list resource :=
  match c with
  | SetWindowsHookEx idHook ret => if ret =? 0 then held else Hook idHook ret :: held
  | UnhookWindowsHookEx hhk => release hhk held
  end.

Definition held_after (tr : list os_call) : list resource :=
  fold_left (fun held c => effect c held) tr [].

Definition held (w : World) : list resource := held_after (calls w).

(** What the system answers to the two installations of one [StartCapture]. *)
Record StartAnswers : Type := {
  keyboard_ret : Z;
  mouse_ret : Z
}.

(** *** [StartCapture] and [StopCapture] *)

Definition StartCapture (os : StartAnswers) (w : World) : bool * World :=
  if is_capturing_ (this w) then (true, w)
  else
    (* Install keyboard hook *)
    let w := call (SetWindowsHookEx WH_KEYBOARD_LL (keyboard_ret os)) w in
    let w := set_keyboard_hook_ (keyboard_ret os) w in
    if keyboard_hook_ (this w) =? 0 then (false, w)
    else
      (* Install mouse hook *)
      let w := call (SetWindowsHookEx WH_MOUSE_LL (mouse_ret os)) w in
      let w := set_mouse_hook_ (mouse_ret os) w in
      if mouse_hook_ (this w) =? 0 then
        let w := call (UnhookWindowsHookEx (keyboard_hook_ (this w))) w in
        let w := set_keyboard_hook_ 0 w in
        (false, w)
      else
        let w := set_is_capturing_ true w in
        (true, w).

Definition StopCapture (w : World) : World :=
  if negb (is_capturing_ (this w)) then w
  else
    let w :=
      if negb (keyboard_hook_ (this w) =? 0) then
        let w := call (UnhookWindowsHookEx (keyboard_hook_ (this w))) w in
        set_keyboard_hook_ 0 w
      else w in
    let w :=
      if negb (mouse_hook_ (this w) =? 0) then
        let w := call (UnhookWindowsHookEx (mouse_hook_ (this w))) w in
        set_mouse_hook_ 0 w
      else w in
    set_is_capturing_ false w.

Definition CheckPermissions (w : World) : EncodableMap :=
  let permissions : EncodableMap := ∅ in
  <["hooks" := EncodableBool true]> permissions.

Definition RequestPermissions (w : World) : bool * World := (true, w).

(** *** The event sink *)

(** [EventStreamHandler::OnListenInternal]: the new sink is moved into
    [event_sink_], which drops the one it owned. *)
Definition OnListenInternal (events : nat) (w : World) : World :=
  set_event_sink_ (Some events) w.

Definition OnCancelInternal (w : World) : World :=
  set_event_sink_ None w.

(** A smart pointer tested as a condition: whether it owns an object. *)
Definition engaged {A : Type} (p : option A) : bool :=
  match p with
  | Some _ => true
  | None => false
  end.

(** [event_sink_->Success(value)]. *)
Definition SendEvent (event : EncodableMap) (w : World) : World :=
  match event_sink_ (this w) with
  | Some sink =>
      {| this := this w; instance_ := instance_ w; calls := calls w;
         delivered := delivered w ++ [(sink, event)] |}
  | None => w
  end.

(** *** The hook procedures *)

(** What a hook procedure hands back to the system: a value of its own, or
    whatever [CallNextHookEx] returns after passing the event down the chain. *)
Inductive LRESULT : Type :=
| Return (v : Z)
| CallNextHookEx (nCode : Z) (wParam : Z).

Record KBDLLHOOKSTRUCT : Type := {
  vkCode : Z
}.

Record POINT : Type := {
  x : Z;
  y : Z
}.

Record MSLLHOOKSTRUCT : Type := {
  pt : POINT;
  mouseData : Z
}.

(** What a hook procedure reads from its surroundings: the system time as a
    [FILETIME] and the live key state. *)
Record HookEnv : Type := {
  FileTime : Z;
  GetAsyncKeyState : Z -> Z
}.

Definition HIWORD (l : Z) : Z := Z.land (Z.shiftr l 16) 0xFFFF.

(** [push_back] on an [EncodableList]. *)
Definition push_back (l : list EncodableValue) (v : EncodableValue) : list EncodableValue :=
  l ++ [v].

Definition KeyboardHookProc (env : HookEnv) (w : World) (nCode wParam : Z)
    (kb : KBDLLHOOKSTRUCT) : LRESULT * World :=
  if (0 <=? nCode) && instance_ w && engaged (event_sink_ (this w)) then
    let event : EncodableMap := ∅ in
    let event := <["timestamp" := EncodableInt (GetTimestamp (FileTime env))]> event in
    let is_down := (wParam =? WM_KEYDOWN) || (wParam =? WM_SYSKEYDOWN) in
    let event :=
      <["type" := EncodableString (if is_down then "keyDown" else "keyUp")]> event in
    let event := <["keyCode" := EncodableInt (int32 (vkCode kb))]> event in
    let event := <["key" := EncodableString (VKeyToString (vkCode kb))]> event in
    (* Get modifier keys state *)
    let modifiers : list EncodableValue := [] in
    let modifiers :=
      if negb (Z.land (GetAsyncKeyState env VK_SHIFT) 0x8000 =? 0)
      then push_back modifiers (EncodableString "shift") else modifiers in
    let modifiers :=
      if negb (Z.land (GetAsyncKeyState env VK_CONTROL) 0x8000 =? 0)
      then push_back modifiers (EncodableString "control") else modifiers in
    let modifiers :=
      if negb (Z.land (GetAsyncKeyState env VK_MENU) 0x8000 =? 0)
      then push_back modifiers (EncodableString "alt") else modifiers in
    let modifiers :=
      if negb (Z.land (GetAsyncKeyState env VK_LWIN) 0x8000 =? 0)
         || negb (Z.land (GetAsyncKeyState env VK_RWIN) 0x8000 =? 0)
      then push_back modifiers (EncodableString "meta") else modifiers in
    let event := <["modifiers" := EncodableList modifiers]> event in
    let w := SendEvent event w in
    (* Return -1 to prevent the event from being passed to the rest of the
       hook chain *)
    (Return (-1), w)
  else (CallNextHookEx nCode wParam, w).

(** [switch] is the event built by the case taken; the [default] case builds
    none and returns at once. *)
Definition MouseHookProc (env : HookEnv) (w : World) (nCode wParam : Z)
    (ms : MSLLHOOKSTRUCT) : LRESULT * World :=
  if (0 <=? nCode) && instance_ w && engaged (event_sink_ (this w)) then
    let event : EncodableMap := ∅ in
    let event := <["timestamp" := EncodableInt (GetTimestamp (FileTime env))]> event in
    let switch : option EncodableMap :=
      if wParam =? WM_MOUSEMOVE then
        let event := <["type" := EncodableString "mouseMove"]> event in
        let event := <["x" := EncodableDouble (double_of_Z (x (pt ms)))]> event in
        let event := <["y" := EncodableDouble (double_of_Z (y (pt ms)))]> event in
        Some event
      else if (wParam =? WM_LBUTTONDOWN) || (wParam =? WM_LBUTTONUP) then
        let event :=
          <["type" := EncodableString
                        (if wParam =? WM_LBUTTONDOWN then "mouseDown" else "mouseUp")]>
            event in
        let event := <["button" := EncodableString "left"]> event in
        let event := <["x" := EncodableDouble (double_of_Z (x (pt ms)))]> event in
        let event := <["y" := EncodableDouble (double_of_Z (y (pt ms)))]> event in
        Some event
      else if (wParam =? WM_RBUTTONDOWN) || (wParam =? WM_RBUTTONUP) then
        let event :=
          <["type" := EncodableString
                        (if wParam =? WM_RBUTTONDOWN then "mouseDown" else "mouseUp")]>
            event in
        let event := <["button" := EncodableString "right"]> event in
        let event := <["x" := EncodableDouble (double_of_Z (x (pt ms)))]> event in
        let event := <["y" := EncodableDouble (double_of_Z (y (pt ms)))]> event in
        Some event
      else if (wParam =? WM_MBUTTONDOWN) || (wParam =? WM_MBUTTONUP) then
        let event :=
          <["type" := EncodableString
                        (if wParam =? WM_MBUTTONDOWN then "mouseDown" else "mouseUp")]>
            event in
        let event := <["button" := EncodableString "middle"]> event in
        let event := <["x" := EncodableDouble (double_of_Z (x (pt ms)))]> event in
        let event := <["y" := EncodableDouble (double_of_Z (y (pt ms)))]> event in
        Some event
      else if (wParam =? WM_MOUSEWHEEL) || (wParam =? WM_MOUSEHWHEEL) then
        let event := <["type" := EncodableString "mouseScroll"]> event in
        let delta := int16 (HIWORD (mouseData ms)) in
        let normalized_delta := PrimFloat.div (double_of_Z delta) 120%float in
        if wParam =? WM_MOUSEWHEEL then
          let event := <["deltaX" := EncodableDouble 0%float]> event in
          let event := <["deltaY" := EncodableDouble normalized_delta]> event in
          Some event
        else
          let event := <["deltaX" := EncodableDouble normalized_delta]> event in
          let event := <["deltaY" := EncodableDouble 0%float]> event in
          Some event
      else
        (* Unknown event type, don't send *)
        None in
    match switch with
    | None => (CallNextHookEx nCode wParam, w)
    | Some event =>
        let w := SendEvent event w in
        (* Return 1 to prevent the event from being passed to the rest of the
           hook chain *)
        (Return 1, w)
    end
  else (CallNextHookEx nCode wParam, w).

(** *** [HandleMethodCall] *)

Inductive MethodResult : Type :=
| Success (result : EncodableValue)
| NotImplemented.

Definition HandleMethodCall (os : StartAnswers) (method_name : string) (w : World)
    : MethodResult * World :=
  if streq method_name "startCapture" then
    let '(success, w) := StartCapture os w in
    (Success (EncodableBool success), w)
  else if streq method_name "stopCapture" then
    let w := StopCapture w in
    (Success (EncodableBool true), w)
  else if streq method_name "isCapturing" then
    (Success (EncodableBool (is_capturing_ (this w))), w)
  else if streq method_name "checkPermissions" then
    (Success (EncodableMapValue (CheckPermissions w)), w)
  else if streq method_name "requestPermissions" then
    let '(success, w) := RequestPermissions w in
    (Success (EncodableBool success), w)
  else (NotImplemented, w).

(** *** Construction and destruction *)

(** [InputCapturePlugin::InputCapturePlugin]. *)
Definition InputCapturePlugin_ctor : World :=
  {| this := {| event_sink_ := None; keyboard_hook_ := 0; mouse_hook_ := 0;
                is_capturing_ := false |};
     instance_ := true; calls := []; delivered := [] |}.

(** [InputCapturePlugin::~InputCapturePlugin]. *)
Definition InputCapturePlugin_dtor (w : World) : World :=
  let w := if is_capturing_ (this w) then StopCapture w else w in
  set_instance_ false w.

(** *** Sequences of [startCapture] / [stopCapture] requests *)

Inductive request : Type :=
| Start (os : StartAnswers)
| Stop.

Definition step (w : World) (r : request) : World :=
  match r with
  | Start os => snd (StartCapture os w)
  | Stop => StopCapture w
  end.

Definition run (rs : list request) (w : World) : World := fold_left step rs w.

(** The plugin after construction, with the sink a listener may have attached. *)
Definition initial (sink : option nat) : World :=
  set_event_sink_ sink InputCapturePlugin_ctor.

(** The call that releases a held hook. *)
Definition unhook (r : resource) : os_call :=
  match r with
  | Hook _ hhk => UnhookWindowsHookEx hhk
  end.

(** Whether some installation of a [StartCapture] attempt is refused. *)
Definition some_refused (os : StartAnswers) : bool :=
  (keyboard_ret os =? 0) || (mouse_ret os =? 0).

(** The messages [MouseHookProc] has a case for. *)
Definition recognized (wParam : Z) : bool :=
  (wParam =? WM_MOUSEMOVE)
  || (wParam =? WM_LBUTTONDOWN) || (wParam =? WM_LBUTTONUP)
  || (wParam =? WM_RBUTTONDOWN) || (wParam =? WM_RBUTTONUP)
  || (wParam =? WM_MBUTTONDOWN) || (wParam =? WM_MBUTTONUP)
  || (wParam =? WM_MOUSEWHEEL) || (wParam =? WM_MOUSEHWHEEL).

(** Whether a hook procedure kept the event from the rest of the chain. *)
Definition consumed (r : LRESULT) : bool :=
  match r with
  | Return _ => true
  | CallNextHookEx _ _ => false
  end.

End Windows.

(** ** The window-control plugin: [linux/window_control_plugin.cc] *)

Module WindowControl.

(** [GDK_WINDOW_STATE_FULLSCREEN], from [gdk/gdkwindow.h]: [1 << 4]. *)
Definition GDK_WINDOW_STATE_FULLSCREEN : Z := 16.

(** The replies of this channel; unlike the capture channel it has error
    replies. *)
Inductive FlMethodResponse : Type :=
| fl_method_success_response_new (result : Linux.FlValue)
| fl_method_error_response_new (code : string) (message : string)
| fl_method_not_implemented_response_new.

Record GdkRectangle : Type := {
  rect_x : Z;
  rect_y : Z;
  width : Z;
  height : Z
}.

(** What GTK and GDK answer to the queries of the plugin.  Widgets, windows,
    displays and monitors are pointers, [0] being [nullptr]. *)
Record Gtk : Type := {
  gtk_widget_get_toplevel : Z -> Z;
  GTK_IS_WINDOW : Z -> bool;
  gtk_widget_get_window : Z -> Z;
  gdk_window_get_state : Z -> Z;
  gdk_display_get_default : Z;
  gdk_display_get_primary_monitor : Z -> Z;
  gdk_display_get_n_monitors : Z -> Z;
  gdk_display_get_monitor : Z -> Z -> Z;
  gdk_monitor_get_geometry : Z -> GdkRectangle
}.

(** The calls by which the plugin acts on GTK objects. *)
Inductive gtk_call : Type :=
| gtk_window_fullscreen (window : Z)
| gtk_window_unfullscreen (window : Z)
| g_object_add_weak_pointer (object : Z)
| g_object_remove_weak_pointer (object : Z).

Record WindowControlPlugin : Type := {
  view : Z
}.

(** The plugin and the chronological trace of its calls. *)
Record World : Type := {
  self : WindowControlPlugin;
  calls : list gtk_call
}.

Definition call (c : gtk_call) (w : World) : World :=
  {| self := self w; calls := calls w ++ [c] |}.

Definition set_view (v : Z) (w : World) : World :=
  {| self := {| view := v |}; calls := calls w |}.

(** [get_window] *)
Definition get_window (gtk : Gtk) (w : World) : Z :=
  if view (self w) =? 0 then 0
  else
    let widget := view (self w) in
    let toplevel := gtk_widget_get_toplevel gtk widget in
    if GTK_IS_WINDOW gtk toplevel then toplevel
    else 0.

(** [enter_fullscreen] *)
Definition enter_fullscreen (gtk : Gtk) (w : World) : FlMethodResponse * World :=
  let window := get_window gtk w in
  if window =? 0 then
    (fl_method_error_response_new "NO_WINDOW" "Main window not available", w)
  else
    let w := call (gtk_window_fullscreen window) w in
    (fl_method_success_response_new (Linux.fl_value_new_bool true), w).

(** [exit_fullscreen] *)
Definition exit_fullscreen (gtk : Gtk) (w : World) : FlMethodResponse * World :=
  let window := get_window gtk w in
  if window =? 0 then
    (fl_method_error_response_new "NO_WINDOW" "Main window not available", w)
  else
    let w := call (gtk_window_unfullscreen window) w in
    (fl_method_success_response_new (Linux.fl_value_new_bool true), w).

(** [is_fullscreen] *)
Definition is_fullscreen (gtk : Gtk) (w : World) : FlMethodResponse * World :=
  let window := get_window gtk w in
  if window =? 0 then
    (fl_method_success_response_new (Linux.fl_value_new_bool false), w)
  else
    let gdk_window := gtk_widget_get_window gtk window in
    if gdk_window =? 0 then
      (fl_method_success_response_new (Linux.fl_value_new_bool false), w)
    else
      let state := gdk_window_get_state gtk gdk_window in
      let fullscreen := negb (Z.land state GDK_WINDOW_STATE_FULLSCREEN =? 0) in
      (fl_method_success_response_new (Linux.fl_value_new_bool fullscreen), w).

(** [get_screen_size] *)
Definition get_screen_size (gtk : Gtk) (w : World) : FlMethodResponse * World :=
  let display := gdk_display_get_default gtk in
  if display =? 0 then
    (fl_method_error_response_new "NO_DISPLAY" "Default display not available", w)
  else
    (* Get the primary monitor *)
    let monitor := gdk_display_get_primary_monitor gtk display in
    let monitor :=
      if monitor =? 0 then
        (* Fallback to the first monitor if no primary monitor is set *)
        let n_monitors := gdk_display_get_n_monitors gtk display in
        if 0 <? n_monitors then gdk_display_get_monitor gtk display 0
        else monitor
      else monitor in
    if monitor =? 0 then
      (fl_method_error_response_new "NO_MONITOR" "No monitor available", w)
    else
      let geometry := gdk_monitor_get_geometry gtk monitor in
      let result : Linux.FlMap := [] in
      let result :=
        Linux.fl_value_set_string_take result "width"
          (Linux.fl_value_new_float (double_of_Z (width geometry))) in
      let result :=
        Linux.fl_value_set_string_take result "height"
          (Linux.fl_value_new_float (double_of_Z (height geometry))) in
      (fl_method_success_response_new (Linux.fl_value_new_map result), w).

(** [method_call_cb] of the window-control channel. *)
Definition method_call_cb (gtk : Gtk) (method : string) (w : World)
    : FlMethodResponse * World :=
  if streq method "enterFullscreen" then enter_fullscreen gtk w
  else if streq method "exitFullscreen" then exit_fullscreen gtk w
  else if streq method "isFullscreen" then is_fullscreen gtk w
  else if streq method "getScreenSize" then get_screen_size gtk w
  else (fl_method_not_implemented_response_new, w).

(** [window_control_plugin_new] *)
Definition window_control_plugin_new (v : Z) : World :=
  let w := {| self := {| view := 0 |}; calls := [] |} in
  let w := set_view v w in
  call (g_object_add_weak_pointer v) w.

(** [window_control_plugin_dispose] *)
Definition window_control_plugin_dispose (w : World) : World :=
  if negb (view (self w) =? 0) then
    let w := call (g_object_remove_weak_pointer (view (self w))) w in
    set_view 0 w
  else w.

(** A request served by the plugin: a method call with what GTK answers
    during it, or the disposal of the plugin. *)
Inductive request : Type :=
| MethodCall (gtk : Gtk) (method : string)
| Dispose.

Definition step (w : World) (r : request) : World :=
  match r with
  | MethodCall gtk method => snd (method_call_cb gtk method w)
  | Dispose => window_control_plugin_dispose w
  end.

Definition run (rs : list request) (w : World) : World := fold_left step rs w.

End WindowControl.

(** ** Invariants and the vocabulary of the statements *)

Local Open Scope list_scope.

(** Between requests the kernel-stream plugin holds either nothing, with its
    record fields cleared, or exactly one worker, one context and one record
    connection, those its fields name. *)
Definition linux_inv (w : Linux.World) : Prop :=
  if Linux.is_capturing (Linux.self w) then
    Linux.held w =
      [Linux.WorkerThread (Linux.record_thread (Linux.self w));
       Linux.RecordContext (Linux.record_context (Linux.self w));
       Linux.RecordDisplay (Linux.record_display (Linux.self w))]
    /\ Linux.record_context (Linux.self w) <> 0
    /\ Linux.record_display (Linux.self w) <> 0
  else
    Linux.held w = []
    /\ Linux.record_context (Linux.self w) = 0
    /\ Linux.record_display (Linux.self w) = 0.

(** Between requests the hook plugin holds either nothing, with both handles
    null, or exactly the keyboard hook and the mouse hook its fields name. *)
Definition windows_inv (w : Windows.World) : Prop :=
  if Windows.is_capturing_ (Windows.this w) then
    Windows.held w =
      [Windows.Hook Windows.WH_MOUSE_LL (Windows.mouse_hook_ (Windows.this w));
       Windows.Hook Windows.WH_KEYBOARD_LL (Windows.keyboard_hook_ (Windows.this w))]
    /\ Windows.keyboard_hook_ (Windows.this w) <> 0
    /\ Windows.mouse_hook_ (Windows.this w) <> 0
  else
    Windows.held w = []
    /\ Windows.keyboard_hook_ (Windows.this w) = 0
    /\ Windows.mouse_hook_ (Windows.this w) = 0.

(** The symbolic key names the specification lists for non-printable keys. *)
Definition canonical_names : list string :=
  ["Return"; "Tab"; "Backspace"; "Escape"; "Delete"; "Home"; "End";
   "PageUp"; "PageDown"; "Left"; "Right"; "Up"; "Down";
   "F1"; "F2"; "F3"; "F4"; "F5"; "F6"; "F7"; "F8"; "F9"; "F10"; "F11"; "F12";
   "Shift"; "Control"; "Alt"; "Meta"].

(** A string made of one printable ASCII character. *)
Definition single_printable (key : string) : Prop :=
  exists c : ascii,
    key = String c EmptyString /\ 0x20 <= Z.of_N (N_of_ascii c) <= 0x7e.

(** The name both decoders give to a code they have no case for. *)
Definition fallback_name (code : Z) : string := ("Key" ++ to_string code)%string.

(** The deltas ([deltaX], [deltaY]) the specification gives to the wheel
    buttons 4 (up), 5 (down), 6 (left) and 7 (right). *)
Definition unit_scroll (button : Z) : float * float :=
  if button =? 4 then (0%float, 1%float)
  else if button =? 5 then (0%float, (-1)%float)
  else if button =? 6 then (1%float, 0%float)
  else ((-1)%float, 0%float).

(** A wire event of 32 bytes with the given type, detail byte and position,
    all other bytes zero. *)
Definition wire_event (type detail x_lo x_hi y_lo y_hi : byte) : list byte :=
  [type; detail] ++ repeat Byte.x00 22 ++ [x_lo; x_hi; y_lo; y_hi]
  ++ repeat Byte.x00 4.

(** *** Everything that can happen to a plugin *)

(** An operation on the kernel-stream plugin: a method call of any name, with
    what the system answers during it, or a raw record handed to the
    callback. *)
Inductive linux_operation : Type :=
| LinuxMethodCall (os : Linux.CallAnswers) (method : string)
| LinuxRecord (env : Linux.CallbackEnv) (d : Linux.XRecordInterceptData).

Definition linux_perform (w : Linux.World) (o : linux_operation) : Linux.World :=
  match o with
  | LinuxMethodCall os method => snd (Linux.method_call_cb os method w)
  | LinuxRecord env d => Linux.record_event_callback env w d
  end.

Definition linux_perform_all (ops : list linux_operation) (w : Linux.World)
    : Linux.World :=
  fold_left linux_perform ops w.

(** An operation on the hook plugin: a method call of any name, a listener
    attaching or detaching, or a hook invocation. *)
Inductive windows_operation : Type :=
| WindowsMethodCall (os : Windows.StartAnswers) (method_name : string)
| WindowsListen (events : nat)
| WindowsCancel
| WindowsKeyboardHook (env : Windows.HookEnv) (nCode wParam : Z)
    (kb : Windows.KBDLLHOOKSTRUCT)
| WindowsMouseHook (env : Windows.HookEnv) (nCode wParam : Z)
    (ms : Windows.MSLLHOOKSTRUCT).

Definition windows_perform (w : Windows.World) (o : windows_operation)
    : Windows.World :=
  match o with
  | WindowsMethodCall os method_name =>
      snd (Windows.HandleMethodCall os method_name w)
  | WindowsListen events => Windows.OnListenInternal events w
  | WindowsCancel => Windows.OnCancelInternal w
  | WindowsKeyboardHook env nCode wParam kb =>
      snd (Windows.KeyboardHookProc env w nCode wParam kb)
  | WindowsMouseHook env nCode wParam ms =>
      snd (Windows.MouseHookProc env w nCode wParam ms)
  end.

Definition windows_perform_all (ops : list windows_operation) (w : Windows.World)
    : Windows.World :=
  fold_left windows_perform ops w.

(** *** Disciplined traces *)

(** Two resources of the same kind. *)
Definition linux_same_kind (a b : Linux.resource) : bool :=
  match a, b with
  | Linux.RecordDisplay _, Linux.RecordDisplay _ => true
  | Linux.RecordRange, Linux.RecordRange => true
  | Linux.RecordContext _, Linux.RecordContext _ => true
  | Linux.WorkerThread _, Linux.WorkerThread _ => true
  | _, _ => false
  end.

(** The resource a call acquires, if it is an acquisition that succeeded. *)
Definition linux_acquired_by (c : Linux.os_call) : option Linux.resource :=
  match c with
  | Linux.XOpenDisplay ret => if ret =? 0 then None else Some (Linux.RecordDisplay ret)
  | Linux.XRecordAllocRange ok => if ok then Some Linux.RecordRange else None
  | Linux.XRecordCreateContext _ ret =>
      if ret =? 0 then None else Some (Linux.RecordContext ret)
  | Linux.pthread_create ret thread =>
      if ret =? 0 then Some (Linux.WorkerThread thread) else None
  | _ => None
  end.

(** The resources a call works on and so needs to be held when it is made:
    what it releases, the connection a context is created on, the context it
    disables. *)
Definition linux_needs (c : Linux.os_call) : list Linux.resource :=
  match c with
  | Linux.XFree => [Linux.RecordRange]
  | Linux.XCloseDisplay dpy => [Linux.RecordDisplay dpy]
  | Linux.XRecordFreeContext _ ctx => [Linux.RecordContext ctx]
  | Linux.XRecordDisableContext _ ctx => [Linux.RecordContext ctx]
  | Linux.XRecordCreateContext dpy _ => [Linux.RecordDisplay dpy]
  | Linux.pthread_join thread => [Linux.WorkerThread thread]
  | _ => []
  end.

(** A trace is disciplined, starting from the resources [held], when every
    call works on held resources only and no call acquires a resource of a
    kind that is already held. *)
Fixpoint linux_disciplined (held : list Linux.resource) (tr : list Linux.os_call)
    : bool :=
  match tr with
  | [] => true
  | c :: rest =>
      forallb (fun r => existsb (Linux.resource_eqb r) held) (linux_needs c)
      && match linux_acquired_by c with
         | Some r => negb (existsb (linux_same_kind r) held)
         | None => true
         end
      && linux_disciplined (Linux.effect c held) rest
  end.

Definition windows_holds_handle (hhk : Z) (held : list Windows.resource) : bool :=
  existsb (fun r => match r with Windows.Hook _ h => h =? hhk end) held.

Definition windows_holds_chain (idHook : Z) (held : list Windows.resource) : bool :=
  existsb (fun r => match r with Windows.Hook id _ => id =? idHook end) held.

(** A trace of hook calls is disciplined when every removal names the handle
    of a held hook and no hook is installed in a chain that already has one. *)
Fixpoint windows_disciplined (held : list Windows.resource)
    (tr : list Windows.os_call) : bool :=
  match tr with
  | [] => true
  | c :: rest =>
      match c with
      | Windows.SetWindowsHookEx idHook ret =>
          (ret =? 0) || negb (windows_holds_chain idHook held)
      | Windows.UnhookWindowsHookEx hhk => windows_holds_handle hhk held
      end
      && windows_disciplined (Windows.effect c held) rest
  end.

(** *** Modifiers and key classes *)

(** The modifier names for the four flags, in the order both decoders use. *)
Definition modifiers_of (shift control alt meta : bool) : list string :=
  (if shift then ["shift"] else []) ++ (if control then ["control"] else [])
  ++ (if alt then ["alt"] else []) ++ (if meta then ["meta"] else []).

(** The keysyms [keycode_to_string] has a case for, left and right variants
    under the left one, with their names. *)
Definition linux_named_keys : list (Z * string) :=
  [(Linux.XK_Return, "Return"); (Linux.XK_Tab, "Tab");
   (Linux.XK_BackSpace, "Backspace"); (Linux.XK_Escape, "Escape");
   (Linux.XK_Delete, "Delete"); (Linux.XK_Home, "Home"); (Linux.XK_End, "End");
   (Linux.XK_Page_Up, "PageUp"); (Linux.XK_Page_Down, "PageDown");
   (Linux.XK_Left, "Left"); (Linux.XK_Right, "Right"); (Linux.XK_Up, "Up");
   (Linux.XK_Down, "Down"); (Linux.XK_F1, "F1"); (Linux.XK_F2, "F2");
   (Linux.XK_F3, "F3"); (Linux.XK_F4, "F4"); (Linux.XK_F5, "F5");
   (Linux.XK_F6, "F6"); (Linux.XK_F7, "F7"); (Linux.XK_F8, "F8");
   (Linux.XK_F9, "F9"); (Linux.XK_F10, "F10"); (Linux.XK_F11, "F11");
   (Linux.XK_F12, "F12"); (Linux.XK_Shift_L, "Shift");
   (Linux.XK_Control_L, "Control"); (Linux.XK_Alt_L, "Alt");
   (Linux.XK_Super_L, "Super")].

(** A keysym up to the side of the keyboard the key is on. *)
Definition linux_key_class (keysym : Z) : Z :=
  if keysym =? Linux.XK_Shift_R then Linux.XK_Shift_L
  else if keysym =? Linux.XK_Control_R then Linux.XK_Control_L
  else if keysym =? Linux.XK_Alt_R then Linux.XK_Alt_L
  else if keysym =? Linux.XK_Super_R then Linux.XK_Super_L
  else keysym.

(** The virtual-key codes [VKeyToString] has a case for, sided variants under
    the unsided one, with their names. *)
Definition windows_named_keys : list (Z * string) :=
  [(Windows.VK_RETURN, "Return"); (Windows.VK_TAB, "Tab");
   (Windows.VK_BACK, "Backspace"); (Windows.VK_ESCAPE, "Escape");
   (Windows.VK_DELETE, "Delete"); (Windows.VK_HOME, "Home");
   (Windows.VK_END, "End"); (Windows.VK_PRIOR, "PageUp");
   (Windows.VK_NEXT, "PageDown"); (Windows.VK_LEFT, "Left");
   (Windows.VK_RIGHT, "Right"); (Windows.VK_UP, "Up"); (Windows.VK_DOWN, "Down");
   (Windows.VK_SPACE, "Space"); (Windows.VK_F1, "F1"); (Windows.VK_F2, "F2");
   (Windows.VK_F3, "F3"); (Windows.VK_F4, "F4"); (Windows.VK_F5, "F5");
   (Windows.VK_F6, "F6"); (Windows.VK_F7, "F7"); (Windows.VK_F8, "F8");
   (Windows.VK_F9, "F9"); (Windows.VK_F10, "F10"); (Windows.VK_F11, "F11");
   (Windows.VK_F12, "F12"); (Windows.VK_SHIFT, "Shift");
   (Windows.VK_CONTROL, "Control"); (Windows.VK_MENU, "Alt");
   (Windows.VK_LWIN, "Meta")].

(** A virtual-key code up to the side of the keyboard the key is on. *)
Definition windows_key_class (vkCode : Z) : Z :=
  if (vkCode =? Windows.VK_LSHIFT) || (vkCode =? Windows.VK_RSHIFT)
  then Windows.VK_SHIFT
  else if (vkCode =? Windows.VK_LCONTROL) || (vkCode =? Windows.VK_RCONTROL)
  then Windows.VK_CONTROL
  else if (vkCode =? Windows.VK_LMENU) || (vkCode =? Windows.VK_RMENU)
  then Windows.VK_MENU
  else if vkCode =? Windows.VK_RWIN then Windows.VK_LWIN
  else vkCode.

(** The name a table of named keys gives to a key, if any. *)
Definition name_of_key (table : list (Z * string)) (key : Z) : option string :=
  option_map snd (find (fun p => fst p =? key) table).

(** The key a table of named keys gives for a name, if any. *)
Definition key_of_name (table : list (Z * string)) (name : string) : option Z :=
  option_map fst (find (fun p => String.eqb (snd p) name) table).

(** Whether a name starts with the three letters of a fallback name. *)
Definition starts_like_fallback (name : string) : bool :=
  match name with
  | String "K" (String "e" (String "y" _)) => true
  | _ => false
  end.

(** A table in which every entry is the one found under its name, and no name
    is one character long or starts like a fallback name. *)
Definition well_named (table : list (Z * string)) : bool :=
  forallb
    (fun p =>
       match key_of_name table (snd p) with
       | Some k => k =? fst p
       | None => false
       end
       && (2 <=? Z.of_nat (String.length (snd p)))
       && negb (starts_like_fallback (snd p)))
    table.

(** How a key-name function names a code: by the one character of code [c]
    (the code itself up to [direct_max], the code plus 32 above it), by the
    entry of its class in a table of named keys, or by the fallback name of
    the code itself. *)
Definition name_kind (table : list (Z * string)) (direct_max class code : Z)
    (name : string) : Prop :=
  (exists c : Z,
     0 <= c < 256 /\ name = String (ascii_of_N (Z.to_N c)) EmptyString
     /\ class = code
     /\ (c = code /\ c <= direct_max \/ c = code + 32 /\ direct_max < c))
  \/ In (class, name) table
  \/ (name = fallback_name code /\ class = code).

(** A fullscreen or unfullscreen call on a window that is not null. *)
Definition on_a_window (c : WindowControl.gtk_call) : bool :=
  match c with
  | WindowControl.gtk_window_fullscreen window => negb (window =? 0)
  | WindowControl.gtk_window_unfullscreen window => negb (window =? 0)
  | _ => false
  end.

(** The shape of the trace of a window-control plugin created on the view
    [v]: the weak pointer is registered first; then come calls on windows
    only; and the weak pointer is removed last, at most once, exactly when the
    plugin has let go of its view. *)
Definition window_trace_ok (v : Z) (w : WindowControl.World) : Prop :=
  exists fs : list WindowControl.gtk_call,
    forallb on_a_window fs = true
    /\ ((WindowControl.view (WindowControl.self w) = v
         /\ WindowControl.calls w = WindowControl.g_object_add_weak_pointer v :: fs)
        \/ (v <> 0
            /\ WindowControl.view (WindowControl.self w) = 0
            /\ WindowControl.calls w
               = WindowControl.g_object_add_weak_pointer v :: fs
                 ++ [WindowControl.g_object_remove_weak_pointer v])).

(** A wire key event of 32 bytes with the given type, key code and modifier
    state, all other bytes zero. *)
Definition key_wire_event (type keycode state : byte) : list byte :=
  [type; keycode] ++ repeat Byte.x00 26 ++ [state] ++ repeat Byte.x00 3.

(** Whether [k] whole notches of the wheel scale to exactly [k]. *)
Definition notch_exact (k : Z) : bool :=
  PrimFloat.Leibniz.eqb (PrimFloat.div (double_of_Z (120 * k)) 120%float)
    (double_of_Z k).

(** The integers from [lo] on, [n] of them. *)
Definition Z_range (lo : Z) (n : nat) : list Z :=
  map (fun i => lo + Z.of_nat i) (seq 0 n).

(** ** The shared conversions on small inputs *)

Example to_string_97 : to_string 97 = "97".
Proof. reflexivity. Qed.

Example to_string_0 : to_string 0 = "0".
Proof. reflexivity. Qed.

Example double_of_Z_neg : double_of_Z (-1) = (-1)%float.
Proof. reflexivity. Qed.

Example int16_wrap : int16 0xFFFF = -1.
Proof. reflexivity. Qed.

Example wire_event_length :
  length (wire_event Byte.x04 Byte.x01 Byte.x78 Byte.x00 Byte.x54 Byte.x01) = 32%nat.
Proof. reflexivity. Qed.

(** ** Resource discipline of the kernel-stream plugin *)

Lemma linux_held_after_snoc tr c :
  Linux.held_after (tr ++ [c]) = Linux.effect c (Linux.held_after tr).
Proof. unfold Linux.held_after. now rewrite fold_left_app. Qed.

(** Turn boolean comparisons in the context into (in)equalities. *)
Ltac zeqb :=
  repeat match goal with
    | H : (_ =? _) = true |- _ => apply Z.eqb_eq in H
    | H : (_ =? _) = false |- _ => apply Z.eqb_neq in H
    end.

Ltac settle := zeqb; subst; intuition congruence.

Ltac linux_trace :=
  unfold Linux.held in *; simpl in *;
  repeat rewrite linux_held_after_snoc; simpl.

Lemma linux_start_capture_inv os w :
  linux_inv w -> linux_inv (Linux.start_capture os w).
Proof.
  destruct w as [[eh d rd rc rt ic tr] cs ch].
  destruct os as [od ra cc pr pt].
  unfold linux_inv, Linux.start_capture; simpl.
  destruct ic; simpl; [tauto|].
  intros (Hh & Hc & _).
  destruct (od =? 0) eqn:Eod; simpl.
  { linux_trace. rewrite Eod. settle. }
  destruct ra; simpl.
  2:{ linux_trace. rewrite Eod, Hh. simpl. rewrite Z.eqb_refl. settle. }
  destruct (cc =? 0) eqn:Ecc; simpl.
  { linux_trace. rewrite Eod, Ecc, Hh. simpl. rewrite Z.eqb_refl. settle. }
  destruct (pr =? 0) eqn:Epr; simpl.
  - linux_trace. rewrite Eod, Ecc, Epr, Hh. simpl. settle.
  - linux_trace. rewrite Eod, Ecc, Epr, Hh. simpl. rewrite !Z.eqb_refl. simpl.
    rewrite Z.eqb_refl. settle.
Qed.

Lemma linux_stop_capture_inv w :
  linux_inv w -> linux_inv (Linux.stop_capture w).
Proof.
  destruct w as [[eh d rd rc rt ic tr] cs ch].
  unfold linux_inv, Linux.stop_capture; simpl.
  destruct ic; simpl; [|tauto].
  intros (Hh & Hc & Hd).
  apply Z.eqb_neq in Hc, Hd. rewrite Hc; simpl. rewrite Hd; simpl.
  linux_trace. rewrite Hh. repeat (simpl; rewrite ?Z.eqb_refl). settle.
Qed.

Lemma linux_initial_inv dpy handler : linux_inv (Linux.initial dpy handler).
Proof. unfold linux_inv; simpl. tauto. Qed.

Lemma linux_run_inv rs : forall w, linux_inv w -> linux_inv (Linux.run rs w).
Proof.
  induction rs as [|r rs IH]; intros w Hw; [exact Hw|].
  simpl. apply IH. destruct r; simpl.
  - now apply linux_start_capture_inv.
  - now apply linux_stop_capture_inv.
Qed.

(** ** Resource discipline of the hook plugin *)

Lemma windows_held_after_snoc tr c :
  Windows.held_after (tr ++ [c]) = Windows.effect c (Windows.held_after tr).
Proof. unfold Windows.held_after. now rewrite fold_left_app. Qed.

Ltac windows_trace :=
  unfold Windows.held in *; simpl in *;
  repeat rewrite windows_held_after_snoc; simpl.

Lemma windows_StartCapture_inv os w :
  windows_inv w -> windows_inv (snd (Windows.StartCapture os w)).
Proof.
  destruct w as [[es kh mh ic] inst cs dl].
  destruct os as [kr mr].
  unfold windows_inv, Windows.StartCapture; simpl.
  destruct ic; simpl; [tauto|].
  intros (Hh & _ & Hm).
  destruct (kr =? 0) eqn:Ekr; simpl.
  { windows_trace. rewrite Ekr. settle. }
  destruct (mr =? 0) eqn:Emr; simpl.
  - windows_trace. rewrite Ekr, Emr, Hh. simpl. rewrite Z.eqb_refl. settle.
  - windows_trace. rewrite Ekr, Emr, Hh. settle.
Qed.

Lemma windows_StopCapture_inv w :
  windows_inv w -> windows_inv (Windows.StopCapture w).
Proof.
  destruct w as [[es kh mh ic] inst cs dl].
  unfold windows_inv, Windows.StopCapture; simpl.
  destruct ic; simpl; [|tauto].
  intros (Hh & Hk & Hm).
  apply Z.eqb_neq in Hk, Hm. rewrite Hk; simpl. rewrite Hm; simpl.
  windows_trace. rewrite Hh. simpl.
  destruct (mh =? kh) eqn:E; simpl.
  - apply Z.eqb_eq in E; subst. repeat (simpl; rewrite ?Z.eqb_refl). settle.
  - repeat (simpl; rewrite ?Z.eqb_refl). settle.
Qed.

Lemma windows_run_inv rs : forall w, windows_inv w -> windows_inv (Windows.run rs w).
Proof.
  induction rs as [|r rs IH]; intros w Hw; [exact Hw|].
  simpl. apply IH. destruct r; simpl.
  - now apply windows_StartCapture_inv.
  - now apply windows_StopCapture_inv.
Qed.

Lemma linux_stop_capture_idle w :
  Linux.is_capturing (Linux.self (Linux.stop_capture w)) = false.
Proof.
  destruct w as [[eh d rd rc rt ic tr] cs ch].
  unfold Linux.stop_capture; simpl.
  destruct ic; simpl; [|reflexivity].
  destruct (rc =? 0); simpl; destruct (rd =? 0); reflexivity.
Qed.

Lemma linux_stop_capture_noop w :
  Linux.is_capturing (Linux.self w) = false -> Linux.stop_capture w = w.
Proof. intros H. unfold Linux.stop_capture. now rewrite H. Qed.

Lemma linux_start_capture_noop os w :
  Linux.is_capturing (Linux.self w) = true -> Linux.start_capture os w = w.
Proof. intros H. unfold Linux.start_capture. now rewrite H. Qed.

Lemma windows_StopCapture_idle w :
  Windows.is_capturing_ (Windows.this (Windows.StopCapture w)) = false.
Proof.
  destruct w as [[es kh mh ic] inst cs dl].
  unfold Windows.StopCapture; simpl.
  destruct ic; simpl; reflexivity.
Qed.

Lemma windows_StopCapture_noop w :
  Windows.is_capturing_ (Windows.this w) = false -> Windows.StopCapture w = w.
Proof. intros H. unfold Windows.StopCapture. now rewrite H. Qed.

Lemma windows_StartCapture_noop os w :
  Windows.is_capturing_ (Windows.this w) = true -> Windows.StartCapture os w = (true, w).
Proof. intros H. unfold Windows.StartCapture. now rewrite H. Qed.

Lemma linux_reachable_inv dpy handler rs :
  linux_inv (Linux.run rs (Linux.initial dpy handler)).
Proof. apply linux_run_inv, linux_initial_inv. Qed.

Lemma windows_reachable_inv sink rs :
  windows_inv (Windows.run rs (Windows.initial sink)).
Proof. apply windows_run_inv. unfold windows_inv; simpl. tauto. Qed.

(** C1. Whatever sequence of [startCapture] / [stopCapture] requests the
    plugin has served since its construction, and whatever the system
    answered to each acquisition: while it is not capturing it holds no
    capture resource and its resource fields are cleared; while it is
    capturing it holds exactly one resource of each kind, and a further start
    changes nothing, makes no OS call and (on the hook platform) reports
    success; a stop after a stop changes nothing.  This holds on both
    platforms. *)
Theorem start_stop_resource_discipline :
  (forall (dpy handler : Z) (rs : list Linux.request),
     let w := Linux.run rs (Linux.initial dpy handler) in
     (Linux.is_capturing (Linux.self w) = false ->
        Linux.held w = []
        /\ Linux.record_display (Linux.self w) = 0
        /\ Linux.record_context (Linux.self w) = 0)
     /\ (Linux.is_capturing (Linux.self w) = true ->
           Linux.held w =
             [Linux.WorkerThread (Linux.record_thread (Linux.self w));
              Linux.RecordContext (Linux.record_context (Linux.self w));
              Linux.RecordDisplay (Linux.record_display (Linux.self w))]
           /\ forall os, Linux.start_capture os w = w)
     /\ (forall os os',
           Linux.is_capturing (Linux.self (Linux.start_capture os w)) = true ->
           Linux.start_capture os' (Linux.start_capture os w)
           = Linux.start_capture os w)
     /\ Linux.stop_capture (Linux.stop_capture w) = Linux.stop_capture w)
  /\
  (forall (sink : option nat) (rs : list Windows.request),
     let w := Windows.run rs (Windows.initial sink) in
     (Windows.is_capturing_ (Windows.this w) = false ->
        Windows.held w = []
        /\ Windows.keyboard_hook_ (Windows.this w) = 0
        /\ Windows.mouse_hook_ (Windows.this w) = 0)
     /\ (Windows.is_capturing_ (Windows.this w) = true ->
           Windows.held w =
             [Windows.Hook Windows.WH_MOUSE_LL (Windows.mouse_hook_ (Windows.this w));
              Windows.Hook Windows.WH_KEYBOARD_LL
                (Windows.keyboard_hook_ (Windows.this w))]
           /\ forall os, Windows.StartCapture os w = (true, w))
     /\ (forall os os',
           Windows.is_capturing_
             (Windows.this (snd (Windows.StartCapture os w))) = true ->
           Windows.StartCapture os' (snd (Windows.StartCapture os w))
           = (true, snd (Windows.StartCapture os w)))
     /\ Windows.StopCapture (Windows.StopCapture w) = Windows.StopCapture w).
Proof.
  split.
  - intros dpy handler rs w.
    pose proof (linux_reachable_inv dpy handler rs) as Hinv.
    fold w in Hinv. unfold linux_inv in Hinv.
    split; [|split; [|split]].
    + intros Hidle. now rewrite Hidle in Hinv.
    + intros Hrun. rewrite Hrun in Hinv. split; [apply Hinv|].
      intros os. now apply linux_start_capture_noop.
    + intros os os' Hrun. now apply linux_start_capture_noop.
    + apply linux_stop_capture_noop, linux_stop_capture_idle.
  - intros sink rs w.
    pose proof (windows_reachable_inv sink rs) as Hinv.
    fold w in Hinv. unfold windows_inv in Hinv.
    split; [|split; [|split]].
    + intros Hidle. now rewrite Hidle in Hinv.
    + intros Hrun. rewrite Hrun in Hinv. split; [apply Hinv|].
      intros os. now apply windows_StartCapture_noop.
    + intros os os' Hrun. now apply windows_StartCapture_noop.
    + apply windows_StopCapture_noop, windows_StopCapture_idle.
Qed.

(** C1 at a concrete input: a start whose worker cannot be spawned, two
    successful starts in a row, then two stops.  Only the first successful
    start acquires anything, and in the end nothing is held. *)
Lemma start_stop_resource_discipline_witness :
  Linux.held
    (Linux.run
       [Linux.Start
          {| Linux.XOpenDisplay_ret := 100; Linux.XRecordAllocRange_ok := true;
             Linux.XRecordCreateContext_ret := 7; Linux.pthread_create_ret := 11;
             Linux.pthread_create_thread := 0 |};
        Linux.Start
          {| Linux.XOpenDisplay_ret := 101; Linux.XRecordAllocRange_ok := true;
             Linux.XRecordCreateContext_ret := 8; Linux.pthread_create_ret := 0;
             Linux.pthread_create_thread := 9 |};
        Linux.Start
          {| Linux.XOpenDisplay_ret := 102; Linux.XRecordAllocRange_ok := true;
             Linux.XRecordCreateContext_ret := 10; Linux.pthread_create_ret := 0;
             Linux.pthread_create_thread := 12 |};
        Linux.Stop; Linux.Stop]
       (Linux.initial 1 2)) = []
  /\ Windows.held
       (Windows.run
          [Windows.Start {| Windows.keyboard_ret := 5; Windows.mouse_ret := 6 |};
           Windows.Start {| Windows.keyboard_ret := 7; Windows.mouse_ret := 8 |}]
          (Windows.initial None))
     = [Windows.Hook Windows.WH_MOUSE_LL 6; Windows.Hook Windows.WH_KEYBOARD_LL 5].
Proof.
  destruct start_stop_resource_discipline as [HL HW].
  split.
  - refine (proj1 (proj1 (HL 1 2 _) _)). reflexivity.
  - refine (proj1 (proj1 (proj2 (HW None _)) _)). reflexivity.
Defined.

(** ** Failed starts *)

Lemma linux_held_after_app tr1 tr2 :
  Linux.held_after (tr1 ++ tr2)
  = fold_left (fun held c => Linux.effect c held) tr2 (Linux.held_after tr1).
Proof. unfold Linux.held_after. apply fold_left_app. Qed.

Lemma windows_held_after_app tr1 tr2 :
  Windows.held_after (tr1 ++ tr2)
  = fold_left (fun held c => Windows.effect c held) tr2 (Windows.held_after tr1).
Proof. unfold Windows.held_after. apply fold_left_app. Qed.

(** The shape of a rolled-back attempt on the kernel-stream platform: the
    calls up to the refused acquisition, the refused acquisition, and then one
    release for each resource still held at that point, the most recently
    acquired first. *)
Lemma linux_failed_start_trace os w :
  Linux.is_capturing (Linux.self w) = false ->
  Linux.held w = [] ->
  Linux.some_refused os = true ->
  exists pre f post,
    Linux.calls (Linux.start_capture os w) = Linux.calls w ++ pre ++ f :: post
    /\ existsb Linux.refused pre = false
    /\ Linux.refused f = true
    /\ map Linux.released_by post
       = map Some (Linux.held_after (Linux.calls w ++ pre)).
Proof.
  destruct w as [[eh d rd rc rt ic tr] cs ch].
  destruct os as [od ra cc pr pt].
  unfold Linux.some_refused, Linux.start_capture, Linux.held; simpl.
  intros -> Hh Hos.
  destruct (od =? 0) eqn:Eod; simpl.
  { exists [], (Linux.XOpenDisplay od), [].
    rewrite linux_held_after_app, Hh; simpl; rewrite ?Eod.
    repeat split; reflexivity. }
  destruct ra; simpl.
  2:{ exists [Linux.XOpenDisplay od], (Linux.XRecordAllocRange false),
        [Linux.XCloseDisplay od].
      rewrite linux_held_after_app, Hh; simpl; rewrite ?Eod.
      repeat split; try reflexivity. now rewrite <- !app_assoc. }
  destruct (cc =? 0) eqn:Ecc; simpl.
  { exists [Linux.XOpenDisplay od; Linux.XRecordAllocRange true],
      (Linux.XRecordCreateContext od cc),
      [Linux.XFree; Linux.XCloseDisplay od].
    rewrite linux_held_after_app, Hh; simpl; rewrite ?Eod, ?Ecc.
    repeat split; try reflexivity. now rewrite <- !app_assoc. }
  destruct (pr =? 0) eqn:Epr; simpl in *; [discriminate|].
  exists [Linux.XOpenDisplay od; Linux.XRecordAllocRange true;
          Linux.XRecordCreateContext od cc; Linux.XFree],
    (Linux.pthread_create pr pt),
    [Linux.XRecordFreeContext od cc; Linux.XCloseDisplay od].
  rewrite linux_held_after_app, Hh; simpl; rewrite ?Eod, ?Ecc, ?Epr.
  repeat split; try reflexivity. now rewrite <- !app_assoc.
Qed.

Lemma windows_failed_start_trace os w :
  Windows.is_capturing_ (Windows.this w) = false ->
  Windows.held w = [] ->
  Windows.some_refused os = true ->
  exists pre idHook post,
    Windows.calls (snd (Windows.StartCapture os w))
    = Windows.calls w ++ pre ++ Windows.SetWindowsHookEx idHook 0 :: post
    /\ post = map Windows.unhook (Windows.held_after (Windows.calls w ++ pre)).
Proof.
  destruct w as [[es kh mh ic] inst cs dl].
  destruct os as [kr mr].
  unfold Windows.some_refused, Windows.StartCapture, Windows.held; simpl.
  intros -> Hh Hos.
  destruct (kr =? 0) eqn:Ekr; simpl.
  { exists [], Windows.WH_KEYBOARD_LL, [].
    rewrite windows_held_after_app, Hh; simpl.
    apply Z.eqb_eq in Ekr. subst. split; reflexivity. }
  destruct (mr =? 0) eqn:Emr; simpl in *; [|discriminate].
  exists [Windows.SetWindowsHookEx Windows.WH_KEYBOARD_LL kr], Windows.WH_MOUSE_LL,
    [Windows.UnhookWindowsHookEx kr].
  rewrite windows_held_after_app, Hh; simpl; rewrite Ekr.
  apply Z.eqb_eq in Emr. subst. split; [|reflexivity]. now rewrite <- !app_assoc.
Qed.

(** C3. A start attempt in which the system refuses some acquisition reports
    failure, leaves the plugin not capturing with every resource field
    cleared and nothing held, and its calls after the refused acquisition
    release what was held at that point, most recent first.  On the hook
    platform a refused mouse hook is followed by the removal of the keyboard
    hook just installed. *)
Theorem failed_start_rolls_back :
  (forall (os : Linux.CallAnswers) (w : Linux.World),
     linux_inv w ->
     Linux.is_capturing (Linux.self w) = false ->
     Linux.some_refused (Linux.start_answers os) = true ->
     let w' := Linux.start_capture (Linux.start_answers os) w in
     Linux.method_call_cb os "startCapture" w
     = (Linux.fl_method_success_response_new (Linux.fl_value_new_bool false), w')
     /\ Linux.is_capturing (Linux.self w') = false
     /\ Linux.held w' = []
     /\ Linux.record_display (Linux.self w') = 0
     /\ Linux.record_context (Linux.self w') = 0
     /\ exists pre f post,
          Linux.calls w' = Linux.calls w ++ pre ++ f :: post
          /\ existsb Linux.refused pre = false
          /\ Linux.refused f = true
          /\ map Linux.released_by post
             = map Some (Linux.held_after (Linux.calls w ++ pre)))
  /\
  (forall (os : Windows.StartAnswers) (w : Windows.World),
     windows_inv w ->
     Windows.is_capturing_ (Windows.this w) = false ->
     Windows.some_refused os = true ->
     let w' := snd (Windows.StartCapture os w) in
     Windows.HandleMethodCall os "startCapture" w
     = (Windows.Success (Windows.EncodableBool false), w')
     /\ Windows.is_capturing_ (Windows.this w') = false
     /\ Windows.held w' = []
     /\ Windows.keyboard_hook_ (Windows.this w') = 0
     /\ Windows.mouse_hook_ (Windows.this w') = 0
     /\ (exists pre idHook post,
           Windows.calls w'
           = Windows.calls w ++ pre ++ Windows.SetWindowsHookEx idHook 0 :: post
           /\ post = map Windows.unhook (Windows.held_after (Windows.calls w ++ pre)))
     /\ (Windows.keyboard_ret os <> 0 ->
         Windows.calls w'
         = Windows.calls w
           ++ [Windows.SetWindowsHookEx Windows.WH_KEYBOARD_LL (Windows.keyboard_ret os);
               Windows.SetWindowsHookEx Windows.WH_MOUSE_LL 0;
               Windows.UnhookWindowsHookEx (Windows.keyboard_ret os)])).
Proof.
  split.
  - intros os w Hinv Hidle Hos w'.
    assert (Hflag : Linux.is_capturing (Linux.self w') = false).
    { subst w'. destruct os as [[od ra cc pr pt] qv].
      destruct w as [[eh d rd rc rt ic tr] cs ch].
      unfold Linux.some_refused, Linux.start_capture in *; simpl in *.
      subst ic.
      destruct (od =? 0); simpl; [reflexivity|].
      destruct ra; simpl; [|reflexivity].
      destruct (cc =? 0); simpl; [reflexivity|].
      destruct (pr =? 0); simpl in *; [discriminate|reflexivity]. }
    pose proof (linux_start_capture_inv (Linux.start_answers os) w Hinv) as Hinv'.
    fold w' in Hinv'. unfold linux_inv in Hinv, Hinv'.
    rewrite Hflag in Hinv'. rewrite Hidle in Hinv.
    destruct Hinv' as (Hh' & Hc' & Hd'). destruct Hinv as (Hh & _).
    repeat split; auto.
    + unfold Linux.method_call_cb; simpl. fold w'. now rewrite Hflag.
    + now apply linux_failed_start_trace.
  - intros os w Hinv Hidle Hos w'.
    assert (Hres : Windows.StartCapture os w = (false, w')
                   /\ Windows.is_capturing_ (Windows.this w') = false).
    { subst w'. destruct os as [kr mr].
      destruct w as [[es kh mh ic] inst cs dl].
      unfold Windows.some_refused, Windows.StartCapture in *; simpl in *.
      subst ic.
      destruct (kr =? 0); simpl; [auto|].
      destruct (mr =? 0); simpl in *; [auto|discriminate]. }
    destruct Hres as (Hres & Hflag).
    pose proof (windows_StartCapture_inv os w Hinv) as Hinv'.
    fold w' in Hinv'. unfold windows_inv in Hinv, Hinv'.
    rewrite Hflag in Hinv'. rewrite Hidle in Hinv.
    destruct Hinv' as (Hh' & Hk' & Hm'). destruct Hinv as (Hh & _).
    repeat split; auto.
    + unfold Windows.HandleMethodCall; simpl. now rewrite Hres.
    + now apply windows_failed_start_trace.
    + intros Hk. subst w'. destruct os as [kr mr].
      destruct w as [[es kh mh ic] inst cs dl].
      unfold Windows.some_refused, Windows.StartCapture in *; simpl in *.
      subst ic. apply Z.eqb_neq in Hk. rewrite Hk in *. simpl in *.
      rewrite Hos. simpl. apply Z.eqb_eq in Hos. subst mr.
      now rewrite <- !app_assoc.
Qed.

(** C3 at concrete inputs: the worker cannot be spawned after the connection
    (handle 100) and the context (id 7) were acquired; the mouse hook is
    refused after the keyboard hook (handle 5) was installed. *)
Lemma failed_start_rolls_back_witness :
  Linux.held
    (Linux.start_capture
       {| Linux.XOpenDisplay_ret := 100; Linux.XRecordAllocRange_ok := true;
          Linux.XRecordCreateContext_ret := 7; Linux.pthread_create_ret := 11;
          Linux.pthread_create_thread := 0 |}
       (Linux.initial 1 2)) = []
  /\ Windows.calls
       (snd (Windows.StartCapture
               {| Windows.keyboard_ret := 5; Windows.mouse_ret := 0 |}
               (Windows.initial None)))
     = [Windows.SetWindowsHookEx Windows.WH_KEYBOARD_LL 5;
        Windows.SetWindowsHookEx Windows.WH_MOUSE_LL 0;
        Windows.UnhookWindowsHookEx 5].
Proof.
  destruct failed_start_rolls_back as [HL HW].
  split.
  - pose proof
      (HL {| Linux.start_answers :=
               {| Linux.XOpenDisplay_ret := 100; Linux.XRecordAllocRange_ok := true;
                  Linux.XRecordCreateContext_ret := 7; Linux.pthread_create_ret := 11;
                  Linux.pthread_create_thread := 0 |};
             Linux.XRecordQueryVersion_ret := true |}
          (Linux.initial 1 2) (linux_initial_inv 1 2) eq_refl eq_refl) as H.
    exact (proj1 (proj2 (proj2 H))).
  - pose proof
      (HW {| Windows.keyboard_ret := 5; Windows.mouse_ret := 0 |}
          (Windows.initial None) (windows_reachable_inv None []) eq_refl eq_refl) as H.
    apply H. simpl. lia.
Defined.

(** ** The order of the calls of [stop_capture] *)

Lemma linux_stop_calls_running w :
  Linux.is_capturing (Linux.self w) = true ->
  Linux.record_context (Linux.self w) <> 0 ->
  Linux.record_display (Linux.self w) <> 0 ->
  Linux.stop_calls w
  = [Linux.XRecordDisableContext (Linux.display (Linux.self w))
       (Linux.record_context (Linux.self w));
     Linux.XRecordFreeContext (Linux.display (Linux.self w))
       (Linux.record_context (Linux.self w));
     Linux.pthread_join (Linux.record_thread (Linux.self w));
     Linux.XCloseDisplay (Linux.record_display (Linux.self w))].
Proof.
  destruct w as [[eh d rd rc rt ic tr] cs ch].
  unfold Linux.stop_calls, Linux.stop_capture; simpl.
  intros -> Hc Hd. apply Z.eqb_neq in Hc, Hd. simpl.
  rewrite Hc; simpl. rewrite Hd; simpl.
  rewrite <- !app_assoc. simpl.
  rewrite <- (app_nil_r cs) at 1. rewrite length_app, Nat.add_0_r.
  now rewrite skipn_app, skipn_all, Nat.sub_diag.
Qed.

(** C4, as the code has it.  In every state reached by start/stop requests in
    which capture is running, [stop_capture] makes exactly four calls, in this
    order: it disables the record context, frees the record context, joins the
    worker, and closes the record connection.  The halt signal precedes the
    join and the connection is closed only after it, but the record context is
    released before the worker is joined.  Afterwards nothing is held. *)
Theorem stop_capture_call_order :
  forall (dpy handler : Z) (rs : list Linux.request),
    let w := Linux.run rs (Linux.initial dpy handler) in
    Linux.is_capturing (Linux.self w) = true ->
    Linux.stop_calls w
    = [Linux.XRecordDisableContext (Linux.display (Linux.self w))
         (Linux.record_context (Linux.self w));
       Linux.XRecordFreeContext (Linux.display (Linux.self w))
         (Linux.record_context (Linux.self w));
       Linux.pthread_join (Linux.record_thread (Linux.self w));
       Linux.XCloseDisplay (Linux.record_display (Linux.self w))]
    /\ Linux.released_before_join (Linux.stop_calls w)
       = [Linux.RecordContext (Linux.record_context (Linux.self w))]
    /\ Linux.held (Linux.stop_capture w) = []
    /\ Linux.is_capturing (Linux.self (Linux.stop_capture w)) = false.
Proof.
  intros dpy handler rs w Hrun.
  pose proof (linux_reachable_inv dpy handler rs) as Hinv. fold w in Hinv.
  pose proof (linux_stop_capture_inv w Hinv) as Hinv'.
  unfold linux_inv in Hinv, Hinv'.
  rewrite Hrun in Hinv. rewrite linux_stop_capture_idle in Hinv'.
  destruct Hinv as (_ & Hc & Hd).
  rewrite (linux_stop_calls_running w Hrun Hc Hd).
  repeat split; try reflexivity.
  - apply Hinv'.
  - apply linux_stop_capture_idle.
Qed.

(** C4 at a concrete input: one successful start (connection 100, context 7,
    worker 9), then the stop. *)
Lemma stop_capture_call_order_witness :
  Linux.stop_calls
    (Linux.run
       [Linux.Start
          {| Linux.XOpenDisplay_ret := 100; Linux.XRecordAllocRange_ok := true;
             Linux.XRecordCreateContext_ret := 7; Linux.pthread_create_ret := 0;
             Linux.pthread_create_thread := 9 |}]
       (Linux.initial 1 2))
  = [Linux.XRecordDisableContext 1 7; Linux.XRecordFreeContext 1 7;
     Linux.pthread_join 9; Linux.XCloseDisplay 100].
Proof.
  exact (proj1 (stop_capture_call_order 1 2
    [Linux.Start
       {| Linux.XOpenDisplay_ret := 100; Linux.XRecordAllocRange_ok := true;
          Linux.XRecordCreateContext_ret := 7; Linux.pthread_create_ret := 0;
          Linux.pthread_create_thread := 9 |}] eq_refl)).
Defined.

(** C4 as stated fails: in the stop that follows one successful start, the
    record context 7 is released before the worker is joined. *)
Lemma stop_capture_releases_context_before_join :
  Linux.released_before_join
    (Linux.stop_calls
       (Linux.run
          [Linux.Start
             {| Linux.XOpenDisplay_ret := 100; Linux.XRecordAllocRange_ok := true;
                Linux.XRecordCreateContext_ret := 7; Linux.pthread_create_ret := 0;
                Linux.pthread_create_thread := 9 |}]
          (Linux.initial 1 2)))
  = [Linux.RecordContext 7]
  /\ ~ Linux.joins_before_releasing
       (Linux.stop_calls
          (Linux.run
             [Linux.Start
                {| Linux.XOpenDisplay_ret := 100; Linux.XRecordAllocRange_ok := true;
                   Linux.XRecordCreateContext_ret := 7; Linux.pthread_create_ret := 0;
                   Linux.pthread_create_thread := 9 |}]
             (Linux.initial 1 2))).
Proof.
  split; [reflexivity|].
  unfold Linux.joins_before_releasing. vm_compute. discriminate.
Qed.

(** ** The method channel *)

(** C7.  In every state reached by start/stop requests: the reply to
    [startCapture] is the boolean [true] exactly when the plugin is capturing
    after the call, in which case it holds its full set of resources, and
    otherwise it holds none; when the plugin was already capturing the call
    changes nothing and replies [true].  The reply to [stopCapture] is always
    [true], and an [isCapturing] request served next is answered [false]. *)
Theorem method_replies :
  (forall (dpy handler : Z) (rs : list Linux.request) (os os' : Linux.CallAnswers),
     let w := Linux.run rs (Linux.initial dpy handler) in
     let started := Linux.method_call_cb os "startCapture" w in
     let stopped := Linux.method_call_cb os "stopCapture" w in
     fst started
     = Linux.fl_method_success_response_new
         (Linux.fl_value_new_bool (Linux.is_capturing (Linux.self (snd started))))
     /\ Linux.held (snd started)
        = (if Linux.is_capturing (Linux.self (snd started)) then
             [Linux.WorkerThread (Linux.record_thread (Linux.self (snd started)));
              Linux.RecordContext (Linux.record_context (Linux.self (snd started)));
              Linux.RecordDisplay (Linux.record_display (Linux.self (snd started)))]
           else [])
     /\ (Linux.is_capturing (Linux.self w) = true ->
         started
         = (Linux.fl_method_success_response_new (Linux.fl_value_new_bool true), w))
     /\ fst stopped
        = Linux.fl_method_success_response_new (Linux.fl_value_new_bool true)
     /\ Linux.method_call_cb os' "isCapturing" (snd stopped)
        = (Linux.fl_method_success_response_new (Linux.fl_value_new_bool false),
           snd stopped)
     /\ Linux.held (snd stopped) = [])
  /\
  (forall (sink : option nat) (rs : list Windows.request)
          (os os' : Windows.StartAnswers),
     let w := Windows.run rs (Windows.initial sink) in
     let started := Windows.HandleMethodCall os "startCapture" w in
     let stopped := Windows.HandleMethodCall os "stopCapture" w in
     fst started
     = Windows.Success
         (Windows.EncodableBool (Windows.is_capturing_ (Windows.this (snd started))))
     /\ Windows.held (snd started)
        = (if Windows.is_capturing_ (Windows.this (snd started)) then
             [Windows.Hook Windows.WH_MOUSE_LL
                (Windows.mouse_hook_ (Windows.this (snd started)));
              Windows.Hook Windows.WH_KEYBOARD_LL
                (Windows.keyboard_hook_ (Windows.this (snd started)))]
           else [])
     /\ (Windows.is_capturing_ (Windows.this w) = true ->
         started = (Windows.Success (Windows.EncodableBool true), w))
     /\ fst stopped = Windows.Success (Windows.EncodableBool true)
     /\ Windows.HandleMethodCall os' "isCapturing" (snd stopped)
        = (Windows.Success (Windows.EncodableBool false), snd stopped)
     /\ Windows.held (snd stopped) = []).
Proof.
  split.
  - intros dpy handler rs os os' w started stopped.
    pose proof (linux_reachable_inv dpy handler rs) as Hinv. fold w in Hinv.
    assert (Hs : started
                 = (Linux.fl_method_success_response_new
                      (Linux.fl_value_new_bool
                         (Linux.is_capturing
                            (Linux.self (Linux.start_capture (Linux.start_answers os) w)))),
                    Linux.start_capture (Linux.start_answers os) w)) by reflexivity.
    assert (Hp : stopped
                 = (Linux.fl_method_success_response_new (Linux.fl_value_new_bool true),
                    Linux.stop_capture w)) by reflexivity.
    rewrite Hs, Hp. simpl fst. simpl snd.
    pose proof (linux_start_capture_inv (Linux.start_answers os) w Hinv) as Hi1.
    pose proof (linux_stop_capture_inv w Hinv) as Hi2.
    unfold linux_inv in Hi1, Hi2. rewrite linux_stop_capture_idle in Hi2.
    repeat split.
    + destruct (Linux.is_capturing
                  (Linux.self (Linux.start_capture (Linux.start_answers os) w)));
        apply Hi1.
    + intros Hrun. now rewrite (linux_start_capture_noop _ _ Hrun), Hrun.
    + unfold Linux.method_call_cb; simpl. now rewrite linux_stop_capture_idle.
    + apply Hi2.
  - intros sink rs os os' w started stopped.
    pose proof (windows_reachable_inv sink rs) as Hinv. fold w in Hinv.
    assert (Hs : started
                 = (Windows.Success
                      (Windows.EncodableBool (fst (Windows.StartCapture os w))),
                    snd (Windows.StartCapture os w))).
    { subst started. unfold Windows.HandleMethodCall; simpl.
      now destruct (Windows.StartCapture os w). }
    assert (Hp : stopped
                 = (Windows.Success (Windows.EncodableBool true),
                    Windows.StopCapture w)) by reflexivity.
    assert (Hret : fst (Windows.StartCapture os w)
                   = Windows.is_capturing_
                       (Windows.this (snd (Windows.StartCapture os w)))).
    { clear. destruct w as [[es kh mh ic] inst cs dl]. destruct os as [kr mr].
      unfold Windows.StartCapture; simpl.
      destruct ic; simpl; [reflexivity|].
      destruct (kr =? 0); simpl; [reflexivity|].
      destruct (mr =? 0); simpl; reflexivity. }
    rewrite Hs, Hp. simpl fst. simpl snd.
    pose proof (windows_StartCapture_inv os w Hinv) as Hi1.
    pose proof (windows_StopCapture_inv w Hinv) as Hi2.
    unfold windows_inv in Hi1, Hi2. rewrite windows_StopCapture_idle in Hi2.
    repeat split.
    + now rewrite Hret.
    + destruct (Windows.is_capturing_
                  (Windows.this (snd (Windows.StartCapture os w))));
        apply Hi1.
    + intros Hrun. now rewrite (windows_StartCapture_noop _ _ Hrun).
    + unfold Windows.HandleMethodCall; simpl. now rewrite windows_StopCapture_idle.
    + apply Hi2.
Qed.

(** C7 at concrete inputs: on a fresh plugin a start whose record range
    cannot be allocated is answered [false]; a start that succeeds is answered
    [true]. *)
Lemma method_replies_witness :
  fst (Linux.method_call_cb
         {| Linux.start_answers :=
              {| Linux.XOpenDisplay_ret := 100; Linux.XRecordAllocRange_ok := false;
                 Linux.XRecordCreateContext_ret := 7; Linux.pthread_create_ret := 0;
                 Linux.pthread_create_thread := 9 |};
            Linux.XRecordQueryVersion_ret := true |}
         "startCapture" (Linux.initial 1 2))
  = Linux.fl_method_success_response_new (Linux.fl_value_new_bool false)
  /\ fst (Windows.HandleMethodCall
            {| Windows.keyboard_ret := 5; Windows.mouse_ret := 6 |}
            "startCapture" (Windows.initial None))
     = Windows.Success (Windows.EncodableBool true).
Proof.
  destruct method_replies as [HL HW].
  split.
  - exact (proj1 (HL 1 2 [] _ {| Linux.start_answers :=
              {| Linux.XOpenDisplay_ret := 0; Linux.XRecordAllocRange_ok := false;
                 Linux.XRecordCreateContext_ret := 0; Linux.pthread_create_ret := 0;
                 Linux.pthread_create_thread := 0 |};
            Linux.XRecordQueryVersion_ret := true |})).
  - exact (proj1 (HW None [] _ {| Windows.keyboard_ret := 0; Windows.mouse_ret := 0 |})).
Defined.

(** ** The event sink *)

(** On the hook platform sending reaches the attached sink, and only it; a
    sink that was replaced or cancelled receives nothing more. *)
Lemma windows_send_reaches_the_attached_sink :
  (forall (w : Windows.World) (event : gmap string Windows.EncodableValue) (sink : nat),
     Windows.event_sink_ (Windows.this w) = Some sink ->
     Windows.SendEvent event w
     = {| Windows.this := Windows.this w; Windows.instance_ := Windows.instance_ w;
          Windows.calls := Windows.calls w;
          Windows.delivered := Windows.delivered w ++ [(sink, event)] |})
  /\ (forall (w : Windows.World) (event : gmap string Windows.EncodableValue),
        Windows.event_sink_ (Windows.this w) = None ->
        Windows.SendEvent event w = w)
  /\ (forall (w : Windows.World) (event : gmap string Windows.EncodableValue)
             (old new : nat),
        let w' := Windows.OnListenInternal new (Windows.OnListenInternal old w) in
        w' = Windows.OnListenInternal new w
        /\ Windows.event_sink_ (Windows.this w') = Some new
        /\ Windows.delivered (Windows.SendEvent event w')
           = Windows.delivered w ++ [(new, event)])
  /\ (forall (w : Windows.World) (event : gmap string Windows.EncodableValue),
        Windows.SendEvent event (Windows.OnCancelInternal w)
        = Windows.OnCancelInternal w).
Proof.
  repeat split.
  - intros w event sink H. unfold Windows.SendEvent. now rewrite H.
  - intros w event H. unfold Windows.SendEvent. now rewrite H.
Qed.

(** ** The hook procedures *)

(** Reduce the guards of a hook procedure, never the event it builds. *)
Ltac hook_simpl := cbn [andb orb negb Windows.engaged Windows.consumed fst snd].

(** The case in which a hook procedure passes the event on. *)
Ltac hook_forwards :=
  split;
  [ split;
    [ discriminate
    | let H := fresh in
      intros H; exfalso; decompose [and] H; clear H;
      try match goal with E : (0 <=? _) = false |- _ => apply Z.leb_gt in E end;
      (lia || congruence || discriminate) ]
  | split; [ discriminate | intros _; reflexivity ] ].

(** The case in which a hook procedure sends an event to [sink]. *)
Ltac hook_consumes sink Es :=
  split;
  [ split;
    [ intros _; repeat split; (assumption || congruence || reflexivity)
    | intros _; reflexivity ]
  | split;
    [ intros _; split; [ reflexivity | ];
      exists sink; eexists; split; [ reflexivity | ];
      unfold Windows.SendEvent; rewrite Es; reflexivity
    | let H := fresh in intros [H|H]; discriminate ] ].

(** C10.  A hook procedure keeps an event from the rest of the chain exactly
    when the hook code is non-negative, the static instance pointer is set, a
    sink is attached and, for the mouse, the message is one it has a case for;
    it then returns -1 (keyboard) or 1 (mouse) and sends one event to that
    sink.  In particular, with no instance or no sink -- whether or not capture
    was started -- it returns what [CallNextHookEx] returns and changes
    nothing. *)
Theorem hooks_consume_only_with_instance_and_sink :
  (forall (env : Windows.HookEnv) (w : Windows.World) (nCode wParam : Z)
          (kb : Windows.KBDLLHOOKSTRUCT),
     let r := Windows.KeyboardHookProc env w nCode wParam kb in
     (Windows.consumed (fst r) = true <->
        0 <= nCode /\ Windows.instance_ w = true
        /\ Windows.event_sink_ (Windows.this w) <> None)
     /\ (Windows.consumed (fst r) = true ->
         fst r = Windows.Return (-1)
         /\ exists sink event,
              Windows.event_sink_ (Windows.this w) = Some sink
              /\ Windows.delivered (snd r) = Windows.delivered w ++ [(sink, event)])
     /\ (Windows.instance_ w = false \/ Windows.event_sink_ (Windows.this w) = None ->
         r = (Windows.CallNextHookEx nCode wParam, w)))
  /\
  (forall (env : Windows.HookEnv) (w : Windows.World) (nCode wParam : Z)
          (ms : Windows.MSLLHOOKSTRUCT),
     let r := Windows.MouseHookProc env w nCode wParam ms in
     (Windows.consumed (fst r) = true <->
        0 <= nCode /\ Windows.instance_ w = true
        /\ Windows.event_sink_ (Windows.this w) <> None
        /\ Windows.recognized wParam = true)
     /\ (Windows.consumed (fst r) = true ->
         fst r = Windows.Return 1
         /\ exists sink event,
              Windows.event_sink_ (Windows.this w) = Some sink
              /\ Windows.delivered (snd r) = Windows.delivered w ++ [(sink, event)])
     /\ (Windows.instance_ w = false \/ Windows.event_sink_ (Windows.this w) = None ->
         r = (Windows.CallNextHookEx nCode wParam, w))).
Proof.
  split.
  - intros env w nCode wParam kb r. subst r.
    unfold Windows.KeyboardHookProc.
    destruct (0 <=? nCode) eqn:En; hook_simpl; [apply Z.leb_le in En|hook_forwards].
    destruct (Windows.instance_ w) eqn:Ei; hook_simpl; [|hook_forwards].
    destruct (Windows.event_sink_ (Windows.this w)) as [sink|] eqn:Es; hook_simpl;
      [|hook_forwards].
    hook_consumes sink Es.
  - intros env w nCode wParam ms r. subst r.
    unfold Windows.MouseHookProc, Windows.recognized.
    destruct (0 <=? nCode) eqn:En; hook_simpl; [apply Z.leb_le in En|hook_forwards].
    destruct (Windows.instance_ w) eqn:Ei; hook_simpl; [|hook_forwards].
    destruct (Windows.event_sink_ (Windows.this w)) as [sink|] eqn:Es; hook_simpl;
      [|hook_forwards].
    destruct (wParam =? Windows.WM_MOUSEMOVE); hook_simpl; [hook_consumes sink Es|].
    destruct (wParam =? Windows.WM_LBUTTONDOWN); hook_simpl; [hook_consumes sink Es|].
    destruct (wParam =? Windows.WM_LBUTTONUP); hook_simpl; [hook_consumes sink Es|].
    destruct (wParam =? Windows.WM_RBUTTONDOWN); hook_simpl; [hook_consumes sink Es|].
    destruct (wParam =? Windows.WM_RBUTTONUP); hook_simpl; [hook_consumes sink Es|].
    destruct (wParam =? Windows.WM_MBUTTONDOWN); hook_simpl; [hook_consumes sink Es|].
    destruct (wParam =? Windows.WM_MBUTTONUP); hook_simpl; [hook_consumes sink Es|].
    destruct (wParam =? Windows.WM_MOUSEWHEEL); hook_simpl; [hook_consumes sink Es|].
    destruct (wParam =? Windows.WM_MOUSEHWHEEL); hook_simpl; [hook_consumes sink Es|].
    hook_forwards.
Qed.

(** C10 at a concrete input: capture was started (hooks 5 and 6 installed)
    but no listener is attached; a key-down is passed down the chain and
    nothing is delivered. *)
Lemma hooks_consume_only_with_instance_and_sink_witness :
  Windows.KeyboardHookProc
    {| Windows.FileTime := 133000000000000000;
       Windows.GetAsyncKeyState := fun _ => 0 |}
    (Windows.run
       [Windows.Start {| Windows.keyboard_ret := 5; Windows.mouse_ret := 6 |}]
       (Windows.initial None))
    0 Windows.WM_KEYDOWN {| Windows.vkCode := 0x41 |}
  = (Windows.CallNextHookEx 0 Windows.WM_KEYDOWN,
     Windows.run
       [Windows.Start {| Windows.keyboard_ret := 5; Windows.mouse_ret := 6 |}]
       (Windows.initial None)).
Proof.
  destruct hooks_consume_only_with_instance_and_sink as [HK _].
  apply HK. right. reflexivity.
Defined.

(** ** Records the decoders have no case for *)

(** C8.  A raw record whose event type the callback has no case for leaves
    the whole state as it was: nothing is put on the channel and capture goes
    on.  A mouse message the hook procedure has no case for is passed down the
    chain and leaves the whole state as it was: nothing is delivered. *)
Theorem unrecognized_records_are_dropped :
  (forall (env : Linux.CallbackEnv) (w : Linux.World) (d : Linux.XRecordInterceptData),
     Linux.recognized (Linux.event_type d) = false ->
     Linux.record_event_callback env w d = w)
  /\
  (forall (env : Windows.HookEnv) (w : Windows.World) (nCode wParam : Z)
          (ms : Windows.MSLLHOOKSTRUCT),
     Windows.recognized wParam = false ->
     Windows.MouseHookProc env w nCode wParam ms
     = (Windows.CallNextHookEx nCode wParam, w)).
Proof.
  split.
  - intros env w d H.
    unfold Linux.recognized, Linux.event_type in H.
    repeat (apply orb_false_elim in H; destruct H as [H ?]).
    unfold Linux.record_event_callback.
    destruct (negb (Linux.category d =? Linux.XRecordFromServer)); [reflexivity|].
    cbv zeta.
    repeat match goal with E : (_ =? _) = false |- _ => rewrite E; clear E end.
    reflexivity.
  - intros env w nCode wParam ms H.
    unfold Windows.recognized in H.
    repeat (apply orb_false_elim in H; destruct H as [H ?]).
    unfold Windows.MouseHookProc.
    destruct ((0 <=? nCode) && Windows.instance_ w
              && Windows.engaged (Windows.event_sink_ (Windows.this w)));
      [|reflexivity].
    cbv zeta.
    repeat match goal with E : (_ =? _) = false |- _ => rewrite E; clear E end.
    reflexivity.
Qed.

(** C8 at concrete inputs: an [EnterNotify] record (type 7) sent by the server
    to a listening plugin, and a [WM_XBUTTONDOWN] message (0x020B) on a plugin
    with a sink attached. *)
Lemma unrecognized_records_are_dropped_witness :
  Linux.record_event_callback
    {| Linux.g_get_real_time := 1700000000000000;
       Linux.XKeycodeToKeysym := fun _ keycode => keycode |}
    (Linux.initial 1 2)
    {| Linux.category := 0; Linux.data := [Byte.x07; Byte.x00] |}
  = Linux.initial 1 2
  /\ Windows.MouseHookProc
       {| Windows.FileTime := 133000000000000000;
          Windows.GetAsyncKeyState := fun _ => 0 |}
       (Windows.initial (Some 1%nat)) 0 0x020B
       {| Windows.pt := {| Windows.x := 10; Windows.y := 20 |};
          Windows.mouseData := 0x10000 |}
     = (Windows.CallNextHookEx 0 0x020B, Windows.initial (Some 1%nat)).
Proof.
  destruct unrecognized_records_are_dropped as [HL HW].
  split.
  - apply HL. reflexivity.
  - apply HW. reflexivity.
Defined.

(** ** The events the kernel-stream decoder builds *)

(** A key record gives an event with the key fields and no others. *)
Lemma linux_key_event_fields env w d :
  Linux.category d = Linux.XRecordFromServer ->
  Linux.event_type d = Linux.KeyPress \/ Linux.event_type d = Linux.KeyRelease ->
  exists event_map,
    Linux.record_event_callback env w d = Linux.send_event_to_dart w event_map
    /\ Linux.fields event_map = ["timestamp"; "type"; "keyCode"; "key"; "modifiers"]
    /\ Linux.fl_value_lookup_string event_map "type"
       = Some (Linux.fl_value_new_string
                 (if Linux.event_type d =? Linux.KeyPress then "keyDown" else "keyUp"))
    /\ Linux.fl_value_lookup_string event_map "keyCode"
       = Some (Linux.fl_value_new_int (Linux.byte_at (Linux.data d) 1))
    /\ Linux.fl_value_lookup_string event_map "key"
       = Some (Linux.fl_value_new_string
                 (Linux.keycode_to_string
                    (Linux.XKeycodeToKeysym env (Linux.display (Linux.self w))
                       (Linux.byte_at (Linux.data d) 1)))).
Proof.
  intros Hcat Hty.
  unfold Linux.record_event_callback. cbv zeta.
  fold (Linux.event_type d). rewrite Hcat.
  destruct Hty as [-> | ->]; eexists; (split; [reflexivity|]);
    repeat split; reflexivity.
Qed.

(** A motion record gives an event with the position and no other field. *)
Lemma linux_motion_event_fields env w d :
  Linux.category d = Linux.XRecordFromServer ->
  Linux.event_type d = Linux.MotionNotify ->
  exists event_map,
    Linux.record_event_callback env w d = Linux.send_event_to_dart w event_map
    /\ Linux.fields event_map = ["timestamp"; "type"; "x"; "y"]
    /\ Linux.fl_value_lookup_string event_map "type"
       = Some (Linux.fl_value_new_string "mouseMove").
Proof.
  intros Hcat Hty.
  unfold Linux.record_event_callback. cbv zeta.
  fold (Linux.event_type d). rewrite Hcat, Hty.
  eexists; repeat split; reflexivity.
Qed.

(** A press or release of a button outside 4..7 gives a button event. *)
Lemma linux_button_event_fields env w d :
  Linux.category d = Linux.XRecordFromServer ->
  Linux.event_type d = Linux.ButtonPress \/ Linux.event_type d = Linux.ButtonRelease ->
  (4 <=? Linux.byte_at (Linux.data d) 1) && (Linux.byte_at (Linux.data d) 1 <=? 7)
  = false ->
  exists event_map,
    Linux.record_event_callback env w d = Linux.send_event_to_dart w event_map
    /\ Linux.fields event_map = ["timestamp"; "type"; "button"; "x"; "y"]
    /\ Linux.fl_value_lookup_string event_map "type"
       = Some (Linux.fl_value_new_string
                 (if Linux.event_type d =? Linux.ButtonPress
                  then "mouseDown" else "mouseUp"))
    /\ Linux.fl_value_lookup_string event_map "x"
       = Some (Linux.fl_value_new_float (double_of_Z (Linux.int16_at (Linux.data d) 24)))
    /\ Linux.fl_value_lookup_string event_map "y"
       = Some (Linux.fl_value_new_float (double_of_Z (Linux.int16_at (Linux.data d) 26))).
Proof.
  intros Hcat Hty Hb.
  unfold Linux.record_event_callback. cbv zeta.
  fold (Linux.event_type d). rewrite Hcat, Hb.
  destruct Hty as [-> | ->]; eexists; (split; [reflexivity|]);
    repeat split; reflexivity.
Qed.

(** C5.  A button-press record sent by the server whose button number is 4,
    5, 6 or 7 gives an event of type [mouseScroll] with no [button] field,
    whose deltas are those of the table: 4 gives deltaY = 1.0, 5 gives
    deltaY = -1.0, 6 gives deltaX = 1.0, 7 gives deltaX = -1.0, the other
    delta being 0.0. *)
Theorem wheel_buttons_decode_to_unit_scroll :
  forall (env : Linux.CallbackEnv) (w : Linux.World) (d : Linux.XRecordInterceptData),
    Linux.category d = Linux.XRecordFromServer ->
    Linux.event_type d = Linux.ButtonPress ->
    4 <= Linux.byte_at (Linux.data d) 1 <= 7 ->
    exists event_map,
      Linux.record_event_callback env w d = Linux.send_event_to_dart w event_map
      /\ Linux.fl_value_lookup_string event_map "type"
         = Some (Linux.fl_value_new_string "mouseScroll")
      /\ Linux.fl_value_lookup_string event_map "button" = None
      /\ Linux.fl_value_lookup_string event_map "deltaX"
         = Some (Linux.fl_value_new_float
                   (fst (unit_scroll (Linux.byte_at (Linux.data d) 1))))
      /\ Linux.fl_value_lookup_string event_map "deltaY"
         = Some (Linux.fl_value_new_float
                   (snd (unit_scroll (Linux.byte_at (Linux.data d) 1)))).
Proof.
  intros env w d Hcat Hty Hr.
  unfold Linux.record_event_callback. cbv zeta.
  fold (Linux.event_type d). rewrite Hcat, Hty.
  remember (Linux.byte_at (Linux.data d) 1) as button eqn:Hb.
  assert (Hc : button = 4 \/ button = 5 \/ button = 6 \/ button = 7) by lia.
  destruct Hc as [-> | [-> | [-> | ->]]];
    eexists; (split; [reflexivity|]); repeat split; reflexivity.
Qed.

(** C5 at a concrete input: the press of button 5 (wheel down) at (120, 340),
    delivered to a listening plugin. *)
Lemma wheel_buttons_decode_to_unit_scroll_witness :
  exists event_map,
    Linux.channel
      (Linux.record_event_callback
         {| Linux.g_get_real_time := 1700000000000000;
            Linux.XKeycodeToKeysym := fun _ keycode => keycode |}
         (Linux.initial 1 2)
         {| Linux.category := 0;
            Linux.data := wire_event Byte.x04 Byte.x05 Byte.x78 Byte.x00
                            Byte.x54 Byte.x01 |})
    = [event_map]
    /\ Linux.fl_value_lookup_string event_map "deltaX"
       = Some (Linux.fl_value_new_float 0%float)
    /\ Linux.fl_value_lookup_string event_map "deltaY"
       = Some (Linux.fl_value_new_float (-1)%float).
Proof.
  destruct (wheel_buttons_decode_to_unit_scroll
              {| Linux.g_get_real_time := 1700000000000000;
                 Linux.XKeycodeToKeysym := fun _ keycode => keycode |}
              (Linux.initial 1 2)
              {| Linux.category := 0;
                 Linux.data := wire_event Byte.x04 Byte.x05 Byte.x78 Byte.x00
                                 Byte.x54 Byte.x01 |}
              eq_refl eq_refl ltac:(vm_compute; split; discriminate))
    as (event_map & Hsend & _ & _ & HdX & HdY).
  exists event_map. rewrite Hsend. repeat split; assumption.
Defined.

(** ** The events the hook decoder builds *)

Lemma windows_key_event_fields env w nCode wParam kb sink :
  0 <= nCode ->
  Windows.instance_ w = true ->
  Windows.event_sink_ (Windows.this w) = Some sink ->
  exists event : gmap string Windows.EncodableValue,
    Windows.KeyboardHookProc env w nCode wParam kb
    = (Windows.Return (-1), Windows.SendEvent event w)
    /\ dom event = {["timestamp"; "type"; "keyCode"; "key"; "modifiers"]}
    /\ event !! "key" = Some (Windows.EncodableString
                                (Windows.VKeyToString (Windows.vkCode kb))).
Proof.
  intros Hn Hi Hs. apply Z.leb_le in Hn.
  unfold Windows.KeyboardHookProc. rewrite Hn, Hi, Hs. hook_simpl. cbv zeta.
  eexists; split; [reflexivity|]. split; reflexivity.
Qed.

Lemma windows_move_event_fields env w nCode ms sink :
  0 <= nCode ->
  Windows.instance_ w = true ->
  Windows.event_sink_ (Windows.this w) = Some sink ->
  exists event : gmap string Windows.EncodableValue,
    Windows.MouseHookProc env w nCode Windows.WM_MOUSEMOVE ms
    = (Windows.Return 1, Windows.SendEvent event w)
    /\ dom event = {["timestamp"; "type"; "x"; "y"]}.
Proof.
  intros Hn Hi Hs. apply Z.leb_le in Hn.
  unfold Windows.MouseHookProc. rewrite Hn, Hi, Hs. hook_simpl. cbv zeta.
  eexists; split; reflexivity.
Qed.

(** A wheel message gives an event with the two deltas and no position. *)
Lemma windows_scroll_event_fields env w nCode wParam ms sink :
  0 <= nCode ->
  Windows.instance_ w = true ->
  Windows.event_sink_ (Windows.this w) = Some sink ->
  wParam = Windows.WM_MOUSEWHEEL \/ wParam = Windows.WM_MOUSEHWHEEL ->
  exists event : gmap string Windows.EncodableValue,
    Windows.MouseHookProc env w nCode wParam ms
    = (Windows.Return 1, Windows.SendEvent event w)
    /\ dom event = {["timestamp"; "type"; "deltaX"; "deltaY"]}
    /\ event !! "x" = None /\ event !! "y" = None /\ event !! "button" = None.
Proof.
  intros Hn Hi Hs Hw. apply Z.leb_le in Hn.
  unfold Windows.MouseHookProc. rewrite Hn, Hi, Hs. hook_simpl. cbv zeta.
  destruct Hw as [-> | ->]; eexists; (split; [reflexivity|]);
    repeat split; reflexivity.
Qed.

(** ** Scroll events of the kernel-stream decoder *)

(** C2, where the code departs from it.  On the kernel-stream platform a
    press or release record of a wheel button (4..7) gives an event of type
    [mouseScroll] that carries, besides [deltaX] and [deltaY], the position
    fields [x] and [y] of the button record it was built from; only the
    [button] field is taken out. *)
Theorem linux_scroll_event_keeps_position :
  forall (env : Linux.CallbackEnv) (w : Linux.World) (d : Linux.XRecordInterceptData),
    Linux.category d = Linux.XRecordFromServer ->
    Linux.event_type d = Linux.ButtonPress \/ Linux.event_type d = Linux.ButtonRelease ->
    4 <= Linux.byte_at (Linux.data d) 1 <= 7 ->
    exists event_map,
      Linux.record_event_callback env w d = Linux.send_event_to_dart w event_map
      /\ Linux.fields event_map = ["timestamp"; "type"; "x"; "y"; "deltaX"; "deltaY"]
      /\ Linux.fl_value_lookup_string event_map "type"
         = Some (Linux.fl_value_new_string "mouseScroll")
      /\ Linux.fl_value_lookup_string event_map "x"
         = Some (Linux.fl_value_new_float
                   (double_of_Z (Linux.int16_at (Linux.data d) 24)))
      /\ Linux.fl_value_lookup_string event_map "y"
         = Some (Linux.fl_value_new_float
                   (double_of_Z (Linux.int16_at (Linux.data d) 26))).
Proof.
  intros env w d Hcat Hty Hr.
  unfold Linux.record_event_callback. cbv zeta.
  fold (Linux.event_type d). rewrite Hcat.
  remember (Linux.byte_at (Linux.data d) 1) as button eqn:Hb.
  assert (Hc : button = 4 \/ button = 5 \/ button = 6 \/ button = 7) by lia.
  destruct Hty as [-> | ->]; destruct Hc as [-> | [-> | [-> | ->]]];
    eexists; (split; [reflexivity|]); repeat split; reflexivity.
Qed.

(** C2 at the failing input: the press of button 4 (wheel up) at (120, 340),
    delivered to a listening plugin, puts an event with [x] = 120.0 and
    [y] = 340.0 on the channel. *)
Lemma linux_scroll_event_keeps_position_witness :
  exists event_map,
    Linux.channel
      (Linux.record_event_callback
         {| Linux.g_get_real_time := 1700000000000000;
            Linux.XKeycodeToKeysym := fun _ keycode => keycode |}
         (Linux.initial 1 2)
         {| Linux.category := 0;
            Linux.data := wire_event Byte.x04 Byte.x04 Byte.x78 Byte.x00
                            Byte.x54 Byte.x01 |})
    = [event_map]
    /\ Linux.fields event_map = ["timestamp"; "type"; "x"; "y"; "deltaX"; "deltaY"]
    /\ Linux.fl_value_lookup_string event_map "x"
       = Some (Linux.fl_value_new_float 120%float)
    /\ Linux.fl_value_lookup_string event_map "y"
       = Some (Linux.fl_value_new_float 340%float).
Proof.
  destruct (linux_scroll_event_keeps_position
              {| Linux.g_get_real_time := 1700000000000000;
                 Linux.XKeycodeToKeysym := fun _ keycode => keycode |}
              (Linux.initial 1 2)
              {| Linux.category := 0;
                 Linux.data := wire_event Byte.x04 Byte.x04 Byte.x78 Byte.x00
                                 Byte.x54 Byte.x01 |}
              eq_refl (or_introl eq_refl) ltac:(vm_compute; split; discriminate))
    as (event_map & Hsend & Hf & _ & Hx & Hy).
  exists event_map. rewrite Hsend. repeat split; assumption.
Defined.

(** ** Key names *)

(** The decimal rendering determines the number. *)
Lemma to_string_inj a b : 0 <= a -> 0 <= b -> to_string a = to_string b -> a = b.
Proof.
  unfold to_string. intros Ha Hb H.
  apply (f_equal NilEmpty.uint_of_string) in H.
  rewrite !NilEmpty.usu in H. injection H as H.
  apply DecimalN.Unsigned.to_uint_inj in H.
  now apply Z2N.inj.
Qed.

Lemma fallback_name_inj a b :
  0 <= a -> 0 <= b -> fallback_name a = fallback_name b -> a = b.
Proof.
  unfold fallback_name. simpl. intros Ha Hb H.
  injection H as H. now apply to_string_inj.
Qed.

(** ** What the record callback changes *)

Lemma linux_send_event_frame w m :
  Linux.self (Linux.send_event_to_dart w m) = Linux.self w
  /\ Linux.calls (Linux.send_event_to_dart w m) = Linux.calls w.
Proof. unfold Linux.send_event_to_dart. now destruct (negb _). Qed.

(** Split on every test of the button number in the goal. *)
Ltac split_button :=
  repeat match goal with
    | |- context [if (4 <=? ?b) && (?b <=? 7) then _ else _] =>
        destruct ((4 <=? b) && (b <=? 7))
    | |- context [if Linux.byte_at ?d 1 =? ?n then _ else _] =>
        destruct (Linux.byte_at d 1 =? n)
    end.

(** X1.  Whatever record the callback is handed, it leaves the plugin object
    as it is and makes none of the calls that acquire, signal or release a
    capture resource: the trace of those calls is unchanged (the callback
    does read the clock and the keyboard mapping, and frees the record it was
    handed).  It puts exactly one event on the channel, carrying the wall
    clock in milliseconds, when the record comes from the server, has an
    event type the callback has a case for and the event handler is set; in
    every other case the plugin, the trace and the channel are unchanged. *)
Theorem linux_callback_effect :
  forall (env : Linux.CallbackEnv) (w : Linux.World) (d : Linux.XRecordInterceptData),
    let w' := Linux.record_event_callback env w d in
    Linux.self w' = Linux.self w
    /\ Linux.calls w' = Linux.calls w
    /\ if (Linux.category d =? Linux.XRecordFromServer)
          && Linux.recognized (Linux.event_type d)
          && negb (Linux.event_handler (Linux.self w) =? 0)
       then exists event_map,
              Linux.channel w' = Linux.channel w ++ [event_map]
              /\ Linux.fl_value_lookup_string event_map "timestamp"
                 = Some (Linux.fl_value_new_int
                           (Z.quot (Linux.g_get_real_time env) 1000))
       else w' = w.
Proof.
  intros env w d w'. subst w'.
  unfold Linux.record_event_callback, Linux.recognized. cbv zeta.
  fold (Linux.event_type d).
  destruct (Linux.category d =? Linux.XRecordFromServer); cbn [negb andb];
    [|repeat split; reflexivity].
  destruct (Linux.event_type d =? Linux.KeyPress) eqn:E1;
    [|destruct (Linux.event_type d =? Linux.KeyRelease) eqn:E2;
      [|destruct (Linux.event_type d =? Linux.ButtonPress) eqn:E3;
        [|destruct (Linux.event_type d =? Linux.ButtonRelease) eqn:E4;
          [|destruct (Linux.event_type d =? Linux.MotionNotify) eqn:E5]]]];
    cbn [orb andb].
  6: repeat split; reflexivity.
  all: (split; [apply linux_send_event_frame|]);
       (split; [apply linux_send_event_frame|]).
  all: unfold Linux.send_event_to_dart;
       destruct (Linux.event_handler (Linux.self w) =? 0); cbn [negb];
       [reflexivity|].
  all: split_button; eexists; split; reflexivity.
Qed.

(** ** Modifier flags *)

Lemma land_bit x k m :
  0 <= k -> m = 2 ^ k -> negb (Z.land x m =? 0) = Z.testbit x k.
Proof.
  intros Hk ->. destruct (Z.testbit x k) eqn:T.
  - apply negb_true_iff, Z.eqb_neq. intros H0.
    assert (Hb : Z.testbit (Z.land x (2 ^ k)) k = true).
    { rewrite Z.land_spec, T, Z.pow2_bits_true; auto. }
    rewrite H0, Z.bits_0 in Hb. discriminate.
  - apply negb_false_iff, Z.eqb_eq. apply Z.bits_inj'. intros n Hn.
    rewrite Z.land_spec, Z.bits_0, Z.pow2_bits_eqb by assumption.
    destruct (Z.eqb_spec k n) as [->|]; [now rewrite T|apply andb_false_r].
Qed.

(** X2.  The [modifiers] list of a key event holds "shift", "control", "alt"
    and "meta", in this order and each at most once, exactly for the bits 0,
    2, 3 and 6 that are set in byte 28 of the record. *)
Theorem linux_key_event_modifiers :
  forall (env : Linux.CallbackEnv) (w : Linux.World) (d : Linux.XRecordInterceptData),
    Linux.category d = Linux.XRecordFromServer ->
    Linux.event_type d = Linux.KeyPress \/ Linux.event_type d = Linux.KeyRelease ->
    exists event_map,
      Linux.record_event_callback env w d = Linux.send_event_to_dart w event_map
      /\ Linux.fl_value_lookup_string event_map "modifiers"
         = Some (Linux.fl_value_new_list
                   (map Linux.fl_value_new_string
                      (modifiers_of
                         (Z.testbit (Linux.byte_at (Linux.data d) 28) 0)
                         (Z.testbit (Linux.byte_at (Linux.data d) 28) 2)
                         (Z.testbit (Linux.byte_at (Linux.data d) 28) 3)
                         (Z.testbit (Linux.byte_at (Linux.data d) 28) 6)))).
Proof.
  intros env w d Hcat Hty.
  unfold Linux.record_event_callback. cbv zeta.
  fold (Linux.event_type d). rewrite Hcat.
  rewrite <- (land_bit _ 0 Linux.ShiftMask), <- (land_bit _ 2 Linux.ControlMask),
    <- (land_bit _ 3 Linux.Mod1Mask), <- (land_bit _ 6 Linux.Mod4Mask)
    by (reflexivity || lia).
  destruct Hty as [-> | ->]; eexists; (split; [reflexivity|]);
    destruct (negb (Z.land (Linux.byte_at (Linux.data d) 28) Linux.ShiftMask =? 0));
    destruct (negb (Z.land (Linux.byte_at (Linux.data d) 28) Linux.ControlMask =? 0));
    destruct (negb (Z.land (Linux.byte_at (Linux.data d) 28) Linux.Mod1Mask =? 0));
    destruct (negb (Z.land (Linux.byte_at (Linux.data d) 28) Linux.Mod4Mask =? 0));
    reflexivity.
Qed.

(** ** Button records *)

(** X3.  A press or release record of a button other than 4..7 gives an event
    with exactly the fields timestamp, type, button, x and y: the type is
    mouseDown for a press and mouseUp for a release, the button is left,
    middle or right for 1, 2 or 3 and other for every other number, and the
    position is the pair of signed 16-bit values at offsets 24 and 26. *)
Theorem linux_button_event :
  forall (env : Linux.CallbackEnv) (w : Linux.World) (d : Linux.XRecordInterceptData),
    Linux.category d = Linux.XRecordFromServer ->
    Linux.event_type d = Linux.ButtonPress \/ Linux.event_type d = Linux.ButtonRelease ->
    Linux.byte_at (Linux.data d) 1 < 4 \/ 7 < Linux.byte_at (Linux.data d) 1 ->
    exists event_map,
      Linux.record_event_callback env w d = Linux.send_event_to_dart w event_map
      /\ Linux.fields event_map = ["timestamp"; "type"; "button"; "x"; "y"]
      /\ (Linux.event_type d = Linux.ButtonPress ->
          Linux.fl_value_lookup_string event_map "type"
          = Some (Linux.fl_value_new_string "mouseDown"))
      /\ (Linux.event_type d = Linux.ButtonRelease ->
          Linux.fl_value_lookup_string event_map "type"
          = Some (Linux.fl_value_new_string "mouseUp"))
      /\ (exists name,
            Linux.fl_value_lookup_string event_map "button"
            = Some (Linux.fl_value_new_string name)
            /\ (Linux.byte_at (Linux.data d) 1 = 1 -> name = "left")
            /\ (Linux.byte_at (Linux.data d) 1 = 2 -> name = "middle")
            /\ (Linux.byte_at (Linux.data d) 1 = 3 -> name = "right")
            /\ (Linux.byte_at (Linux.data d) 1 < 1
                \/ 3 < Linux.byte_at (Linux.data d) 1 -> name = "other"))
      /\ Linux.fl_value_lookup_string event_map "x"
         = Some (Linux.fl_value_new_float
                   (double_of_Z (Linux.int16_at (Linux.data d) 24)))
      /\ Linux.fl_value_lookup_string event_map "y"
         = Some (Linux.fl_value_new_float
                   (double_of_Z (Linux.int16_at (Linux.data d) 26))).
Proof.
  intros env w d Hcat Hty Hb.
  assert (Hw : (4 <=? Linux.byte_at (Linux.data d) 1)
               && (Linux.byte_at (Linux.data d) 1 <=? 7) = false).
  { apply andb_false_iff. lia. }
  unfold Linux.record_event_callback. cbv zeta.
  fold (Linux.event_type d). rewrite Hcat, Hw.
  destruct (Linux.byte_at (Linux.data d) 1 =? 1) eqn:B1;
    [|destruct (Linux.byte_at (Linux.data d) 1 =? 2) eqn:B2;
      [|destruct (Linux.byte_at (Linux.data d) 1 =? 3) eqn:B3]];
    zeqb;
    (destruct Hty as [Hty | Hty]; rewrite Hty;
     eexists; (split; [reflexivity|]); (split; [reflexivity|]);
     (split; [intros Ht; try reflexivity; try discriminate Ht|]);
     (split; [intros Ht; try reflexivity; try discriminate Ht|]);
     (split; [eexists; split; [reflexivity|]; repeat split; intros; (reflexivity || lia)
             |split; reflexivity])).
Qed.

(** X4.  The release record of a wheel button (4..7) changes the state exactly
    as the press record with the same button and position does: each of the
    two sends the same mouseScroll event. *)
Theorem linux_wheel_release_scrolls_again :
  forall (env : Linux.CallbackEnv) (w : Linux.World)
         (press release : Linux.XRecordInterceptData),
    Linux.category press = Linux.XRecordFromServer ->
    Linux.category release = Linux.XRecordFromServer ->
    Linux.event_type press = Linux.ButtonPress ->
    Linux.event_type release = Linux.ButtonRelease ->
    4 <= Linux.byte_at (Linux.data press) 1 <= 7 ->
    Linux.byte_at (Linux.data release) 1 = Linux.byte_at (Linux.data press) 1 ->
    Linux.int16_at (Linux.data release) 24 = Linux.int16_at (Linux.data press) 24 ->
    Linux.int16_at (Linux.data release) 26 = Linux.int16_at (Linux.data press) 26 ->
    Linux.record_event_callback env w release
    = Linux.record_event_callback env w press.
Proof.
  intros env w press release Hc1 Hc2 Ht1 Ht2 Hb Hb2 Hx Hy.
  unfold Linux.record_event_callback. cbv zeta.
  fold (Linux.event_type press). fold (Linux.event_type release).
  rewrite Hc1, Hc2, Ht1, Ht2, Hb2, Hx, Hy.
  remember (Linux.byte_at (Linux.data press) 1) as button eqn:Eb.
  assert (Hc : button = 4 \/ button = 5 \/ button = 6 \/ button = 7) by lia.
  destruct Hc as [-> | [-> | [-> | ->]]]; reflexivity.
Qed.

(** ** The events of the hook procedures, field by field *)

(** X5.  A keyboard hook invocation that is consumed sends an event whose type
    is keyDown for WM_KEYDOWN and WM_SYSKEYDOWN and keyUp for every other
    message, whose keyCode is the virtual-key code as an [int], and whose
    modifiers are "shift", "control", "alt", "meta", in this order, for the
    keys whose live state has bit 15 set (either Windows key for "meta"). *)
Theorem windows_key_event :
  forall (env : Windows.HookEnv) (w : Windows.World) (nCode wParam : Z)
         (kb : Windows.KBDLLHOOKSTRUCT) (sink : nat),
    0 <= nCode ->
    Windows.instance_ w = true ->
    Windows.event_sink_ (Windows.this w) = Some sink ->
    exists event : gmap string Windows.EncodableValue,
      Windows.KeyboardHookProc env w nCode wParam kb
      = (Windows.Return (-1), Windows.SendEvent event w)
      /\ event !! "timestamp"
         = Some (Windows.EncodableInt (Windows.GetTimestamp (Windows.FileTime env)))
      /\ event !! "type"
         = Some (Windows.EncodableString
                   (if (wParam =? Windows.WM_KEYDOWN) || (wParam =? Windows.WM_SYSKEYDOWN)
                    then "keyDown" else "keyUp"))
      /\ event !! "keyCode" = Some (Windows.EncodableInt (Windows.int32 (Windows.vkCode kb)))
      /\ event !! "modifiers"
         = Some (Windows.EncodableList
                   (map Windows.EncodableString
                      (modifiers_of
                         (Z.testbit (Windows.GetAsyncKeyState env Windows.VK_SHIFT) 15)
                         (Z.testbit (Windows.GetAsyncKeyState env Windows.VK_CONTROL) 15)
                         (Z.testbit (Windows.GetAsyncKeyState env Windows.VK_MENU) 15)
                         (Z.testbit (Windows.GetAsyncKeyState env Windows.VK_LWIN) 15
                          || Z.testbit (Windows.GetAsyncKeyState env Windows.VK_RWIN) 15)))).
Proof.
  intros env w nCode wParam kb sink Hn Hi Hs. apply Z.leb_le in Hn.
  unfold Windows.KeyboardHookProc. rewrite Hn, Hi, Hs. hook_simpl. cbv zeta.
  rewrite <- !(land_bit _ 15 32768) by (reflexivity || lia).
  eexists; split; [reflexivity|].
  destruct (negb (Z.land (Windows.GetAsyncKeyState env Windows.VK_SHIFT) 32768 =? 0));
    destruct (negb (Z.land (Windows.GetAsyncKeyState env Windows.VK_CONTROL) 32768 =? 0));
    destruct (negb (Z.land (Windows.GetAsyncKeyState env Windows.VK_MENU) 32768 =? 0));
    destruct (negb (Z.land (Windows.GetAsyncKeyState env Windows.VK_LWIN) 32768 =? 0));
    destruct (negb (Z.land (Windows.GetAsyncKeyState env Windows.VK_RWIN) 32768 =? 0));
    repeat split; reflexivity.
Qed.

(** X6.  A button message that is consumed sends an event with exactly the
    fields timestamp, type, button, x and y: mouseDown for the three DOWN
    messages and mouseUp for the three UP messages, the button named after
    the message, and the position of the hook record as doubles. *)
Theorem windows_button_event :
  forall (env : Windows.HookEnv) (w : Windows.World) (nCode wParam : Z)
         (ms : Windows.MSLLHOOKSTRUCT) (sink : nat),
    0 <= nCode ->
    Windows.instance_ w = true ->
    Windows.event_sink_ (Windows.this w) = Some sink ->
    In wParam [Windows.WM_LBUTTONDOWN; Windows.WM_LBUTTONUP;
               Windows.WM_RBUTTONDOWN; Windows.WM_RBUTTONUP;
               Windows.WM_MBUTTONDOWN; Windows.WM_MBUTTONUP] ->
    exists event : gmap string Windows.EncodableValue,
      Windows.MouseHookProc env w nCode wParam ms
      = (Windows.Return 1, Windows.SendEvent event w)
      /\ dom event = {["timestamp"; "type"; "button"; "x"; "y"]}
      /\ event !! "type"
         = Some (Windows.EncodableString
                   (if (wParam =? Windows.WM_LBUTTONDOWN)
                       || (wParam =? Windows.WM_RBUTTONDOWN)
                       || (wParam =? Windows.WM_MBUTTONDOWN)
                    then "mouseDown" else "mouseUp"))
      /\ event !! "button"
         = Some (Windows.EncodableString
                   (if (wParam =? Windows.WM_LBUTTONDOWN)
                       || (wParam =? Windows.WM_LBUTTONUP) then "left"
                    else if (wParam =? Windows.WM_RBUTTONDOWN)
                            || (wParam =? Windows.WM_RBUTTONUP) then "right"
                    else "middle"))
      /\ event !! "x"
         = Some (Windows.EncodableDouble (double_of_Z (Windows.x (Windows.pt ms))))
      /\ event !! "y"
         = Some (Windows.EncodableDouble (double_of_Z (Windows.y (Windows.pt ms)))).
Proof.
  intros env w nCode wParam ms sink Hn Hi Hs Hw. apply Z.leb_le in Hn.
  unfold Windows.MouseHookProc. rewrite Hn, Hi, Hs. hook_simpl. cbv zeta.
  simpl in Hw.
  destruct Hw as [<- | [<- | [<- | [<- | [<- | [<- | []]]]]]];
    eexists; (split; [reflexivity|]); repeat split; reflexivity.
Qed.

(** ** Wheel notches *)

Lemma Z_range_In lo n k : lo <= k < lo + Z.of_nat n -> In k (Z_range lo n).
Proof.
  intros Hk. unfold Z_range. apply in_map_iff.
  exists (Z.to_nat (k - lo)). split; [lia|]. apply in_seq. lia.
Qed.

Lemma whole_notches_scale_exactly k :
  -273 <= k <= 273 ->
  PrimFloat.div (double_of_Z (120 * k)) 120%float = double_of_Z k.
Proof.
  intros Hk.
  assert (Hall : forallb notch_exact (Z_range (-273) 547) = true)
    by (vm_compute; reflexivity).
  rewrite forallb_forall in Hall.
  apply Leibniz.eqb_spec. apply (Hall k). apply Z_range_In. lia.
Qed.

(** X7.  A wheel message whose signed high word of [mouseData] is [k] whole
    notches (120 k, for every k a 16-bit word can hold) sends a mouseScroll
    event whose delta is exactly k: in deltaY with deltaX = 0.0 for the
    vertical wheel, in deltaX with deltaY = 0.0 for the horizontal one. *)
Theorem windows_wheel_event :
  forall (env : Windows.HookEnv) (w : Windows.World) (nCode wParam k : Z)
         (ms : Windows.MSLLHOOKSTRUCT) (sink : nat),
    0 <= nCode ->
    Windows.instance_ w = true ->
    Windows.event_sink_ (Windows.this w) = Some sink ->
    wParam = Windows.WM_MOUSEWHEEL \/ wParam = Windows.WM_MOUSEHWHEEL ->
    -273 <= k <= 273 ->
    int16 (Windows.HIWORD (Windows.mouseData ms)) = 120 * k ->
    exists event : gmap string Windows.EncodableValue,
      Windows.MouseHookProc env w nCode wParam ms
      = (Windows.Return 1, Windows.SendEvent event w)
      /\ event !! "type" = Some (Windows.EncodableString "mouseScroll")
      /\ event !! "deltaX"
         = Some (Windows.EncodableDouble
                   (if wParam =? Windows.WM_MOUSEWHEEL then 0%float else double_of_Z k))
      /\ event !! "deltaY"
         = Some (Windows.EncodableDouble
                   (if wParam =? Windows.WM_MOUSEWHEEL then double_of_Z k else 0%float)).
Proof.
  intros env w nCode wParam k ms sink Hn Hi Hs Hw Hk Hd. apply Z.leb_le in Hn.
  unfold Windows.MouseHookProc. rewrite Hn, Hi, Hs. hook_simpl. cbv zeta.
  rewrite Hd, (whole_notches_scale_exactly k Hk).
  destruct Hw as [-> | ->]; eexists; (split; [reflexivity|]);
    repeat split; reflexivity.
Qed.

(** ** Timestamps of the hook platform *)

(** X8.  [GetTimestamp] turns a [FILETIME] (100 ns ticks since 1601) into whole
    milliseconds since 1970: the offset it subtracts is that of the 134774
    days between the two epochs, and the ticks within a millisecond are
    dropped. *)
Theorem GetTimestamp_counts_milliseconds_since_1970 :
  forall QuadPart ms r : Z,
    0 <= QuadPart < 2 ^ 64 ->
    0 <= r < 10000 ->
    QuadPart = 10000 * (134774 * 86400000 + ms) + r ->
    Windows.GetTimestamp QuadPart = ms.
Proof.
  intros QuadPart ms r _ Hr ->. unfold Windows.GetTimestamp.
  rewrite Z.mul_comm, Z.div_add_l by lia.
  rewrite Z.div_small by lia. lia.
Qed.

(** ** Invariants under every operation *)

Lemma linux_inv_ext w w' :
  Linux.self w' = Linux.self w -> Linux.calls w' = Linux.calls w ->
  linux_inv w -> linux_inv w'.
Proof. unfold linux_inv, Linux.held. now intros -> ->. Qed.

Lemma linux_callback_frame env w d :
  Linux.self (Linux.record_event_callback env w d) = Linux.self w
  /\ Linux.calls (Linux.record_event_callback env w d) = Linux.calls w.
Proof.
  unfold Linux.record_event_callback. cbv zeta.
  destruct (negb _); [now split|].
  destruct (_ || _); [apply linux_send_event_frame|].
  destruct (_ || _); [apply linux_send_event_frame|].
  destruct (_ =? _); [apply linux_send_event_frame|now split].
Qed.

(** The two methods that change the state, and the fact that no other does. *)
Lemma linux_method_call_cases os method w :
  snd (Linux.method_call_cb os method w)
  = (if streq method "startCapture" then Linux.start_capture (Linux.start_answers os) w
     else if streq method "stopCapture" then Linux.stop_capture w
     else w).
Proof.
  unfold Linux.method_call_cb.
  repeat match goal with |- context [if streq ?a ?b then _ else _] =>
    destruct (streq a b) end; reflexivity.
Qed.

Lemma linux_perform_inv o w : linux_inv w -> linux_inv (linux_perform w o).
Proof.
  intros Hw. destruct o as [os method | env d]; simpl.
  - rewrite linux_method_call_cases.
    destruct (streq method "startCapture"); [now apply linux_start_capture_inv|].
    destruct (streq method "stopCapture"); [now apply linux_stop_capture_inv|].
    exact Hw.
  - destruct (linux_callback_frame env w d) as [Hs Hc].
    now apply (linux_inv_ext w).
Qed.

Lemma windows_inv_ext w w' :
  Windows.keyboard_hook_ (Windows.this w') = Windows.keyboard_hook_ (Windows.this w) ->
  Windows.mouse_hook_ (Windows.this w') = Windows.mouse_hook_ (Windows.this w) ->
  Windows.is_capturing_ (Windows.this w') = Windows.is_capturing_ (Windows.this w) ->
  Windows.calls w' = Windows.calls w ->
  windows_inv w -> windows_inv w'.
Proof. unfold windows_inv, Windows.held. now intros -> -> -> ->. Qed.

Lemma windows_SendEvent_frame event w :
  Windows.this (Windows.SendEvent event w) = Windows.this w
  /\ Windows.instance_ (Windows.SendEvent event w) = Windows.instance_ w
  /\ Windows.calls (Windows.SendEvent event w) = Windows.calls w.
Proof. unfold Windows.SendEvent. now destruct (Windows.event_sink_ _). Qed.

Lemma windows_KeyboardHookProc_frame env w nCode wParam kb :
  let w' := snd (Windows.KeyboardHookProc env w nCode wParam kb) in
  Windows.this w' = Windows.this w
  /\ Windows.instance_ w' = Windows.instance_ w
  /\ Windows.calls w' = Windows.calls w.
Proof.
  unfold Windows.KeyboardHookProc. cbv zeta.
  destruct (_ && _); cbn [snd]; [apply windows_SendEvent_frame|now repeat split].
Qed.

Lemma windows_MouseHookProc_frame env w nCode wParam ms :
  let w' := snd (Windows.MouseHookProc env w nCode wParam ms) in
  Windows.this w' = Windows.this w
  /\ Windows.instance_ w' = Windows.instance_ w
  /\ Windows.calls w' = Windows.calls w.
Proof.
  unfold Windows.MouseHookProc. cbv zeta.
  destruct (_ && _); cbn [snd]; [|now repeat split].
  match goal with
  | |- context [match ?s with Some _ => _ | None => _ end] => destruct s
  end; cbn [snd]; [apply windows_SendEvent_frame|now repeat split].
Qed.

Lemma windows_method_call_cases os method_name w :
  snd (Windows.HandleMethodCall os method_name w)
  = (if streq method_name "startCapture" then snd (Windows.StartCapture os w)
     else if streq method_name "stopCapture" then Windows.StopCapture w
     else w).
Proof.
  unfold Windows.HandleMethodCall.
  destruct (streq method_name "startCapture");
    [now destruct (Windows.StartCapture os w)|].
  repeat match goal with |- context [if streq ?a ?b then _ else _] =>
    destruct (streq a b) end; reflexivity.
Qed.

Lemma windows_perform_inv o w : windows_inv w -> windows_inv (windows_perform w o).
Proof.
  intros Hw. destruct o as [os name | events | | env nCode wParam kb
                           | env nCode wParam ms]; simpl.
  - rewrite windows_method_call_cases.
    destruct (streq name "startCapture"); [now apply windows_StartCapture_inv|].
    destruct (streq name "stopCapture"); [now apply windows_StopCapture_inv|].
    exact Hw.
  - now apply (windows_inv_ext w).
  - now apply (windows_inv_ext w).
  - destruct (windows_KeyboardHookProc_frame env w nCode wParam kb) as (Ht & _ & Hc).
    apply (windows_inv_ext w); congruence.
  - destruct (windows_MouseHookProc_frame env w nCode wParam ms) as (Ht & _ & Hc).
    apply (windows_inv_ext w); congruence.
Qed.

Lemma linux_perform_all_inv ops : forall w,
  linux_inv w -> linux_inv (linux_perform_all ops w).
Proof.
  induction ops as [|o ops IH]; intros w Hw; [exact Hw|].
  simpl. apply IH. now apply linux_perform_inv.
Qed.

Lemma windows_perform_all_inv ops : forall w,
  windows_inv w -> windows_inv (windows_perform_all ops w).
Proof.
  induction ops as [|o ops IH]; intros w Hw; [exact Hw|].
  simpl. apply IH. now apply windows_perform_inv.
Qed.

(** X9.  The resource invariant of the kernel-stream plugin holds after every
    sequence of method calls of any name and raw records, whatever the system
    answers: not capturing, it holds nothing and its record fields are
    cleared; capturing, it holds exactly the worker, the context and the
    connection its fields name, none of them null. *)
Theorem linux_operations_keep_resource_invariant :
  forall (dpy handler : Z) (ops : list linux_operation),
    let w := linux_perform_all ops (Linux.initial dpy handler) in
    (Linux.is_capturing (Linux.self w) = false ->
       Linux.held w = []
       /\ Linux.record_display (Linux.self w) = 0
       /\ Linux.record_context (Linux.self w) = 0)
    /\ (Linux.is_capturing (Linux.self w) = true ->
          Linux.held w =
            [Linux.WorkerThread (Linux.record_thread (Linux.self w));
             Linux.RecordContext (Linux.record_context (Linux.self w));
             Linux.RecordDisplay (Linux.record_display (Linux.self w))]
          /\ Linux.record_context (Linux.self w) <> 0
          /\ Linux.record_display (Linux.self w) <> 0).
Proof.
  intros dpy handler ops w.
  pose proof (linux_perform_all_inv ops _ (linux_initial_inv dpy handler)) as Hinv.
  fold w in Hinv. unfold linux_inv in Hinv.
  split; intros H; now rewrite H in Hinv.
Qed.

(** X10.  The resource invariant of the hook plugin holds after every sequence
    of method calls of any name, listeners attaching and detaching, and hook
    invocations: not capturing, it holds no hook and both handles are null;
    capturing, it holds exactly the two hooks its fields name. *)
Theorem windows_operations_keep_resource_invariant :
  forall (sink : option nat) (ops : list windows_operation),
    let w := windows_perform_all ops (Windows.initial sink) in
    (Windows.is_capturing_ (Windows.this w) = false ->
       Windows.held w = []
       /\ Windows.keyboard_hook_ (Windows.this w) = 0
       /\ Windows.mouse_hook_ (Windows.this w) = 0)
    /\ (Windows.is_capturing_ (Windows.this w) = true ->
          Windows.held w =
            [Windows.Hook Windows.WH_MOUSE_LL (Windows.mouse_hook_ (Windows.this w));
             Windows.Hook Windows.WH_KEYBOARD_LL
               (Windows.keyboard_hook_ (Windows.this w))]
          /\ Windows.keyboard_hook_ (Windows.this w) <> 0
          /\ Windows.mouse_hook_ (Windows.this w) <> 0).
Proof.
  intros sink ops w.
  assert (H0 : windows_inv (Windows.initial sink))
    by exact (windows_reachable_inv sink []).
  pose proof (windows_perform_all_inv ops _ H0) as Hinv.
  fold w in Hinv. unfold windows_inv in Hinv.
  split; intros H; now rewrite H in Hinv.
Qed.

(** ** Disciplined traces *)

Lemma linux_disciplined_app tr1 : forall held tr2,
  linux_disciplined held (tr1 ++ tr2)
  = linux_disciplined held tr1
    && linux_disciplined (fold_left (fun h c => Linux.effect c h) tr1 held) tr2.
Proof.
  induction tr1 as [|c tr1 IH]; intros held tr2; [reflexivity|].
  simpl. rewrite IH. now rewrite !andb_assoc.
Qed.

Lemma windows_disciplined_app tr1 : forall held tr2,
  windows_disciplined held (tr1 ++ tr2)
  = windows_disciplined held tr1
    && windows_disciplined (fold_left (fun h c => Windows.effect c h) tr1 held) tr2.
Proof.
  induction tr1 as [|c tr1 IH]; intros held tr2; [reflexivity|].
  simpl. rewrite IH. now rewrite !andb_assoc.
Qed.

(** Evaluate the discipline of the calls appended to a disciplined trace. *)
Ltac linux_segment Hd Hh :=
  rewrite <- ?app_assoc; cbn [app];
  rewrite linux_disciplined_app, Hd; cbn [andb];
  fold (Linux.held_after) in *;
  change (fold_left (fun h c => Linux.effect c h) ?tr [])
    with (Linux.held_after tr);
  rewrite Hh.

Lemma linux_start_capture_disciplined os w :
  linux_inv w ->
  linux_disciplined [] (Linux.calls w) = true ->
  linux_disciplined [] (Linux.calls (Linux.start_capture os w)) = true.
Proof.
  destruct w as [[eh d rd rc rt ic tr] cs ch].
  destruct os as [od ra cc pr pt].
  unfold linux_inv, Linux.start_capture, Linux.held; simpl.
  destruct ic; simpl; [tauto|].
  intros (Hh & _ & _) Hd.
  destruct (od =? 0) eqn:Eod; simpl.
  { linux_segment Hd Hh. simpl. now rewrite Eod. }
  destruct ra; simpl.
  2:{ linux_segment Hd Hh. simpl. rewrite Eod. simpl. now rewrite Z.eqb_refl. }
  destruct (cc =? 0) eqn:Ecc; simpl.
  { linux_segment Hd Hh. simpl. rewrite Eod. simpl. rewrite Z.eqb_refl, Ecc.
    simpl. now rewrite Z.eqb_refl. }
  destruct (pr =? 0) eqn:Epr; simpl.
  - linux_segment Hd Hh. simpl. rewrite Eod. simpl. rewrite Z.eqb_refl, Ecc.
    simpl. now rewrite Epr.
  - linux_segment Hd Hh. simpl. rewrite Eod. simpl. rewrite Z.eqb_refl, Ecc.
    simpl. rewrite Epr. simpl. rewrite !Z.eqb_refl. simpl. now rewrite Z.eqb_refl.
Qed.

Lemma linux_stop_capture_disciplined w :
  linux_inv w ->
  linux_disciplined [] (Linux.calls w) = true ->
  linux_disciplined [] (Linux.calls (Linux.stop_capture w)) = true.
Proof.
  destruct w as [[eh d rd rc rt ic tr] cs ch].
  unfold linux_inv, Linux.stop_capture, Linux.held; simpl.
  destruct ic; simpl; [|tauto].
  intros (Hh & Hc & Hd') Hd.
  apply Z.eqb_neq in Hc, Hd'. rewrite Hc; simpl. rewrite Hd'; simpl.
  linux_segment Hd Hh. repeat (simpl; rewrite ?Z.eqb_refl). reflexivity.
Qed.

Lemma linux_perform_disciplined o w :
  linux_inv w ->
  linux_disciplined [] (Linux.calls w) = true ->
  linux_disciplined [] (Linux.calls (linux_perform w o)) = true.
Proof.
  intros Hw Hd. destruct o as [os method | env d]; simpl.
  - rewrite linux_method_call_cases.
    destruct (streq method "startCapture");
      [now apply linux_start_capture_disciplined|].
    destruct (streq method "stopCapture");
      [now apply linux_stop_capture_disciplined|].
    exact Hd.
  - destruct (linux_callback_frame env w d) as [_ Hc]. now rewrite Hc.
Qed.

(** X11.  In every trace the kernel-stream plugin can produce, each call works
    on resources held at that moment (nothing is closed, freed, disabled or
    joined twice or before it exists) and no resource is acquired while one of
    its kind is held. *)
Theorem linux_traces_are_disciplined :
  forall (dpy handler : Z) (ops : list linux_operation),
    linux_disciplined []
      (Linux.calls (linux_perform_all ops (Linux.initial dpy handler))) = true.
Proof.
  intros dpy handler ops.
  assert (H : forall w,
             linux_inv w -> linux_disciplined [] (Linux.calls w) = true ->
             linux_disciplined [] (Linux.calls (linux_perform_all ops w)) = true).
  { induction ops as [|o ops IH]; intros w Hw Hd; [exact Hd|].
    simpl. apply IH.
    - now apply linux_perform_inv.
    - now apply linux_perform_disciplined. }
  apply H; [apply linux_initial_inv|reflexivity].
Qed.

Ltac windows_segment Hd Hh :=
  rewrite <- ?app_assoc; cbn [app];
  rewrite windows_disciplined_app, Hd; cbn [andb];
  change (fold_left (fun h c => Windows.effect c h) ?tr [])
    with (Windows.held_after tr);
  rewrite Hh.

Lemma windows_StartCapture_disciplined os w :
  windows_inv w ->
  windows_disciplined [] (Windows.calls w) = true ->
  windows_disciplined [] (Windows.calls (snd (Windows.StartCapture os w))) = true.
Proof.
  destruct w as [[es kh mh ic] inst cs dl].
  destruct os as [kr mr].
  unfold windows_inv, Windows.StartCapture, Windows.held; simpl.
  destruct ic; simpl; [tauto|].
  intros (Hh & _ & _) Hd.
  destruct (kr =? 0) eqn:Ekr; simpl.
  { windows_segment Hd Hh. simpl. now rewrite Ekr. }
  destruct (mr =? 0) eqn:Emr; simpl.
  - windows_segment Hd Hh.
    repeat (simpl; rewrite ?Ekr, ?Emr, ?Z.eqb_refl). reflexivity.
  - windows_segment Hd Hh.
    repeat (simpl; rewrite ?Ekr, ?Emr, ?Z.eqb_refl). reflexivity.
Qed.

Lemma windows_StopCapture_disciplined w :
  windows_inv w ->
  windows_disciplined [] (Windows.calls w) = true ->
  windows_disciplined [] (Windows.calls (Windows.StopCapture w)) = true.
Proof.
  destruct w as [[es kh mh ic] inst cs dl].
  unfold windows_inv, Windows.StopCapture, Windows.held; simpl.
  destruct ic; simpl; [|tauto].
  intros (Hh & Hk & Hm) Hd.
  apply Z.eqb_neq in Hk, Hm. rewrite Hk; simpl. rewrite Hm; simpl.
  windows_segment Hd Hh. simpl.
  destruct (mh =? kh) eqn:E; simpl.
  - apply Z.eqb_eq in E; subst. repeat (simpl; rewrite ?Z.eqb_refl). reflexivity.
  - repeat (simpl; rewrite ?Z.eqb_refl, ?orb_true_r). reflexivity.
Qed.

Lemma windows_perform_disciplined o w :
  windows_inv w ->
  windows_disciplined [] (Windows.calls w) = true ->
  windows_disciplined [] (Windows.calls (windows_perform w o)) = true.
Proof.
  intros Hw Hd. destruct o as [os name | events | | env nCode wParam kb
                              | env nCode wParam ms]; simpl.
  - rewrite windows_method_call_cases.
    destruct (streq name "startCapture");
      [now apply windows_StartCapture_disciplined|].
    destruct (streq name "stopCapture");
      [now apply windows_StopCapture_disciplined|].
    exact Hd.
  - exact Hd.
  - exact Hd.
  - destruct (windows_KeyboardHookProc_frame env w nCode wParam kb) as (_ & _ & Hc).
    now rewrite Hc.
  - destruct (windows_MouseHookProc_frame env w nCode wParam ms) as (_ & _ & Hc).
    now rewrite Hc.
Qed.

(** X12.  In every trace the hook plugin can produce, each removal names the
    handle of a hook held at that moment and no hook is installed in a chain
    that already has one. *)
Theorem windows_traces_are_disciplined :
  forall (sink : option nat) (ops : list windows_operation),
    windows_disciplined []
      (Windows.calls (windows_perform_all ops (Windows.initial sink))) = true.
Proof.
  intros sink ops.
  assert (H : forall w,
             windows_inv w -> windows_disciplined [] (Windows.calls w) = true ->
             windows_disciplined [] (Windows.calls (windows_perform_all ops w)) = true).
  { induction ops as [|o ops IH]; intros w Hw Hd; [exact Hd|].
    simpl. apply IH.
    - now apply windows_perform_inv.
    - now apply windows_perform_disciplined. }
  apply H; [exact (windows_reachable_inv sink [])|reflexivity].
Qed.

(** ** Teardown and restart *)

Lemma linux_start_capture_display os w :
  Linux.display (Linux.self (Linux.start_capture os w)) = Linux.display (Linux.self w).
Proof.
  destruct w as [[eh d rd rc rt ic tr] cs ch]. destruct os as [od ra cc pr pt].
  unfold Linux.start_capture; simpl.
  destruct ic; simpl; [reflexivity|].
  destruct (od =? 0); simpl; [reflexivity|].
  destruct ra; simpl; [|reflexivity].
  destruct (cc =? 0); simpl; [reflexivity|].
  destruct (pr =? 0); reflexivity.
Qed.

Lemma linux_stop_capture_display w :
  Linux.display (Linux.self (Linux.stop_capture w)) = Linux.display (Linux.self w).
Proof.
  destruct w as [[eh d rd rc rt ic tr] cs ch].
  unfold Linux.stop_capture; simpl.
  destruct ic; simpl; [|reflexivity].
  destruct (rc =? 0); simpl; destruct (rd =? 0); reflexivity.
Qed.

Lemma linux_perform_all_display ops : forall w,
  Linux.display (Linux.self (linux_perform_all ops w)) = Linux.display (Linux.self w).
Proof.
  induction ops as [|o ops IH]; intros w; [reflexivity|].
  simpl. rewrite IH. destruct o as [os method | env d]; simpl.
  - rewrite linux_method_call_cases.
    destruct (streq method "startCapture"); [apply linux_start_capture_display|].
    destruct (streq method "stopCapture"); [apply linux_stop_capture_display|].
    reflexivity.
  - destruct (linux_callback_frame env w d) as [Hs _]. now rewrite Hs.
Qed.

Lemma linux_perform_all_disciplined ops : forall w,
  linux_inv w -> linux_disciplined [] (Linux.calls w) = true ->
  linux_disciplined [] (Linux.calls (linux_perform_all ops w)) = true.
Proof.
  induction ops as [|o ops IH]; intros w Hw Hd; [exact Hd|].
  simpl. apply IH; [now apply linux_perform_inv|now apply linux_perform_disciplined].
Qed.

(** X13.  Disposing of the kernel-stream plugin in any reachable state first
    stops a running capture, by a disciplined trace, and then closes the query
    connection, once and as its last call, if that connection was ever
    opened.  Afterwards the plugin is not capturing, holds nothing, and all
    its connection and context fields are cleared; disposing again changes
    nothing and makes no call. *)
Theorem linux_dispose_releases_everything :
  forall (dpy handler : Z) (ops : list linux_operation),
    let w0 := linux_perform_all ops (Linux.initial dpy handler) in
    let w := Linux.input_capture_plugin_dispose w0 in
    Linux.held w = []
    /\ Linux.is_capturing (Linux.self w) = false
    /\ Linux.record_display (Linux.self w) = 0
    /\ Linux.record_context (Linux.self w) = 0
    /\ Linux.display (Linux.self w) = 0
    /\ Linux.calls w
       = Linux.calls (Linux.stop_capture w0)
         ++ (if dpy =? 0 then [] else [Linux.XCloseDisplay dpy])
    /\ linux_disciplined [] (Linux.calls (Linux.stop_capture w0)) = true
    /\ Linux.input_capture_plugin_dispose w = w.
Proof.
  intros dpy handler ops w0 w.
  pose proof (linux_perform_all_inv ops _ (linux_initial_inv dpy handler)) as Hinv.
  fold w0 in Hinv.
  assert (Hd : linux_disciplined [] (Linux.calls w0) = true).
  { apply linux_perform_all_disciplined; [apply linux_initial_inv|reflexivity]. }
  assert (Hdpy : Linux.display (Linux.self w0) = dpy).
  { unfold w0. now rewrite linux_perform_all_display. }
  assert (Hstop : (if Linux.is_capturing (Linux.self w0)
                   then Linux.stop_capture w0 else w0) = Linux.stop_capture w0).
  { destruct (Linux.is_capturing (Linux.self w0)) eqn:E; [reflexivity|].
    symmetry. now apply linux_stop_capture_noop. }
  pose proof (linux_stop_capture_inv w0 Hinv) as Hinv'.
  pose proof (linux_stop_capture_disciplined w0 Hinv Hd) as Hd'.
  pose proof (linux_stop_capture_idle w0) as Hidle.
  pose proof (linux_stop_capture_display w0) as Hdisp.
  rewrite Hdpy in Hdisp.
  unfold linux_inv in Hinv'. rewrite Hidle in Hinv'.
  destruct Hinv' as (Hh & Hc & Hrd).
  assert (Hw : w = if dpy =? 0 then Linux.stop_capture w0
                   else Linux.set_display 0
                          (Linux.call (Linux.XCloseDisplay dpy)
                             (Linux.stop_capture w0))).
  { subst w. unfold Linux.input_capture_plugin_dispose. cbv zeta.
    rewrite Hstop, Hdisp. now destruct (dpy =? 0). }
  clearbody w. subst w.
  set (w1 := Linux.stop_capture w0) in *. clearbody w1.
  clear Hstop Hinv Hd Hdpy. clearbody w0.
  destruct w1 as [[eh d rd rc rt ic tr] cs ch].
  unfold Linux.held in *. simpl in *. subst ic rc rd dpy.
  destruct (d =? 0) eqn:E.
  - rewrite app_nil_r. apply Z.eqb_eq in E. subst d.
    repeat split; auto.
  - unfold Linux.input_capture_plugin_dispose. simpl.
    rewrite linux_held_after_snoc, Hh. simpl. repeat split; auto.
Qed.

(** X14.  Destroying the hook plugin in any reachable state leaves no hook
    held and clears the static instance pointer, so that a hook procedure
    invoked afterwards passes every event down the chain and delivers
    nothing. *)
Theorem windows_destructor_disarms_the_hooks :
  forall (sink : option nat) (ops : list windows_operation),
    let w := Windows.InputCapturePlugin_dtor
               (windows_perform_all ops (Windows.initial sink)) in
    Windows.held w = []
    /\ Windows.is_capturing_ (Windows.this w) = false
    /\ Windows.instance_ w = false
    /\ (forall env nCode wParam kb,
          Windows.KeyboardHookProc env w nCode wParam kb
          = (Windows.CallNextHookEx nCode wParam, w))
    /\ (forall env nCode wParam ms,
          Windows.MouseHookProc env w nCode wParam ms
          = (Windows.CallNextHookEx nCode wParam, w)).
Proof.
  intros sink ops.
  set (w0 := windows_perform_all ops (Windows.initial sink)).
  assert (H0 : windows_inv (Windows.initial sink))
    by exact (windows_reachable_inv sink []).
  pose proof (windows_perform_all_inv ops _ H0) as Hinv. fold w0 in Hinv.
  assert (Heq : Windows.InputCapturePlugin_dtor w0
                = Windows.set_instance_ false (Windows.StopCapture w0)).
  { unfold Windows.InputCapturePlugin_dtor.
    destruct (Windows.is_capturing_ (Windows.this w0)) eqn:E; [reflexivity|].
    now rewrite (windows_StopCapture_noop _ E). }
  cbv zeta. rewrite Heq.
  pose proof (windows_StopCapture_inv w0 Hinv) as Hinv'.
  unfold windows_inv in Hinv'. rewrite windows_StopCapture_idle in Hinv'.
  destruct Hinv' as (Hh & _).
  split; [exact Hh|]. split; [apply windows_StopCapture_idle|].
  split; [reflexivity|]. split.
  - intros env nCode wParam kb. unfold Windows.KeyboardHookProc.
    cbn [Windows.instance_ Windows.set_instance_]. now rewrite andb_false_r.
  - intros env nCode wParam ms. unfold Windows.MouseHookProc.
    cbn [Windows.instance_ Windows.set_instance_]. now rewrite andb_false_r.
Qed.

Lemma linux_start_capture_success os w :
  linux_inv w ->
  Linux.is_capturing (Linux.self w) = false ->
  Linux.some_refused os = false ->
  let w' := Linux.start_capture os w in
  Linux.is_capturing (Linux.self w') = true
  /\ Linux.record_display (Linux.self w') = Linux.XOpenDisplay_ret os
  /\ Linux.record_context (Linux.self w') = Linux.XRecordCreateContext_ret os
  /\ Linux.record_thread (Linux.self w') = Linux.pthread_create_thread os
  /\ Linux.calls w'
     = Linux.calls w
       ++ [Linux.XOpenDisplay (Linux.XOpenDisplay_ret os);
           Linux.XRecordAllocRange true;
           Linux.XRecordCreateContext (Linux.XOpenDisplay_ret os)
             (Linux.XRecordCreateContext_ret os);
           Linux.XFree;
           Linux.pthread_create 0 (Linux.pthread_create_thread os)].
Proof.
  destruct w as [[eh d rd rc rt ic tr] cs ch].
  destruct os as [od ra cc pr pt].
  unfold Linux.some_refused, Linux.start_capture; simpl.
  intros _ -> Hos.
  repeat (apply orb_false_elim in Hos; destruct Hos as [Hos ?]).
  apply negb_false_iff in H, H1. subst ra. rewrite Hos, H0, H. simpl.
  apply Z.eqb_eq in H. subst pr.
  rewrite <- !app_assoc. repeat split; reflexivity.
Qed.

(** X15.  From any reachable state of the kernel-stream plugin, a stop followed
    by a start whose acquisitions all succeed leaves it capturing and holding
    exactly the newly answered worker, context and connection. *)
Theorem linux_capture_restarts_after_stop :
  forall (dpy handler : Z) (ops : list linux_operation) (os : Linux.StartAnswers),
    Linux.some_refused os = false ->
    let w := Linux.start_capture os
               (Linux.stop_capture
                  (linux_perform_all ops (Linux.initial dpy handler))) in
    Linux.is_capturing (Linux.self w) = true
    /\ Linux.held w
       = [Linux.WorkerThread (Linux.pthread_create_thread os);
          Linux.RecordContext (Linux.XRecordCreateContext_ret os);
          Linux.RecordDisplay (Linux.XOpenDisplay_ret os)].
Proof.
  intros dpy handler ops os Hos.
  set (w0 := Linux.stop_capture (linux_perform_all ops (Linux.initial dpy handler))).
  assert (Hinv : linux_inv w0).
  { apply linux_stop_capture_inv, linux_perform_all_inv, linux_initial_inv. }
  assert (Hidle : Linux.is_capturing (Linux.self w0) = false)
    by apply linux_stop_capture_idle.
  destruct (linux_start_capture_success os w0 Hinv Hidle Hos)
    as (Hc & Hd & Hx & Ht & _).
  pose proof (linux_start_capture_inv os w0 Hinv) as Hinv'.
  unfold linux_inv in Hinv'. cbv zeta. rewrite Hc in Hinv'.
  split; [exact Hc|]. destruct Hinv' as (Hh & _). now rewrite Hh, Hd, Hx, Ht.
Qed.

(** X16.  From any reachable state of the hook plugin, a stop followed by a
    start whose installations both succeed reports success and leaves it
    capturing and holding exactly the two newly answered hooks. *)
Theorem windows_capture_restarts_after_stop :
  forall (sink : option nat) (ops : list windows_operation)
         (os : Windows.StartAnswers),
    Windows.some_refused os = false ->
    let r := Windows.StartCapture os
               (Windows.StopCapture
                  (windows_perform_all ops (Windows.initial sink))) in
    fst r = true
    /\ Windows.is_capturing_ (Windows.this (snd r)) = true
    /\ Windows.held (snd r)
       = [Windows.Hook Windows.WH_MOUSE_LL (Windows.mouse_ret os);
          Windows.Hook Windows.WH_KEYBOARD_LL (Windows.keyboard_ret os)].
Proof.
  intros sink ops os Hos.
  set (w0 := Windows.StopCapture (windows_perform_all ops (Windows.initial sink))).
  assert (Hinv : windows_inv w0).
  { apply windows_StopCapture_inv, windows_perform_all_inv.
    exact (windows_reachable_inv sink []). }
  assert (Hidle : Windows.is_capturing_ (Windows.this w0) = false)
    by apply windows_StopCapture_idle.
  unfold windows_inv in Hinv. rewrite Hidle in Hinv. destruct Hinv as (Hh & _).
  clearbody w0. destruct w0 as [[es kh mh ic] inst cs dl]. destruct os as [kr mr].
  unfold Windows.some_refused, Windows.StartCapture, Windows.held in *.
  simpl in *. subst ic.
  apply orb_false_elim in Hos. destruct Hos as [Ek Em].
  rewrite Ek, Em. simpl. repeat split.
  rewrite !windows_held_after_snoc, Hh. simpl. now rewrite Ek, Em.
Qed.

(** X17.  Stopping a capturing hook plugin makes exactly two calls: it removes
    the keyboard hook, then the mouse hook (the order of installation), after
    which nothing is held and both handles are null. *)
Theorem windows_stop_removes_keyboard_hook_first :
  forall (sink : option nat) (ops : list windows_operation),
    let w := windows_perform_all ops (Windows.initial sink) in
    Windows.is_capturing_ (Windows.this w) = true ->
    Windows.calls (Windows.StopCapture w)
    = Windows.calls w
      ++ [Windows.UnhookWindowsHookEx (Windows.keyboard_hook_ (Windows.this w));
          Windows.UnhookWindowsHookEx (Windows.mouse_hook_ (Windows.this w))]
    /\ Windows.held (Windows.StopCapture w) = []
    /\ Windows.keyboard_hook_ (Windows.this (Windows.StopCapture w)) = 0
    /\ Windows.mouse_hook_ (Windows.this (Windows.StopCapture w)) = 0.
Proof.
  intros sink ops w Hrun.
  assert (Hinv : windows_inv w).
  { apply windows_perform_all_inv. exact (windows_reachable_inv sink []). }
  pose proof (windows_StopCapture_inv w Hinv) as Hinv'.
  unfold windows_inv in Hinv, Hinv'.
  rewrite Hrun in Hinv. rewrite windows_StopCapture_idle in Hinv'.
  destruct Hinv as (_ & Hk & Hm). destruct Hinv' as (Hh' & Hk' & Hm').
  split; [|auto].
  clearbody w. destruct w as [[es kh mh ic] inst cs dl].
  unfold Windows.StopCapture. simpl in *. subst ic.
  apply Z.eqb_neq in Hk, Hm. simpl. rewrite Hk. simpl. rewrite Hm. simpl.
  now rewrite <- app_assoc.
Qed.

(** ** Requests that only ask *)

(** X18.  On the capture channel of the kernel-stream plugin every method other
    than startCapture and stopCapture leaves the state unchanged:
    isCapturing reports the flag, checkPermissions and requestPermissions
    both report what XRecordQueryVersion answers, and any other name is
    answered as not implemented. *)
Theorem linux_other_methods_change_nothing :
  forall (os : Linux.CallAnswers) (method : string) (w : Linux.World),
    method <> "startCapture" ->
    method <> "stopCapture" ->
    snd (Linux.method_call_cb os method w) = w
    /\ (method = "isCapturing" ->
        fst (Linux.method_call_cb os method w)
        = Linux.fl_method_success_response_new
            (Linux.fl_value_new_bool (Linux.is_capturing (Linux.self w))))
    /\ (method = "checkPermissions" ->
        fst (Linux.method_call_cb os method w)
        = Linux.fl_method_success_response_new
            (Linux.fl_value_new_map
               [("x11_record",
                 Linux.fl_value_new_bool (Linux.XRecordQueryVersion_ret os))]))
    /\ (method = "requestPermissions" ->
        fst (Linux.method_call_cb os method w)
        = Linux.fl_method_success_response_new
            (Linux.fl_value_new_bool (Linux.XRecordQueryVersion_ret os)))
    /\ (method <> "isCapturing" -> method <> "checkPermissions" ->
        method <> "requestPermissions" ->
        fst (Linux.method_call_cb os method w)
        = Linux.fl_method_not_implemented_response_new).
Proof.
  intros os method w H1 H2.
  apply String.eqb_neq in H1, H2.
  split; [rewrite linux_method_call_cases; unfold streq; now rewrite H1, H2|].
  unfold Linux.method_call_cb, streq. rewrite H1, H2.
  repeat split.
  - now intros ->.
  - now intros ->.
  - now intros ->.
  - intros H3 H4 H5. apply String.eqb_neq in H3, H4, H5. now rewrite H3, H4, H5.
Qed.

(** X19.  On the capture channel of the hook plugin every method other than
    startCapture and stopCapture leaves the state unchanged: isCapturing
    reports the flag, checkPermissions always reports hooks = true,
    requestPermissions always reports true, and any other name is answered as
    not implemented. *)
Theorem windows_other_methods_change_nothing :
  forall (os : Windows.StartAnswers) (method_name : string) (w : Windows.World),
    method_name <> "startCapture" ->
    method_name <> "stopCapture" ->
    snd (Windows.HandleMethodCall os method_name w) = w
    /\ (method_name = "isCapturing" ->
        fst (Windows.HandleMethodCall os method_name w)
        = Windows.Success
            (Windows.EncodableBool (Windows.is_capturing_ (Windows.this w))))
    /\ (method_name = "checkPermissions" ->
        fst (Windows.HandleMethodCall os method_name w)
        = Windows.Success
            (Windows.EncodableMapValue {["hooks" := Windows.EncodableBool true]}))
    /\ (method_name = "requestPermissions" ->
        fst (Windows.HandleMethodCall os method_name w)
        = Windows.Success (Windows.EncodableBool true))
    /\ (method_name <> "isCapturing" -> method_name <> "checkPermissions" ->
        method_name <> "requestPermissions" ->
        fst (Windows.HandleMethodCall os method_name w) = Windows.NotImplemented).
Proof.
  intros os method_name w H1 H2.
  apply String.eqb_neq in H1, H2.
  split; [rewrite windows_method_call_cases; unfold streq; now rewrite H1, H2|].
  unfold Windows.HandleMethodCall, streq. rewrite H1, H2.
  repeat split.
  - now intros ->.
  - now intros ->.
  - now intros ->.
  - intros H3 H4 H5. apply String.eqb_neq in H3, H4, H5. now rewrite H3, H4, H5.
Qed.

(** ** Names identify keys *)

Lemma well_named_In table k name :
  well_named table = true -> In (k, name) table ->
  key_of_name table name = Some k
  /\ (2 <= String.length name)%nat
  /\ starts_like_fallback name = false.
Proof.
  unfold well_named. rewrite forallb_forall. intros Hall Hin.
  specialize (Hall _ Hin). simpl in Hall.
  apply andb_true_iff in Hall. destruct Hall as [Hall Hp].
  apply andb_true_iff in Hall. destruct Hall as [Hk Hl].
  destruct (key_of_name table name) as [k'|]; [|discriminate].
  apply Z.eqb_eq in Hk. subst k'. apply Z.leb_le in Hl.
  apply negb_true_iff in Hp. repeat split; [lia|exact Hp].
Qed.

Lemma fallback_name_prefix code : starts_like_fallback (fallback_name code) = true.
Proof. reflexivity. Qed.

Lemma single_char_inj a b :
  0 <= a < 256 -> 0 <= b < 256 ->
  String (ascii_of_N (Z.to_N a)) EmptyString
  = String (ascii_of_N (Z.to_N b)) EmptyString ->
  a = b.
Proof.
  intros Ha Hb H. injection H as H.
  apply (f_equal N_of_ascii) in H.
  rewrite !N_ascii_embedding in H by lia. lia.
Qed.


Lemma name_kind_inj table direct_max ca a cb b name :
  well_named table = true ->
  0 <= a -> 0 <= b ->
  name_kind table direct_max ca a name -> name_kind table direct_max cb b name ->
  ca = cb.
Proof.
  intros Hwn Ha Hb
    [(c & Hc & Hn & Hca & Hcc) | [Hin | (Hn & Hca)]]
    [(c' & Hc' & Hn' & Hcb & Hcc') | [Hin' | (Hn' & Hcb)]].
  - subst name. apply single_char_inj in Hn'; [|lia|lia]. subst. lia.
  - apply (well_named_In _ _ _ Hwn) in Hin'. destruct Hin' as (_ & Hl & _).
    subst name. simpl in Hl. lia.
  - rewrite Hn in Hn'. discriminate Hn'.
  - apply (well_named_In _ _ _ Hwn) in Hin. destruct Hin as (_ & Hl & _).
    subst name. simpl in Hl. lia.
  - apply (well_named_In _ _ _ Hwn) in Hin, Hin'.
    destruct Hin as (Hk & _), Hin' as (Hk' & _). congruence.
  - apply (well_named_In _ _ _ Hwn) in Hin. destruct Hin as (_ & _ & Hp).
    subst name. now rewrite fallback_name_prefix in Hp.
  - rewrite Hn in Hn'. discriminate Hn'.
  - apply (well_named_In _ _ _ Hwn) in Hin'. destruct Hin' as (_ & _ & Hp).
    subst name. now rewrite fallback_name_prefix in Hp.
  - subst ca cb. rewrite Hn in Hn'. now apply fallback_name_inj.
Qed.

(** Find the entry of a table by trying each one. *)
Ltac pick_entry := vm_compute; repeat (first [left; reflexivity | right]).

(** One case label of a key-name function: either it is taken, and the name
    is the table's entry for the class of the key, or it is not. *)
Ltac name_case k c :=
  let E := fresh "E" in
  destruct (k =? c) eqn:E;
  [ apply Z.eqb_eq in E; subst k; right; left; pick_entry | ].

Lemma linux_name_kind keysym :
  name_kind linux_named_keys Linux.XK_asciitilde (linux_key_class keysym) keysym
    (Linux.keycode_to_string keysym).
Proof.
  unfold Linux.keycode_to_string.
  destruct ((Linux.XK_space <=? keysym) && (keysym <=? Linux.XK_asciitilde)) eqn:Er.
  { left. exists keysym. apply andb_true_iff in Er.
    unfold Linux.XK_space, Linux.XK_asciitilde in *.
    assert (Hc : linux_key_class keysym = keysym).
    { unfold linux_key_class.
      repeat match goal with
        | |- context [if ?k =? ?c then _ else _] =>
            destruct (Z.eqb_spec k c) as [He|_];
            [unfold Linux.XK_Shift_R, Linux.XK_Control_R, Linux.XK_Alt_R,
               Linux.XK_Super_R in He; lia|]
        end. reflexivity. }
    repeat split; try lia; auto. }
  repeat match goal with
    | |- name_kind _ _ _ ?k (if (?k =? ?c) || (?k =? ?c') then _ else _) =>
        name_case k c; [name_case k c'; cbn [orb]]
    | |- name_kind _ _ _ ?k (if ?k =? ?c then _ else _) => name_case k c
    end.
  right; right. split; [reflexivity|].
  unfold linux_key_class.
  repeat match goal with H : (_ =? _) = false |- _ => rewrite H; clear H end.
  reflexivity.
Qed.

(** X20.  Two keysyms that [keycode_to_string] names alike are the same key up
    to its left and right variants (Shift, Control, Alt, Super). *)
Theorem linux_key_names_identify_keys :
  forall a b : Z,
    0 <= a -> 0 <= b ->
    Linux.keycode_to_string a = Linux.keycode_to_string b ->
    linux_key_class a = linux_key_class b.
Proof.
  intros a b Ha Hb Heq.
  apply (name_kind_inj linux_named_keys Linux.XK_asciitilde _ a _ b
           (Linux.keycode_to_string a)).
  - vm_compute. reflexivity.
  - exact Ha.
  - exact Hb.
  - apply linux_name_kind.
  - rewrite Heq. apply linux_name_kind.
Qed.

Lemma windows_name_kind vkCode :
  name_kind windows_named_keys 0x39 (windows_key_class vkCode) vkCode
    (Windows.VKeyToString vkCode).
Proof.
  unfold Windows.VKeyToString.
  assert (Hc : 0 <= vkCode <= 0x5A -> windows_key_class vkCode = vkCode).
  { intros Hr. unfold windows_key_class.
    repeat match goal with
      | |- context [if (?k =? ?c1) || (?k =? ?c2) then _ else _] =>
          destruct (Z.eqb_spec k c1) as [He|_];
          [unfold Windows.VK_LSHIFT, Windows.VK_LCONTROL, Windows.VK_LMENU in He; lia|];
          destruct (Z.eqb_spec k c2) as [He|_];
          [unfold Windows.VK_RSHIFT, Windows.VK_RCONTROL, Windows.VK_RMENU in He; lia|];
          cbn [orb]
      | |- context [if ?k =? ?c1 then _ else _] =>
          destruct (Z.eqb_spec k c1) as [He|_];
          [unfold Windows.VK_RWIN in He; lia|]
      end. reflexivity. }
  destruct ((48 <=? vkCode) && (vkCode <=? 57)) eqn:Ed.
  { left. exists vkCode. apply andb_true_iff in Ed.
    repeat split; lia. }
  destruct ((65 <=? vkCode) && (vkCode <=? 90)) eqn:El.
  { left. exists (vkCode + 32). apply andb_true_iff in El.
    repeat split; lia. }
  repeat match goal with
    | |- name_kind _ _ _ ?k
           (if (?k =? ?c1) || (?k =? ?c2) || (?k =? ?c3) then _ else _) =>
        name_case k c1; [name_case k c2; [name_case k c3; cbn [orb]]]
    | |- name_kind _ _ _ ?k (if (?k =? ?c1) || (?k =? ?c2) then _ else _) =>
        name_case k c1; [name_case k c2; cbn [orb]]
    | |- name_kind _ _ _ ?k (if ?k =? ?c1 then _ else _) => name_case k c1
    end.
  right; right. split; [reflexivity|].
  unfold windows_key_class.
  repeat match goal with H : (_ =? _) = false |- _ => rewrite H; clear H end.
  reflexivity.
Qed.

(** X21.  Two virtual-key codes that [VKeyToString] names alike are the same
    key up to its sided variants (Shift, Control, Alt, Windows). *)
Theorem windows_key_names_identify_keys :
  forall a b : Z,
    0 <= a -> 0 <= b ->
    Windows.VKeyToString a = Windows.VKeyToString b ->
    windows_key_class a = windows_key_class b.
Proof.
  intros a b Ha Hb Heq.
  apply (name_kind_inj windows_named_keys 0x39 _ a _ b (Windows.VKeyToString a)).
  - vm_compute. reflexivity.
  - exact Ha.
  - exact Hb.
  - apply windows_name_kind.
  - rewrite Heq. apply windows_name_kind.
Qed.

(** ** The window-control plugin *)

Lemma window_get_window_cases gtk w :
  let window := WindowControl.get_window gtk w in
  window = 0
  \/ (window <> 0
      /\ WindowControl.view (WindowControl.self w) <> 0
      /\ window = WindowControl.gtk_widget_get_toplevel gtk
                    (WindowControl.view (WindowControl.self w))
      /\ WindowControl.GTK_IS_WINDOW gtk window = true).
Proof.
  unfold WindowControl.get_window. cbv zeta.
  destruct (Z.eqb_spec (WindowControl.view (WindowControl.self w)) 0) as [|Hv];
    [now left|].
  destruct (WindowControl.GTK_IS_WINDOW gtk _) eqn:Ew; [|now left].
  destruct (Z.eq_dec
              (WindowControl.gtk_widget_get_toplevel gtk
                 (WindowControl.view (WindowControl.self w))) 0) as [E|E];
    [now left|right; auto].
Qed.

Lemma window_get_window_null gtk w :
  WindowControl.view (WindowControl.self w) = 0 ->
  WindowControl.get_window gtk w = 0.
Proof. intros H. unfold WindowControl.get_window. now rewrite H. Qed.

Lemma window_step_trace_ok v r w :
  window_trace_ok v w -> window_trace_ok v (WindowControl.step w r).
Proof.
  intros (fs & Hfs & Hshape). destruct r as [gtk method|]; simpl.
  - assert (Hnull : WindowControl.view (WindowControl.self w) = 0 ->
                    snd (WindowControl.method_call_cb gtk method w) = w).
    { intros Hv. unfold WindowControl.method_call_cb, WindowControl.enter_fullscreen,
        WindowControl.exit_fullscreen, WindowControl.is_fullscreen,
        WindowControl.get_screen_size. cbv zeta.
      rewrite (window_get_window_null gtk w Hv). simpl.
      repeat match goal with
        | |- context [if ?b then _ else _] => destruct b
        end; reflexivity. }
    destruct Hshape as [(Hv & Hc) | (Hv0 & Hv & Hc)].
    2:{ rewrite (Hnull Hv). exists fs. split; [exact Hfs|]. right. auto. }
    unfold WindowControl.method_call_cb, WindowControl.enter_fullscreen,
      WindowControl.exit_fullscreen, WindowControl.is_fullscreen,
      WindowControl.get_screen_size. cbv zeta.
    destruct (Z.eqb_spec (WindowControl.get_window gtk w) 0) as [Ew|Ew].
    + exists fs. split; [exact Hfs|]. left.
      repeat match goal with
        | |- context [if ?b then _ else _] => destruct b
        end; simpl; auto.
    + apply Z.eqb_neq in Ew.
      destruct (streq method "enterFullscreen").
      { exists (fs ++ [WindowControl.gtk_window_fullscreen
                         (WindowControl.get_window gtk w)]).
        simpl. split.
        - rewrite forallb_app, Hfs. simpl. now rewrite Ew.
        - left. rewrite Hc. auto. }
      destruct (streq method "exitFullscreen").
      { exists (fs ++ [WindowControl.gtk_window_unfullscreen
                         (WindowControl.get_window gtk w)]).
        simpl. split.
        - rewrite forallb_app, Hfs. simpl. now rewrite Ew.
        - left. rewrite Hc. auto. }
      exists fs. split; [exact Hfs|]. left.
      repeat match goal with
        | |- context [if ?b then _ else _] => destruct b
        end; simpl; auto.
  - unfold WindowControl.window_control_plugin_dispose.
    destruct Hshape as [(Hv & Hc) | (Hv0 & Hv & Hc)].
    + destruct (Z.eqb_spec (WindowControl.view (WindowControl.self w)) 0) as [E|E];
        simpl.
      * exists fs. split; [exact Hfs|]. left. auto.
      * exists fs. split; [exact Hfs|]. right.
        unfold WindowControl.set_view, WindowControl.call. simpl.
        rewrite Hc, Hv. repeat split; congruence.
    + rewrite Hv. simpl. exists fs. split; [exact Hfs|]. right. auto.
Qed.

(** X22.  Whatever requests the window-control plugin created on a view has
    served, its trace registers the weak pointer on that view first, then
    holds fullscreen and unfullscreen calls on non-null windows only, and
    removes the weak pointer at most once, last, exactly when the plugin has
    let go of a non-null view; after that it makes no call at all. *)
Theorem window_control_traces :
  forall (v : Z) (rs : list WindowControl.request),
    window_trace_ok v (WindowControl.run rs (WindowControl.window_control_plugin_new v)).
Proof.
  intros v rs.
  assert (H : forall w, window_trace_ok v w ->
                        window_trace_ok v (WindowControl.run rs w)).
  { induction rs as [|r rs IH]; intros w Hw; [exact Hw|].
    simpl. apply IH. now apply window_step_trace_ok. }
  apply H. exists []. split; [reflexivity|]. left. split; reflexivity.
Qed.

(** X23.  isFullscreen never fails and never changes the state: it answers true
    exactly when the view has a top-level window, that window has a GDK
    window, and bit 4 (fullscreen) of the GDK window state is set. *)
Theorem window_is_fullscreen_reads_the_state_bit :
  forall (gtk : WindowControl.Gtk) (w : WindowControl.World),
    exists fullscreen : bool,
      WindowControl.method_call_cb gtk "isFullscreen" w
      = (WindowControl.fl_method_success_response_new
           (Linux.fl_value_new_bool fullscreen), w)
      /\ (fullscreen = true <->
          WindowControl.get_window gtk w <> 0
          /\ WindowControl.gtk_widget_get_window gtk (WindowControl.get_window gtk w)
             <> 0
          /\ Z.testbit
               (WindowControl.gdk_window_get_state gtk
                  (WindowControl.gtk_widget_get_window gtk
                     (WindowControl.get_window gtk w))) 4 = true).
Proof.
  intros gtk w.
  change (WindowControl.method_call_cb gtk "isFullscreen" w)
    with (WindowControl.is_fullscreen gtk w).
  unfold WindowControl.is_fullscreen. cbv zeta.
  destruct (Z.eqb_spec (WindowControl.get_window gtk w) 0) as [Ew|Ew].
  { exists false. split; [reflexivity|]. split; [discriminate|tauto]. }
  destruct (Z.eqb_spec
              (WindowControl.gtk_widget_get_window gtk
                 (WindowControl.get_window gtk w)) 0) as [Eg|Eg].
  { exists false. split; [reflexivity|]. split; [discriminate|tauto]. }
  eexists. split; [reflexivity|].
  rewrite (land_bit _ 4 WindowControl.GDK_WINDOW_STATE_FULLSCREEN)
    by (reflexivity || lia).
  tauto.
Qed.

(** X24.  getScreenSize never changes the state.  It fails with NO_DISPLAY
    without a default display; otherwise it reports the width and height of
    the primary monitor, or of monitor 0 when there is no primary monitor and
    the display has monitors; it fails with NO_MONITOR when neither exists. *)
Theorem window_screen_size_prefers_the_primary_monitor :
  forall (gtk : WindowControl.Gtk) (w : WindowControl.World),
    let display := WindowControl.gdk_display_get_default gtk in
    let primary := WindowControl.gdk_display_get_primary_monitor gtk display in
    let first := WindowControl.gdk_display_get_monitor gtk display 0 in
    let size_of monitor :=
      WindowControl.fl_method_success_response_new
        (Linux.fl_value_new_map
           [("width",
             Linux.fl_value_new_float
               (double_of_Z
                  (WindowControl.width
                     (WindowControl.gdk_monitor_get_geometry gtk monitor))));
            ("height",
             Linux.fl_value_new_float
               (double_of_Z
                  (WindowControl.height
                     (WindowControl.gdk_monitor_get_geometry gtk monitor))))]) in
    let reply := fst (WindowControl.method_call_cb gtk "getScreenSize" w) in
    snd (WindowControl.method_call_cb gtk "getScreenSize" w) = w
    /\ (display = 0 ->
        reply = WindowControl.fl_method_error_response_new "NO_DISPLAY"
                  "Default display not available")
    /\ (display <> 0 -> primary <> 0 -> reply = size_of primary)
    /\ (display <> 0 -> primary = 0 ->
        0 < WindowControl.gdk_display_get_n_monitors gtk display -> first <> 0 ->
        reply = size_of first)
    /\ (display <> 0 -> primary = 0 ->
        WindowControl.gdk_display_get_n_monitors gtk display <= 0 \/ first = 0 ->
        reply = WindowControl.fl_method_error_response_new "NO_MONITOR"
                  "No monitor available").
Proof.
  intros gtk w display primary first size_of reply.
  subst reply size_of.
  change (WindowControl.method_call_cb gtk "getScreenSize" w)
    with (WindowControl.get_screen_size gtk w).
  unfold WindowControl.get_screen_size. cbv zeta.
  fold display. fold primary. fold first.
  destruct (Z.eqb_spec display 0) as [Ed|Ed].
  { repeat split; intros; (reflexivity || contradiction). }
  destruct (Z.eqb_spec primary 0) as [Ep|Ep].
  - destruct (Z.ltb_spec 0 (WindowControl.gdk_display_get_n_monitors gtk display))
      as [En|En].
    + destruct (Z.eqb_spec first 0) as [Ef|Ef];
        repeat split; intros; try reflexivity; try contradiction; try lia.
    + rewrite Ep. simpl.
      repeat split; intros; try reflexivity; try contradiction; try lia.
  - destruct (Z.eqb_spec primary 0) as [Ep'|_]; [contradiction|].
    repeat split; intros; try reflexivity; try contradiction.
Qed.

(** X25.  After the window-control plugin is disposed of it has no view:
    disposing again changes nothing, enterFullscreen and exitFullscreen fail
    with NO_WINDOW without any call, isFullscreen answers false, and
    getScreenSize answers as before. *)
Theorem window_methods_after_dispose :
  forall (gtk : WindowControl.Gtk) (w : WindowControl.World),
    let w' := WindowControl.window_control_plugin_dispose w in
    WindowControl.view (WindowControl.self w') = 0
    /\ WindowControl.window_control_plugin_dispose w' = w'
    /\ WindowControl.method_call_cb gtk "enterFullscreen" w'
       = (WindowControl.fl_method_error_response_new "NO_WINDOW"
            "Main window not available", w')
    /\ WindowControl.method_call_cb gtk "exitFullscreen" w'
       = (WindowControl.fl_method_error_response_new "NO_WINDOW"
            "Main window not available", w')
    /\ WindowControl.method_call_cb gtk "isFullscreen" w'
       = (WindowControl.fl_method_success_response_new
            (Linux.fl_value_new_bool false), w')
    /\ fst (WindowControl.method_call_cb gtk "getScreenSize" w')
       = fst (WindowControl.method_call_cb gtk "getScreenSize" w).
Proof.
  intros gtk w w'.
  assert (Hv : WindowControl.view (WindowControl.self w') = 0).
  { subst w'. unfold WindowControl.window_control_plugin_dispose.
    destruct (Z.eqb_spec (WindowControl.view (WindowControl.self w)) 0);
      simpl; auto. }
  split; [exact Hv|].
  split; [unfold WindowControl.window_control_plugin_dispose at 1; now rewrite Hv|].
  change (WindowControl.method_call_cb gtk "enterFullscreen" w')
    with (WindowControl.enter_fullscreen gtk w').
  change (WindowControl.method_call_cb gtk "exitFullscreen" w')
    with (WindowControl.exit_fullscreen gtk w').
  change (WindowControl.method_call_cb gtk "isFullscreen" w')
    with (WindowControl.is_fullscreen gtk w').
  unfold WindowControl.enter_fullscreen, WindowControl.exit_fullscreen,
    WindowControl.is_fullscreen. cbv zeta.
  rewrite (window_get_window_null gtk w' Hv). simpl.
  repeat split.
  change (WindowControl.method_call_cb gtk "getScreenSize" w')
    with (WindowControl.get_screen_size gtk w').
  change (WindowControl.method_call_cb gtk "getScreenSize" w)
    with (WindowControl.get_screen_size gtk w).
  unfold WindowControl.get_screen_size. cbv zeta.
  repeat match goal with
    | |- context [if ?b then _ else _] => destruct b
    end; reflexivity.
Qed.

(** ** The properties above at concrete inputs *)

(** X2 at a concrete input: a key press with Shift and Mod4 held (state 0x41). *)
Lemma linux_key_event_modifiers_witness :
  exists event_map,
    Linux.channel
      (Linux.record_event_callback
         {| Linux.g_get_real_time := 1700000000000000;
            Linux.XKeycodeToKeysym := fun _ keycode => keycode |}
         (Linux.initial 1 2)
         {| Linux.category := 0;
            Linux.data := key_wire_event Byte.x02 Byte.x61 Byte.x41 |})
    = [event_map]
    /\ Linux.fl_value_lookup_string event_map "modifiers"
       = Some (Linux.fl_value_new_list
                 [Linux.fl_value_new_string "shift"; Linux.fl_value_new_string "meta"]).
Proof.
  destruct (linux_key_event_modifiers
              {| Linux.g_get_real_time := 1700000000000000;
                 Linux.XKeycodeToKeysym := fun _ keycode => keycode |}
              (Linux.initial 1 2)
              {| Linux.category := 0;
                 Linux.data := key_wire_event Byte.x02 Byte.x61 Byte.x41 |}
              eq_refl (or_introl eq_refl))
    as (event_map & Hsend & Hm).
  exists event_map. rewrite Hsend. split; [reflexivity|exact Hm].
Defined.

(** X3 at a concrete input: the left button pressed at (120, 340). *)
Lemma linux_button_event_witness :
  exists event_map,
    Linux.channel
      (Linux.record_event_callback
         {| Linux.g_get_real_time := 1700000000000000;
            Linux.XKeycodeToKeysym := fun _ keycode => keycode |}
         (Linux.initial 1 2)
         {| Linux.category := 0;
            Linux.data := wire_event Byte.x04 Byte.x01 Byte.x78 Byte.x00
                            Byte.x54 Byte.x01 |})
    = [event_map]
    /\ Linux.fl_value_lookup_string event_map "type"
       = Some (Linux.fl_value_new_string "mouseDown")
    /\ Linux.fl_value_lookup_string event_map "x"
       = Some (Linux.fl_value_new_float 120%float)
    /\ Linux.fl_value_lookup_string event_map "y"
       = Some (Linux.fl_value_new_float 340%float).
Proof.
  destruct (linux_button_event
              {| Linux.g_get_real_time := 1700000000000000;
                 Linux.XKeycodeToKeysym := fun _ keycode => keycode |}
              (Linux.initial 1 2)
              {| Linux.category := 0;
                 Linux.data := wire_event Byte.x04 Byte.x01 Byte.x78 Byte.x00
                                 Byte.x54 Byte.x01 |}
              eq_refl (or_introl eq_refl) (or_introl eq_refl))
    as (event_map & Hsend & _ & Hdown & _ & _ & Hx & Hy).
  exists event_map. rewrite Hsend.
  split; [reflexivity|]. split; [exact (Hdown eq_refl)|]. split; assumption.
Defined.

(** X4 at a concrete input: the wheel turned down one notch at (120, 340). *)
Lemma linux_wheel_release_scrolls_again_witness :
  Linux.record_event_callback
    {| Linux.g_get_real_time := 1700000000000000;
       Linux.XKeycodeToKeysym := fun _ keycode => keycode |}
    (Linux.initial 1 2)
    {| Linux.category := 0;
       Linux.data := wire_event Byte.x05 Byte.x05 Byte.x78 Byte.x00
                       Byte.x54 Byte.x01 |}
  = Linux.record_event_callback
      {| Linux.g_get_real_time := 1700000000000000;
         Linux.XKeycodeToKeysym := fun _ keycode => keycode |}
      (Linux.initial 1 2)
      {| Linux.category := 0;
         Linux.data := wire_event Byte.x04 Byte.x05 Byte.x78 Byte.x00
                         Byte.x54 Byte.x01 |}.
Proof.
  apply linux_wheel_release_scrolls_again; try reflexivity.
  vm_compute. split; discriminate.
Defined.

(** X5 at a concrete input: the A key released while Shift is down. *)
Lemma windows_key_event_witness :
  exists event : gmap string Windows.EncodableValue,
    Windows.KeyboardHookProc
      {| Windows.FileTime := 133444736000001234;
         Windows.GetAsyncKeyState :=
           fun vk => if vk =? Windows.VK_SHIFT then -32768 else 0 |}
      (Windows.initial (Some 1%nat)) 0 0x0101 {| Windows.vkCode := 0x41 |}
    = (Windows.Return (-1), Windows.SendEvent event (Windows.initial (Some 1%nat)))
    /\ event !! "type" = Some (Windows.EncodableString "keyUp")
    /\ event !! "modifiers"
       = Some (Windows.EncodableList [Windows.EncodableString "shift"]).
Proof.
  destruct (windows_key_event
              {| Windows.FileTime := 133444736000001234;
                 Windows.GetAsyncKeyState :=
                   fun vk => if vk =? Windows.VK_SHIFT then -32768 else 0 |}
              (Windows.initial (Some 1%nat)) 0 0x0101 {| Windows.vkCode := 0x41 |}
              1%nat ltac:(lia) eq_refl eq_refl)
    as (event & Hret & _ & Hty & _ & Hm).
  exists event. split; [exact Hret|]. split; [exact Hty|exact Hm].
Defined.

(** X6 at a concrete input: the right button released at (10, 20). *)
Lemma windows_button_event_witness :
  exists event : gmap string Windows.EncodableValue,
    Windows.MouseHookProc
      {| Windows.FileTime := 133444736000001234;
         Windows.GetAsyncKeyState := fun _ => 0 |}
      (Windows.initial (Some 1%nat)) 0 Windows.WM_RBUTTONUP
      {| Windows.pt := {| Windows.x := 10; Windows.y := 20 |};
         Windows.mouseData := 0 |}
    = (Windows.Return 1, Windows.SendEvent event (Windows.initial (Some 1%nat)))
    /\ event !! "type" = Some (Windows.EncodableString "mouseUp")
    /\ event !! "button" = Some (Windows.EncodableString "right").
Proof.
  destruct (windows_button_event
              {| Windows.FileTime := 133444736000001234;
                 Windows.GetAsyncKeyState := fun _ => 0 |}
              (Windows.initial (Some 1%nat)) 0 Windows.WM_RBUTTONUP
              {| Windows.pt := {| Windows.x := 10; Windows.y := 20 |};
                 Windows.mouseData := 0 |}
              1%nat ltac:(lia) eq_refl eq_refl
              ltac:(simpl; tauto))
    as (event & Hret & _ & Hty & Hb & _).
  exists event. split; [exact Hret|]. split; [exact Hty|exact Hb].
Defined.

(** X7 at a concrete input: the vertical wheel turned back by two notches
    (high word 0xFF10 = -240). *)
Lemma windows_wheel_event_witness :
  exists event : gmap string Windows.EncodableValue,
    Windows.MouseHookProc
      {| Windows.FileTime := 133444736000001234;
         Windows.GetAsyncKeyState := fun _ => 0 |}
      (Windows.initial (Some 1%nat)) 0 Windows.WM_MOUSEWHEEL
      {| Windows.pt := {| Windows.x := 10; Windows.y := 20 |};
         Windows.mouseData := 0xFF100000 |}
    = (Windows.Return 1, Windows.SendEvent event (Windows.initial (Some 1%nat)))
    /\ event !! "deltaY" = Some (Windows.EncodableDouble (-2)%float).
Proof.
  destruct (windows_wheel_event
              {| Windows.FileTime := 133444736000001234;
                 Windows.GetAsyncKeyState := fun _ => 0 |}
              (Windows.initial (Some 1%nat)) 0 Windows.WM_MOUSEWHEEL (-2)
              {| Windows.pt := {| Windows.x := 10; Windows.y := 20 |};
                 Windows.mouseData := 0xFF100000 |}
              1%nat ltac:(lia) eq_refl eq_refl (or_introl eq_refl)
              ltac:(lia) eq_refl)
    as (event & Hret & _ & _ & Hy).
  exists event. split; [exact Hret|exact Hy].
Defined.

(** X8 at a concrete input: 1234 ticks into the millisecond 1700000000000. *)
Lemma GetTimestamp_counts_milliseconds_since_1970_witness :
  Windows.GetTimestamp 133444736000001234 = 1700000000000.
Proof.
  apply (GetTimestamp_counts_milliseconds_since_1970 _ _ 1234); lia.
Defined.

(** X15 at a concrete input: a running capture is stopped and started again
    with new handles. *)
Lemma linux_capture_restarts_after_stop_witness :
  Linux.held
    (Linux.start_capture
       {| Linux.XOpenDisplay_ret := 200; Linux.XRecordAllocRange_ok := true;
          Linux.XRecordCreateContext_ret := 8; Linux.pthread_create_ret := 0;
          Linux.pthread_create_thread := 10 |}
       (Linux.stop_capture
          (linux_perform_all
             [LinuxMethodCall
                {| Linux.start_answers :=
                     {| Linux.XOpenDisplay_ret := 100;
                        Linux.XRecordAllocRange_ok := true;
                        Linux.XRecordCreateContext_ret := 7;
                        Linux.pthread_create_ret := 0;
                        Linux.pthread_create_thread := 9 |};
                   Linux.XRecordQueryVersion_ret := true |}
                "startCapture"]
             (Linux.initial 1 2))))
  = [Linux.WorkerThread 10; Linux.RecordContext 8; Linux.RecordDisplay 200].
Proof.
  refine (proj2 (linux_capture_restarts_after_stop 1 2 _
    {| Linux.XOpenDisplay_ret := 200; Linux.XRecordAllocRange_ok := true;
       Linux.XRecordCreateContext_ret := 8; Linux.pthread_create_ret := 0;
       Linux.pthread_create_thread := 10 |} _)).
  reflexivity.
Defined.

(** X16 at a concrete input: a running capture is stopped and started again
    with new hooks. *)
Lemma windows_capture_restarts_after_stop_witness :
  Windows.held
    (snd (Windows.StartCapture
            {| Windows.keyboard_ret := 7; Windows.mouse_ret := 8 |}
            (Windows.StopCapture
               (windows_perform_all
                  [WindowsMethodCall
                     {| Windows.keyboard_ret := 5; Windows.mouse_ret := 6 |}
                     "startCapture"]
                  (Windows.initial None)))))
  = [Windows.Hook Windows.WH_MOUSE_LL 8; Windows.Hook Windows.WH_KEYBOARD_LL 7].
Proof.
  refine (proj2 (proj2 (windows_capture_restarts_after_stop None _
    {| Windows.keyboard_ret := 7; Windows.mouse_ret := 8 |} _))).
  reflexivity.
Defined.

(** X17 at a concrete input: hooks 5 and 6 are removed in this order. *)
Lemma windows_stop_removes_keyboard_hook_first_witness :
  Windows.calls
    (Windows.StopCapture
       (windows_perform_all
          [WindowsMethodCall
             {| Windows.keyboard_ret := 5; Windows.mouse_ret := 6 |}
             "startCapture"]
          (Windows.initial None)))
  = [Windows.SetWindowsHookEx Windows.WH_KEYBOARD_LL 5;
     Windows.SetWindowsHookEx Windows.WH_MOUSE_LL 6;
     Windows.UnhookWindowsHookEx 5; Windows.UnhookWindowsHookEx 6].
Proof.
  refine (proj1 (windows_stop_removes_keyboard_hook_first None
    [WindowsMethodCall {| Windows.keyboard_ret := 5; Windows.mouse_ret := 6 |}
       "startCapture"] _)).
  reflexivity.
Defined.

(** X18 at a concrete input: a method the plugin does not know. *)
Lemma linux_other_methods_change_nothing_witness :
  Linux.method_call_cb
    {| Linux.start_answers :=
         {| Linux.XOpenDisplay_ret := 100; Linux.XRecordAllocRange_ok := true;
            Linux.XRecordCreateContext_ret := 7; Linux.pthread_create_ret := 0;
            Linux.pthread_create_thread := 9 |};
       Linux.XRecordQueryVersion_ret := true |}
    "pauseCapture" (Linux.initial 1 2)
  = (Linux.fl_method_not_implemented_response_new, Linux.initial 1 2).
Proof.
  destruct (linux_other_methods_change_nothing
              {| Linux.start_answers :=
                   {| Linux.XOpenDisplay_ret := 100; Linux.XRecordAllocRange_ok := true;
                      Linux.XRecordCreateContext_ret := 7; Linux.pthread_create_ret := 0;
                      Linux.pthread_create_thread := 9 |};
                 Linux.XRecordQueryVersion_ret := true |}
              "pauseCapture" (Linux.initial 1 2)
              ltac:(discriminate) ltac:(discriminate))
    as (Hs & _ & _ & _ & Hn).
  apply injective_projections; [|exact Hs].
  apply Hn; discriminate.
Defined.

(** X19 at a concrete input: a method the plugin does not know. *)
Lemma windows_other_methods_change_nothing_witness :
  Windows.HandleMethodCall {| Windows.keyboard_ret := 5; Windows.mouse_ret := 6 |}
    "pauseCapture" (Windows.initial None)
  = (Windows.NotImplemented, Windows.initial None).
Proof.
  destruct (windows_other_methods_change_nothing
              {| Windows.keyboard_ret := 5; Windows.mouse_ret := 6 |}
              "pauseCapture" (Windows.initial None)
              ltac:(discriminate) ltac:(discriminate))
    as (Hs & _ & _ & _ & Hn).
  apply injective_projections; [|exact Hs].
  apply Hn; discriminate.
Defined.

(** X20 at a concrete input: the two Shift keys share their name and class. *)
Lemma linux_key_names_identify_keys_witness :
  linux_key_class Linux.XK_Shift_L = linux_key_class Linux.XK_Shift_R.
Proof.
  apply linux_key_names_identify_keys;
    [unfold Linux.XK_Shift_L; lia|unfold Linux.XK_Shift_R; lia|reflexivity].
Defined.

(** X21 at a concrete input: the unsided and the right Control key share their
    name and class. *)
Lemma windows_key_names_identify_keys_witness :
  windows_key_class Windows.VK_CONTROL = windows_key_class Windows.VK_RCONTROL.
Proof.
  apply windows_key_names_identify_keys;
    [unfold Windows.VK_CONTROL; lia|unfold Windows.VK_RCONTROL; lia|reflexivity].
Defined.

(** ** Positions of motion records *)

Lemma byte_at_range data i : 0 <= Linux.byte_at data i < 256.
Proof.
  unfold Linux.byte_at.
  pose proof (Byte.to_N_bounded (nth i data Byte.x00)). lia.
Qed.

Lemma int16_at_value data i :
  -32768 <= Linux.int16_at data i <= 32767
  /\ Linux.int16_at data i
     = (if Linux.byte_at data (S i) <? 128
        then Linux.byte_at data i + 256 * Linux.byte_at data (S i)
        else Linux.byte_at data i + 256 * Linux.byte_at data (S i) - 65536).
Proof.
  pose proof (byte_at_range data i) as Hlo.
  pose proof (byte_at_range data (S i)) as Hhi.
  unfold Linux.int16_at, int16. cbv zeta.
  change 65535 with (Z.ones 16). rewrite Z.land_ones by lia.
  rewrite Z.mod_small by (change (2 ^ 16) with 65536; lia).
  destruct (Z.ltb_spec (Linux.byte_at data i + 256 * Linux.byte_at data (S i)) 32768);
    destruct (Z.ltb_spec (Linux.byte_at data (S i)) 128); lia.
Qed.

(** X26.  A pointer-motion record from the server gives an event with exactly
    the fields timestamp, type, x and y, of type mouseMove, whose x and y are
    the doubles of two integers in -32768..32767: the two's-complement values
    of bytes 24, 25 and of bytes 26, 27 of the record, low byte first (low +
    256 high when the high byte is below 0x80, and that minus 65536
    otherwise). *)
Theorem linux_motion_event_position :
  forall (env : Linux.CallbackEnv) (w : Linux.World) (d : Linux.XRecordInterceptData),
    Linux.category d = Linux.XRecordFromServer ->
    Linux.event_type d = Linux.MotionNotify ->
    let byte := Linux.byte_at (Linux.data d) in
    exists (event_map : Linux.FlMap) (x y : Z),
      Linux.record_event_callback env w d = Linux.send_event_to_dart w event_map
      /\ Linux.fields event_map = ["timestamp"; "type"; "x"; "y"]
      /\ Linux.fl_value_lookup_string event_map "type"
         = Some (Linux.fl_value_new_string "mouseMove")
      /\ Linux.fl_value_lookup_string event_map "x"
         = Some (Linux.fl_value_new_float (double_of_Z x))
      /\ Linux.fl_value_lookup_string event_map "y"
         = Some (Linux.fl_value_new_float (double_of_Z y))
      /\ x = (if byte 25%nat <? 128 then byte 24%nat + 256 * byte 25%nat
              else byte 24%nat + 256 * byte 25%nat - 65536)
      /\ y = (if byte 27%nat <? 128 then byte 26%nat + 256 * byte 27%nat
              else byte 26%nat + 256 * byte 27%nat - 65536)
      /\ -32768 <= x <= 32767
      /\ -32768 <= y <= 32767.
Proof.
  intros env w d Hcat Hty byte. subst byte.
  destruct (int16_at_value (Linux.data d) 24) as [Hxr Hx].
  destruct (int16_at_value (Linux.data d) 26) as [Hyr Hy].
  eexists.
  exists (Linux.int16_at (Linux.data d) 24), (Linux.int16_at (Linux.data d) 26).
  split.
  { unfold Linux.record_event_callback. cbv zeta.
    fold (Linux.event_type d). rewrite Hcat, Hty. reflexivity. }
  repeat split; try reflexivity; try assumption; lia.
Qed.

(** X26 at a concrete input: the pointer moved to (-2, 340), just left of the
    root window. *)
Lemma linux_motion_event_position_witness :
  exists event_map,
    Linux.channel
      (Linux.record_event_callback
         {| Linux.g_get_real_time := 1700000000000000;
            Linux.XKeycodeToKeysym := fun _ keycode => keycode |}
         (Linux.initial 1 2)
         {| Linux.category := 0;
            Linux.data := wire_event Byte.x06 Byte.x00 Byte.xfe Byte.xff
                            Byte.x54 Byte.x01 |})
    = [event_map]
    /\ Linux.fl_value_lookup_string event_map "x"
       = Some (Linux.fl_value_new_float (-2)%float)
    /\ Linux.fl_value_lookup_string event_map "y"
       = Some (Linux.fl_value_new_float 340%float).
Proof.
  destruct (linux_motion_event_position
              {| Linux.g_get_real_time := 1700000000000000;
                 Linux.XKeycodeToKeysym := fun _ keycode => keycode |}
              (Linux.initial 1 2)
              {| Linux.category := 0;
                 Linux.data := wire_event Byte.x06 Byte.x00 Byte.xfe Byte.xff
                                 Byte.x54 Byte.x01 |}
              eq_refl eq_refl)
    as (event_map & x & y & Hsend & _ & _ & Hx & Hy & Hxv & Hyv & _).
  exists event_map. rewrite Hsend. split; [reflexivity|].
  rewrite Hx, Hy, Hxv, Hyv. split; reflexivity.
Defined.

(** ** Key names against the listed names *)

(** Both key-name functions are their tables: a code is named by its one
    character when it is in a printable range, by the table entry of its class
    when there is one, and by the fallback name otherwise. *)
Lemma linux_key_names_by_table keysym :
  Linux.keycode_to_string keysym
  = if (Linux.XK_space <=? keysym) && (keysym <=? Linux.XK_asciitilde)
    then String (ascii_of_N (Z.to_N keysym)) EmptyString
    else match name_of_key linux_named_keys (linux_key_class keysym) with
         | Some name => name
         | None => fallback_name keysym
         end.
Proof.
  unfold Linux.keycode_to_string.
  destruct ((Linux.XK_space <=? keysym) && (keysym <=? Linux.XK_asciitilde));
    [reflexivity|].
  repeat match goal with
    | |- (if (?k =? ?c1) || (?k =? ?c2) then _ else _) = _ =>
        destruct (Z.eqb_spec k c1) as [->|?]; [reflexivity|];
        destruct (Z.eqb_spec k c2) as [->|?]; [reflexivity|]; cbn [orb]
    | |- (if ?k =? ?c1 then _ else _) = _ =>
        destruct (Z.eqb_spec k c1) as [->|?]; [reflexivity|]
    end.
  unfold linux_key_class, name_of_key, linux_named_keys. cbn [find fst].
  repeat match goal with
    | H : ?k <> ?c |- _ =>
        progress (rewrite ?(proj2 (Z.eqb_neq k c) H),
                    ?(proj2 (Z.eqb_neq c k) (not_eq_sym H)); cbn [find fst orb])
    end.
  reflexivity.
Qed.

Lemma windows_key_names_by_table vkCode :
  Windows.VKeyToString vkCode
  = if (0x30 <=? vkCode) && (vkCode <=? 0x39)
    then String (ascii_of_N (Z.to_N vkCode)) EmptyString
    else if (0x41 <=? vkCode) && (vkCode <=? 0x5A)
    then String (ascii_of_N (Z.to_N (vkCode + 32))) EmptyString
    else match name_of_key windows_named_keys (windows_key_class vkCode) with
         | Some name => name
         | None => fallback_name vkCode
         end.
Proof.
  unfold Windows.VKeyToString.
  destruct ((48 <=? vkCode) && (vkCode <=? 57)); [reflexivity|].
  destruct ((65 <=? vkCode) && (vkCode <=? 90)); [reflexivity|].
  repeat match goal with
    | |- (if (?k =? ?c1) || (?k =? ?c2) || (?k =? ?c3) then _ else _) = _ =>
        destruct (Z.eqb_spec k c1) as [->|?]; [reflexivity|];
        destruct (Z.eqb_spec k c2) as [->|?]; [reflexivity|];
        destruct (Z.eqb_spec k c3) as [->|?]; [reflexivity|]; cbn [orb]
    | |- (if (?k =? ?c1) || (?k =? ?c2) then _ else _) = _ =>
        destruct (Z.eqb_spec k c1) as [->|?]; [reflexivity|];
        destruct (Z.eqb_spec k c2) as [->|?]; [reflexivity|]; cbn [orb]
    | |- (if ?k =? ?c1 then _ else _) = _ =>
        destruct (Z.eqb_spec k c1) as [->|?]; [reflexivity|]
    end.
  unfold windows_key_class, name_of_key, windows_named_keys. cbn [find fst].
  repeat match goal with
    | H : ?k <> ?c |- _ =>
        progress (rewrite ?(proj2 (Z.eqb_neq k c) H),
                    ?(proj2 (Z.eqb_neq c k) (not_eq_sym H)); cbn [find fst orb])
    end.
  reflexivity.
Qed.

(** C6, where the code departs from it.  The kernel-stream decoder names the
    left and right Super keys "Super", and the hook decoder names the space
    bar "Space": neither name is one printable character, one of the listed
    symbolic names, or the fallback name of the code.  The other decoder does
    what the claim says at each of these keys: the hook decoder names both
    Windows keys "Meta", a listed name, and the kernel-stream decoder names
    the space keysym by its one character. *)
Theorem super_and_space_key_names :
  Linux.keycode_to_string Linux.XK_Super_L = "Super"
  /\ Linux.keycode_to_string Linux.XK_Super_R = "Super"
  /\ Windows.VKeyToString Windows.VK_SPACE = "Space"
  /\ ~ In "Super" canonical_names
  /\ ~ single_printable "Super"
  /\ "Super" <> fallback_name Linux.XK_Super_L
  /\ "Super" <> fallback_name Linux.XK_Super_R
  /\ ~ In "Space" canonical_names
  /\ ~ single_printable "Space"
  /\ "Space" <> fallback_name Windows.VK_SPACE
  /\ Windows.VKeyToString Windows.VK_LWIN = "Meta"
  /\ Windows.VKeyToString Windows.VK_RWIN = "Meta"
  /\ In "Meta" canonical_names
  /\ Linux.keycode_to_string Linux.XK_space = " "
  /\ single_printable " ".
Proof.
  assert (Hnot : forall name : string,
            (forallb (fun n => negb (String.eqb n name)) canonical_names = true) ->
            ~ In name canonical_names).
  { intros name Hall Hin. rewrite forallb_forall in Hall.
    specialize (Hall _ Hin). now rewrite String.eqb_refl in Hall. }
  repeat match goal with |- _ /\ _ => split end;
    try reflexivity; try discriminate.
  - apply Hnot. reflexivity.
  - intros (c & H & _). discriminate H.
  - apply Hnot. reflexivity.
  - intros (c & H & _). discriminate H.
  - simpl. tauto.
  - exists " "%char. split; [reflexivity|]. simpl. lia.
Qed.

(** ** Sending without a listener *)

(** C9, where the code departs from it.  On the kernel-stream platform the
    callbacks that run when a listener attaches or detaches leave the plugin
    as it is, and [send_event_to_dart] tests only the handler object made at
    registration: once the plugin is registered, an event is put on the
    channel whether or not anyone listens, also right after the listener
    detached.  The hook plugin does what the claim says: after a cancellation
    its send changes nothing. *)
Theorem linux_sends_without_a_listener :
  (forall (w : Linux.World) (event : Linux.FlMap),
     Linux.event_handler (Linux.self w) <> 0 ->
     Linux.cancel_cb w = (None, w)
     /\ Linux.listen_cb w = (None, w)
     /\ Linux.send_event_to_dart (snd (Linux.cancel_cb w)) event
        = {| Linux.self := Linux.self w; Linux.calls := Linux.calls w;
             Linux.channel := Linux.channel w ++ [event] |})
  /\ (forall (env : Linux.CallbackEnv) (w : Linux.World)
             (d : Linux.XRecordInterceptData),
        Linux.event_handler (Linux.self w) <> 0 ->
        Linux.category d = Linux.XRecordFromServer ->
        Linux.recognized (Linux.event_type d) = true ->
        exists event_map,
          Linux.channel
            (Linux.record_event_callback env (snd (Linux.cancel_cb w)) d)
          = Linux.channel w ++ [event_map])
  /\ (forall (w : Windows.World) (event : gmap string Windows.EncodableValue),
        Windows.SendEvent event (Windows.OnCancelInternal w)
        = Windows.OnCancelInternal w).
Proof.
  split; [|split].
  - intros w event H. apply Z.eqb_neq in H.
    repeat split. simpl. unfold Linux.send_event_to_dart. now rewrite H.
  - intros env w d Hh Hcat Hrec. simpl. apply Z.eqb_neq in Hh.
    unfold Linux.recognized in Hrec.
    unfold Linux.record_event_callback. cbv zeta.
    fold (Linux.event_type d). rewrite Hcat. cbn [Z.eqb negb].
    destruct (Linux.event_type d =? Linux.KeyPress) eqn:E1;
      [|destruct (Linux.event_type d =? Linux.KeyRelease) eqn:E2;
        [|destruct (Linux.event_type d =? Linux.ButtonPress) eqn:E3;
          [|destruct (Linux.event_type d =? Linux.ButtonRelease) eqn:E4;
            [|destruct (Linux.event_type d =? Linux.MotionNotify) eqn:E5;
              [|discriminate Hrec]]]]];
      cbn [orb];
      unfold Linux.send_event_to_dart; rewrite Hh; cbn [negb Linux.channel];
      eexists; reflexivity.
  - reflexivity.
Qed.

(** C9 at the failing input: a registered plugin (handler 2) whose listener
    has just detached is handed the press of key code 38; the event is put on
    the channel all the same. *)
Lemma linux_sends_without_a_listener_witness :
  exists event_map,
    Linux.channel
      (Linux.record_event_callback
         {| Linux.g_get_real_time := 1700000000000000;
            Linux.XKeycodeToKeysym := fun _ keycode => keycode |}
         (snd (Linux.cancel_cb (Linux.initial 1 2)))
         {| Linux.category := 0;
            Linux.data := key_wire_event Byte.x02 Byte.x26 Byte.x00 |})
    = [event_map].
Proof.
  destruct linux_sends_without_a_listener as (_ & H & _).
  exact (H {| Linux.g_get_real_time := 1700000000000000;
              Linux.XKeycodeToKeysym := fun _ keycode => keycode |}
           (Linux.initial 1 2)
           {| Linux.category := 0;
              Linux.data := key_wire_event Byte.x02 Byte.x26 Byte.x00 |}
           ltac:(simpl; lia) eq_refl eq_refl).
Defined.
